(** * EMS: booking, availability, payment and refund workflow

    A shallow embedding of [BookingService] (booking.service.ts) and
    [PaymentService] (payment.service.ts) together with the Mongoose schemas
    they read and write.

    Conventions of the embedding:
    - a JavaScript [number] that holds an amount, a count or a number of hours
      is an integer [Z]; [NaN] only arises from [parseInt] and is the [None]
      of [option Z]. Amounts are therefore whole rupees: the request bodies
      also accept fractional amounts ([@IsNumber()], [@Min(1)]), which this
      embedding leaves out, and what is proved about amounts is proved of
      whole amounts;
    - a [Date] is its [getTime()] value, milliseconds since the epoch, in [Z];
    - a Mongo collection keyed by [_id] is a [gmap]; the payment collection is
      a list because [findOne] returns the first match in insertion order;
    - a reference that a query populates holds the referenced document, or
      [null] when that document is gone; of the users, the database keeps the
      fields that [populate] selects;
    - a service method is a computation in the monad [M]: it reads and writes
      the database and either returns a value or throws; what was saved before
      a throw stays saved;
    - the clock ([new Date()], [Date.now()]), the random bytes of a reference
      id and the answers of the remote gateway are arguments;
    - e-mail notifications are left out: both services catch and log their
      failures and they never touch the database. *)

From Stdlib Require Import ZArith QArith Qround String Ascii List Bool Lia.
From stdpp Require Import base gmap strings list pretty.

Open Scope string_scope.
Open Scope Z_scope.

(** ** JavaScript primitives used by the services *)

Module JS.

(** Numbers that may be [NaN]. *)
Definition number : Type := option Z.
Definition NaN : number := None.

Definition mul (a b : number) : number :=
  match a, b with Some x, Some y => Some (x * y) | _, _ => NaN end.
Definition add (a b : number) : number :=
  match a, b with Some x, Some y => Some (x + y) | _, _ => NaN end.
Definition sub (a b : number) : number :=
  match a, b with Some x, Some y => Some (x - y) | _, _ => NaN end.

(** [a < b] and [a > b]: false as soon as one side is [NaN]. *)
Definition lt (a b : number) : bool :=
  match a, b with Some x, Some y => x <? y | _, _ => false end.
Definition gt (a b : number) : bool :=
  match a, b with Some x, Some y => x >? y | _, _ => false end.

(** [s.split(sep)] for a one-character separator. *)
Fixpoint split (sep : ascii) (s : string) : list string :=
  match s with
  | EmptyString => [EmptyString]
  | String c s' =>
      if Ascii.eqb c sep then EmptyString :: split sep s'
      else match split sep s' with
           | [] => [String c EmptyString]
           | w :: ws => String c w :: ws
           end
  end.

(** White space in the ASCII range: tab, line feed, vertical tab, form feed,
    carriage return, space. *)
Definition isWhiteSpace (c : ascii) : bool :=
  let n := nat_of_ascii c in
  ((9 <=? n) && (n <=? 13))%nat || (n =? 32)%nat.

Fixpoint trimStart (s : string) : string :=
  match s with
  | String c s' => if isWhiteSpace c then trimStart s' else s
  | EmptyString => EmptyString
  end.

(** Value of a digit in the given radix (10 or 16). *)
Definition digitVal (radix : Z) (c : ascii) : option Z :=
  let n := Z.of_nat (nat_of_ascii c) in
  let v := if (48 <=? n) && (n <=? 57) then Some (n - 48)
           else if (97 <=? n) && (n <=? 102) then Some (n - 87)
           else if (65 <=? n) && (n <=? 70) then Some (n - 55)
           else None in
  match v with
  | Some d => if d <? radix then Some d else None
  | None => None
  end.

(** The longest prefix of digits; [acc] is [NaN] until a digit was read. *)
Fixpoint digits (radix : Z) (acc : number) (s : string) : number :=
  match s with
  | String c s' =>
      match digitVal radix c with
      | Some d => digits radix (Some (radix * default 0 acc + d)) s'
      | None => acc
      end
  | EmptyString => acc
  end.

(** [parseInt(s)] without a radix argument: leading white space, a sign,
    an optional [0x] prefix, then digits; [NaN] when there is no digit. *)
Definition parseInt (s : string) : number :=
  let s := trimStart s in
  let '(sign, s) :=
    match s with
    | String "-" r => (-1, r)
    | String "+" r => (1, r)
    | _ => (1, s)
    end in
  let '(radix, s) :=
    match s with
    | String "0" (String "x" r) => (16, r)
    | String "0" (String "X" r) => (16, r)
    | _ => (10, s)
    end in
  Z.mul sign <$> digits radix NaN s.

(** [parseInt(s.split(':')[i])]; a missing part is [undefined], and
    [parseInt(undefined)] is [NaN]. *)
Definition parsePart (s : string) (i : nat) : number :=
  split ":" s !! i ≫= parseInt.

(** [Math.round]: the nearest integer, a tie going up (towards plus
    infinity). *)
Definition Math_round (q : Q) : Z := Qfloor (q + (1 # 2))%Q.

(** [s.startsWith(p)]. *)
Definition startsWith (p s : string) : bool := String.prefix p s.

(** [s.replace(p, '')] when [s] starts with [p]: the first occurrence is the
    prefix. *)
Definition dropPrefix (p s : string) : string :=
  String.substring (String.length p) (String.length s - String.length p)%nat s.

End JS.

(** ** Schemas *)

Definition ObjectId : Type := nat.

(** A [Date]: milliseconds since the epoch. *)
Definition Date : Type := Z.

Inductive BookingStatus : Type := PENDING | CONFIRMED | CANCELLED | COMPLETED.

Inductive PaymentStatus : Type := UNPAID | PARTIAL | PAID | REFUNDED.

Inductive EventType : Type :=
  | WEDDING | BIRTHDAY | CORPORATE | ANNIVERSARY | ENGAGEMENT
  | RECEPTION | CONFERENCE | SEMINAR | OTHER.

Inductive PaymentGateway : Type := ESEWA | KHALTI.

Inductive PaymentType : Type := ADVANCE | FULL | BALANCE | REFUND.

(** [TransactionStatus]; its members carry a prefix because [PENDING] and
    [COMPLETED] are already members of [BookingStatus]. *)
Inductive TransactionStatus : Type :=
  | TX_INITIATED | TX_PENDING | TX_COMPLETED | TX_FAILED | TX_REFUNDED.

#[global] Instance BookingStatus_eq_dec : EqDecision BookingStatus.
Proof. solve_decision. Defined.
#[global] Instance PaymentStatus_eq_dec : EqDecision PaymentStatus.
Proof. solve_decision. Defined.
#[global] Instance PaymentGateway_eq_dec : EqDecision PaymentGateway.
Proof. solve_decision. Defined.
#[global] Instance PaymentType_eq_dec : EqDecision PaymentType.
Proof. solve_decision. Defined.
#[global] Instance TransactionStatus_eq_dec : EqDecision TransactionStatus.
Proof. solve_decision. Defined.

(** user.schema.ts, the fields that [populate('ownerId', 'name email
    phoneNumber')] selects. *)
Module User.

Record t : Type := mk {
  name : string;
  email : string;
  phoneNumber : option string
}.

#[global] Instance eq_dec : EqDecision t.
Proof. solve_decision. Defined.

End User.

(** What [x.toString()] gives for a reference field [x]: the hexadecimal
    string of an ObjectId, or, when the field was populated, the printed form
    of the document ([{ _id: ..., name: ..., ... }]), which is not the string
    of any ObjectId. The ids that the controllers pass on ([req.user.userId],
    from the token) are strings of ObjectIds. *)
Inductive IdString : Type :=
  | Hex (id : ObjectId)
  | Inspected (id : ObjectId) (doc : User.t).

#[global] Instance IdString_eq_dec : EqDecision IdString.
Proof. solve_decision. Defined.

(** The [cancellationPolicy] object of a venue. *)
Record CancellationPolicy : Type := {
  fullRefundHours : Z;
  partialRefundHours : Z;
  partialRefundPercentage : Z;
  noRefundHours : Z
}.

(** venue.schema.ts, the fields the two services read. [cancellationPolicy]
    may be absent: [calculateRefund] provides for a venue without one. *)
Module Venue.

Record t : Type := mk {
  name : string;
  ownerId : ObjectId;
  minCapacity : Z;
  maxCapacity : Z;
  pricePerHour : Z;
  openingTime : string;
  closingTime : string;
  blockedDates : list Date;
  isActive : bool;
  cancellationPolicy : option CancellationPolicy
}.

End Venue.

(** booking.schema.ts. The [set_] functions are the field assignments
    [booking.f = x]. *)
Module Booking.

Record t : Type := mk {
  userId : ObjectId;
  venueId : ObjectId;
  eventDate : Date;
  startTime : string;
  endTime : string;
  eventType : EventType;
  guestCount : Z;
  totalAmount : Z;
  advancePaid : Z;
  balanceAmount : Z;
  status : BookingStatus;
  paymentStatus : PaymentStatus;
  specialRequests : option string;
  contactName : string;
  contactPhone : string;
  contactEmail : string;
  cancellationReason : option string;
  cancelledAt : option Date;
  refundAmount : Z;
  refundPercentage : Z
}.

Definition set_eventDate (x : Date) (r : t) : t :=
  {| userId := userId r; venueId := venueId r; eventDate := x;
     startTime := startTime r; endTime := endTime r;
     eventType := eventType r; guestCount := guestCount r;
     totalAmount := totalAmount r; advancePaid := advancePaid r;
     balanceAmount := balanceAmount r; status := status r;
     paymentStatus := paymentStatus r;
     specialRequests := specialRequests r;
     contactName := contactName r; contactPhone := contactPhone r;
     contactEmail := contactEmail r;
     cancellationReason := cancellationReason r;
     cancelledAt := cancelledAt r; refundAmount := refundAmount r;
     refundPercentage := refundPercentage r |}.

Definition set_startTime (x : string) (r : t) : t :=
  {| userId := userId r; venueId := venueId r; eventDate := eventDate r;
     startTime := x; endTime := endTime r; eventType := eventType r;
     guestCount := guestCount r; totalAmount := totalAmount r;
     advancePaid := advancePaid r; balanceAmount := balanceAmount r;
     status := status r; paymentStatus := paymentStatus r;
     specialRequests := specialRequests r;
     contactName := contactName r; contactPhone := contactPhone r;
     contactEmail := contactEmail r;
     cancellationReason := cancellationReason r;
     cancelledAt := cancelledAt r; refundAmount := refundAmount r;
     refundPercentage := refundPercentage r |}.

Definition set_endTime (x : string) (r : t) : t :=
  {| userId := userId r; venueId := venueId r; eventDate := eventDate r;
     startTime := startTime r; endTime := x;
     eventType := eventType r; guestCount := guestCount r;
     totalAmount := totalAmount r; advancePaid := advancePaid r;
     balanceAmount := balanceAmount r; status := status r;
     paymentStatus := paymentStatus r;
     specialRequests := specialRequests r;
     contactName := contactName r; contactPhone := contactPhone r;
     contactEmail := contactEmail r;
     cancellationReason := cancellationReason r;
     cancelledAt := cancelledAt r; refundAmount := refundAmount r;
     refundPercentage := refundPercentage r |}.

Definition set_totalAmount (x : Z) (r : t) : t :=
  {| userId := userId r; venueId := venueId r; eventDate := eventDate r;
     startTime := startTime r; endTime := endTime r;
     eventType := eventType r; guestCount := guestCount r;
     totalAmount := x; advancePaid := advancePaid r;
     balanceAmount := balanceAmount r; status := status r;
     paymentStatus := paymentStatus r;
     specialRequests := specialRequests r;
     contactName := contactName r; contactPhone := contactPhone r;
     contactEmail := contactEmail r;
     cancellationReason := cancellationReason r;
     cancelledAt := cancelledAt r; refundAmount := refundAmount r;
     refundPercentage := refundPercentage r |}.

Definition set_advancePaid (x : Z) (r : t) : t :=
  {| userId := userId r; venueId := venueId r; eventDate := eventDate r;
     startTime := startTime r; endTime := endTime r;
     eventType := eventType r; guestCount := guestCount r;
     totalAmount := totalAmount r; advancePaid := x;
     balanceAmount := balanceAmount r; status := status r;
     paymentStatus := paymentStatus r;
     specialRequests := specialRequests r;
     contactName := contactName r; contactPhone := contactPhone r;
     contactEmail := contactEmail r;
     cancellationReason := cancellationReason r;
     cancelledAt := cancelledAt r; refundAmount := refundAmount r;
     refundPercentage := refundPercentage r |}.

Definition set_balanceAmount (x : Z) (r : t) : t :=
  {| userId := userId r; venueId := venueId r; eventDate := eventDate r;
     startTime := startTime r; endTime := endTime r;
     eventType := eventType r; guestCount := guestCount r;
     totalAmount := totalAmount r; advancePaid := advancePaid r;
     balanceAmount := x; status := status r;
     paymentStatus := paymentStatus r;
     specialRequests := specialRequests r;
     contactName := contactName r; contactPhone := contactPhone r;
     contactEmail := contactEmail r;
     cancellationReason := cancellationReason r;
     cancelledAt := cancelledAt r; refundAmount := refundAmount r;
     refundPercentage := refundPercentage r |}.

Definition set_status (x : BookingStatus) (r : t) : t :=
  {| userId := userId r; venueId := venueId r; eventDate := eventDate r;
     startTime := startTime r; endTime := endTime r;
     eventType := eventType r; guestCount := guestCount r;
     totalAmount := totalAmount r; advancePaid := advancePaid r;
     balanceAmount := balanceAmount r; status := x;
     paymentStatus := paymentStatus r;
     specialRequests := specialRequests r;
     contactName := contactName r; contactPhone := contactPhone r;
     contactEmail := contactEmail r;
     cancellationReason := cancellationReason r;
     cancelledAt := cancelledAt r; refundAmount := refundAmount r;
     refundPercentage := refundPercentage r |}.

Definition set_paymentStatus (x : PaymentStatus) (r : t) : t :=
  {| userId := userId r; venueId := venueId r; eventDate := eventDate r;
     startTime := startTime r; endTime := endTime r;
     eventType := eventType r; guestCount := guestCount r;
     totalAmount := totalAmount r; advancePaid := advancePaid r;
     balanceAmount := balanceAmount r; status := status r;
     paymentStatus := x; specialRequests := specialRequests r;
     contactName := contactName r; contactPhone := contactPhone r;
     contactEmail := contactEmail r;
     cancellationReason := cancellationReason r;
     cancelledAt := cancelledAt r; refundAmount := refundAmount r;
     refundPercentage := refundPercentage r |}.

Definition set_cancellationReason (x : option string) (r : t) : t :=
  {| userId := userId r; venueId := venueId r; eventDate := eventDate r;
     startTime := startTime r; endTime := endTime r;
     eventType := eventType r; guestCount := guestCount r;
     totalAmount := totalAmount r; advancePaid := advancePaid r;
     balanceAmount := balanceAmount r; status := status r;
     paymentStatus := paymentStatus r;
     specialRequests := specialRequests r;
     contactName := contactName r; contactPhone := contactPhone r;
     contactEmail := contactEmail r; cancellationReason := x;
     cancelledAt := cancelledAt r; refundAmount := refundAmount r;
     refundPercentage := refundPercentage r |}.

Definition set_cancelledAt (x : option Date) (r : t) : t :=
  {| userId := userId r; venueId := venueId r; eventDate := eventDate r;
     startTime := startTime r; endTime := endTime r;
     eventType := eventType r; guestCount := guestCount r;
     totalAmount := totalAmount r; advancePaid := advancePaid r;
     balanceAmount := balanceAmount r; status := status r;
     paymentStatus := paymentStatus r;
     specialRequests := specialRequests r;
     contactName := contactName r; contactPhone := contactPhone r;
     contactEmail := contactEmail r;
     cancellationReason := cancellationReason r; cancelledAt := x;
     refundAmount := refundAmount r;
     refundPercentage := refundPercentage r |}.

Definition set_refundAmount (x : Z) (r : t) : t :=
  {| userId := userId r; venueId := venueId r; eventDate := eventDate r;
     startTime := startTime r; endTime := endTime r;
     eventType := eventType r; guestCount := guestCount r;
     totalAmount := totalAmount r; advancePaid := advancePaid r;
     balanceAmount := balanceAmount r; status := status r;
     paymentStatus := paymentStatus r;
     specialRequests := specialRequests r;
     contactName := contactName r; contactPhone := contactPhone r;
     contactEmail := contactEmail r;
     cancellationReason := cancellationReason r;
     cancelledAt := cancelledAt r; refundAmount := x;
     refundPercentage := refundPercentage r |}.

Definition set_refundPercentage (x : Z) (r : t) : t :=
  {| userId := userId r; venueId := venueId r; eventDate := eventDate r;
     startTime := startTime r; endTime := endTime r;
     eventType := eventType r; guestCount := guestCount r;
     totalAmount := totalAmount r; advancePaid := advancePaid r;
     balanceAmount := balanceAmount r; status := status r;
     paymentStatus := paymentStatus r;
     specialRequests := specialRequests r;
     contactName := contactName r; contactPhone := contactPhone r;
     contactEmail := contactEmail r;
     cancellationReason := cancellationReason r;
     cancelledAt := cancelledAt r; refundAmount := refundAmount r;
     refundPercentage := x |}.

End Booking.

(** What the gateways send back, as far as the services read it. *)
Record EsewaCallback : Type := {
  transaction_uuid : string;
  total_amount : string;
  transaction_code : string;
  esewa_status : string
}.

Record KhaltiInitiation : Type := {
  init_pidx : string;
  payment_url : string
}.

Record KhaltiLookup : Type := {
  lookup_status : string;
  transaction_id : string
}.

(** The [gatewayResponse] blob stored on a payment. *)
Inductive GatewayResponse : Type :=
  | EsewaDecoded (d : EsewaCallback)
  | KhaltiInitiated (r : KhaltiInitiation)
  | KhaltiLookedUp (r : KhaltiLookup)
  | KhaltiMock (pidx : string).

(** payment.schema.ts. *)
Module Payment.

Record t : Type := mk {
  _id : ObjectId;
  bookingId : ObjectId;
  userId : ObjectId;
  venueId : ObjectId;
  amount : Z;
  gateway : PaymentGateway;
  paymentType : PaymentType;
  status : TransactionStatus;
  transactionId : option string;
  referenceId : string;
  gatewayResponse : option GatewayResponse;
  refundReason : option string;
  originalPaymentId : option ObjectId
}.

Definition set_status (x : TransactionStatus) (r : t) : t :=
  {| _id := _id r; bookingId := bookingId r; userId := userId r;
     venueId := venueId r; amount := amount r; gateway := gateway r;
     paymentType := paymentType r; status := x;
     transactionId := transactionId r; referenceId := referenceId r;
     gatewayResponse := gatewayResponse r;
     refundReason := refundReason r;
     originalPaymentId := originalPaymentId r |}.

Definition set_transactionId (x : option string) (r : t) : t :=
  {| _id := _id r; bookingId := bookingId r; userId := userId r;
     venueId := venueId r; amount := amount r; gateway := gateway r;
     paymentType := paymentType r; status := status r;
     transactionId := x; referenceId := referenceId r;
     gatewayResponse := gatewayResponse r;
     refundReason := refundReason r;
     originalPaymentId := originalPaymentId r |}.

Definition set_gatewayResponse (x : option GatewayResponse) (r : t) : t :=
  {| _id := _id r; bookingId := bookingId r; userId := userId r;
     venueId := venueId r; amount := amount r; gateway := gateway r;
     paymentType := paymentType r; status := status r;
     transactionId := transactionId r; referenceId := referenceId r;
     gatewayResponse := x; refundReason := refundReason r;
     originalPaymentId := originalPaymentId r |}.

End Payment.

(** ** Request bodies (DTOs) *)

Module CreateBookingDto.
Record t : Type := {
  venueId : ObjectId;
  eventDate : Date;
  startTime : string;
  endTime : string;
  eventType : EventType;
  guestCount : Z;
  contactName : string;
  contactPhone : string;
  contactEmail : string;
  specialRequests : option string
}.
End CreateBookingDto.

Module UpdateBookingStatusDto.
Record t : Type := {
  status : option BookingStatus;
  paymentStatus : option PaymentStatus;
  cancellationReason : option string
}.
End UpdateBookingStatusDto.

Module RescheduleBookingDto.
Record t : Type := {
  newEventDate : Date;
  newStartTime : string;
  newEndTime : string
}.
End RescheduleBookingDto.

(** initiate-payment.dto.ts. [amount] is [@IsNumber() @Min(1)]; the
    embedding takes the whole amounts. *)
Module InitiatePaymentDto.
Record t : Type := {
  bookingId : ObjectId;
  amount : Z;
  gateway : PaymentGateway;
  paymentType : option PaymentType
}.
End InitiatePaymentDto.

(** ** The database and the monad of service methods *)

Inductive Exception : Type :=
  | NotFoundException (message : string)
  | BadRequestException (message : string)
  | ForbiddenException (message : string)
  | ValidationError (message : string)
  | MongoServerError (message : string)
  | SyntaxError (message : string)
  | AxiosError (message : string)
  | TypeError (message : string).

Record Store : Type := {
  userModel : gmap ObjectId User.t;
  venueModel : gmap ObjectId Venue.t;
  bookingModel : gmap ObjectId Booking.t;
  paymentModel : list Payment.t
}.

(** A service method: from the database to a thrown exception or a returned
    value, and the database it leaves. *)
Definition M (A : Type) : Type := Store → (Exception + A) * Store.

#[global] Instance M_ret : MRet M := λ A a st, (inr a, st).

#[global] Instance M_bind : MBind M := λ A B f m st,
  match m st with
  | (inr a, st') => f a st'
  | (inl e, st') => (inl e, st')
  end.

Definition throw {A : Type} (e : Exception) : M A := λ st, (inl e, st).

(** [try { m } catch (error) { h error }]. *)
Definition try_catch {A : Type} (m : M A) (h : Exception → M A) : M A :=
  λ st, match m st with
        | (inl e, st') => h e st'
        | (inr a, st') => (inr a, st')
        end.

Module Db.

(** [venueModel.findById(id)]. *)
Definition findVenue (id : ObjectId) : M (option Venue.t) :=
  λ st, (inr (venueModel st !! id), st).

(** [populate] of a reference to a user: the document of the user with that
    [_id], or [null] when there is none. *)
Definition populateUser (id : ObjectId) : M (option User.t) :=
  λ st, (inr (userModel st !! id), st).

(** [bookingModel.findById(id)]. *)
Definition findBooking (id : ObjectId) : M (option Booking.t) :=
  λ st, (inr (bookingModel st !! id), st).

(** [bookingModel.find(filter)]. *)
Definition findBookings (f : Booking.t → bool) : M (list Booking.t) :=
  λ st, (inr (List.filter f (map_to_list (bookingModel st)).*2), st).

(** [booking.save()] of the document with the given [_id]. *)
Definition saveBooking (id : ObjectId) (b : Booking.t) : M unit :=
  λ st, (inr tt, {| userModel := userModel st;
                    venueModel := venueModel st;
                    bookingModel := <[id := b]> (bookingModel st);
                    paymentModel := paymentModel st |}).

(** The [_id] of a new booking document: one that no booking has. *)
Definition newBookingId : M ObjectId :=
  λ st, (inr (fresh (dom (bookingModel st))), st).

(** [paymentModel.findOne(filter)]: the first match. *)
Definition findOnePayment (f : Payment.t → bool) : M (option Payment.t) :=
  λ st, (inr (List.find f (paymentModel st)), st).

(** The update of one document of the collection: only the one with the
    given [_id] changes. *)
Definition updateIn (id : ObjectId) (f : Payment.t → Payment.t) (q : Payment.t)
  : Payment.t :=
  if bool_decide (Payment._id q = id) then f q else q.

(** [paymentModel.findByIdAndUpdate(id, update)]. *)
Definition updatePayment (id : ObjectId) (f : Payment.t → Payment.t) : M unit :=
  λ st, (inr tt, {| userModel := userModel st;
                    venueModel := venueModel st;
                    bookingModel := bookingModel st;
                    paymentModel := updateIn id f <$> paymentModel st |}).

(** [payment.save()] of a document that was read from the collection. *)
Definition savePayment (p : Payment.t) : M unit :=
  updatePayment (Payment._id p) (λ _, p).

(** [paymentModel.create(doc)]: a new [_id]; the unique index on
    [referenceId] rejects a duplicate. *)
Definition createPayment (mk : ObjectId → Payment.t) : M Payment.t :=
  λ st,
    let id := fresh (list_to_set (Payment._id <$> paymentModel st) : gset ObjectId) in
    let p := mk id in
    if existsb (λ q, bool_decide (Payment.referenceId q = Payment.referenceId p))
               (paymentModel st)
    then (inl (MongoServerError "E11000 duplicate key error"), st)
    else (inr p, {| userModel := userModel st;
                    venueModel := venueModel st;
                    bookingModel := bookingModel st;
                    paymentModel := paymentModel st ++ [p] |}).

(** [bookingModel.findByIdAndDelete(id)]. *)
Definition deleteBooking (id : ObjectId) : M unit :=
  λ st, (inr tt, {| userModel := userModel st;
                    venueModel := venueModel st;
                    bookingModel := delete id (bookingModel st);
                    paymentModel := paymentModel st |}).

(** [venue.save()] of the document with the given [_id]. *)
Definition saveVenue (id : ObjectId) (v : Venue.t) : M unit :=
  λ st, (inr tt, {| userModel := userModel st;
                    venueModel := <[id := v]> (venueModel st);
                    bookingModel := bookingModel st;
                    paymentModel := paymentModel st |}).

(** [paymentModel.findById(id)]. *)
Definition findPayment (id : ObjectId) : M (option Payment.t) :=
  λ st, (inr (List.find (λ p, bool_decide (Payment._id p = id)) (paymentModel st)),
         st).

End Db.

(** ** BookingService *)

Module BookingService.

Definition msPerDay : Z := 86400000.
Definition msPerHour : Z := 1000 * 60 * 60.

(** [d.toISOString().split('T')[0]]: the calendar day in UTC, here as the
    number of the day since the epoch (two dates give the same string
    exactly when they give the same number). *)
Definition isoDay (d : Date) : Z := d / msPerDay.

Record RefundInfo : Type := {
  refundAmount : Z;
  refundPercentage : Z;
  message : string
}.

Record RefundEstimate : Type := {
  bookingId : ObjectId;
  paidAmount : Z;
  refundInfo : RefundInfo;
  cancellationPolicy : option CancellationPolicy
}.

(** [venueService.findById]: throws when the venue is absent. Its query
    populates [ownerId]; what a caller then finds in [venue.ownerId] is
    [populatedOwnerId]. *)
Definition venueService_findById (id : ObjectId) : M Venue.t :=
  ov ← Db.findVenue id;
  match ov with
  | Some venue => mret venue
  | None => throw (NotFoundException "Venue not found")
  end.

(** [venue.ownerId] of a venue that [venueService.findById] returned: the
    field was populated, so it holds the document of the owner, or [null]
    when the account of the owner no longer exists. The methods below write
    nothing between their [findById] and their reading of the field. *)
Definition populatedOwnerId (venue : Venue.t) : M (option User.t) :=
  Db.populateUser (Venue.ownerId venue).

(** [venue.ownerId.toString() === userId] on that field: [toString] of
    [null] is a TypeError; on the document of the owner it is the printed
    document. *)
Definition ownerIdIs (venue : Venue.t) (userId : ObjectId) : M bool :=
  owner ← populatedOwnerId venue;
  match owner with
  | None =>
      throw (TypeError "Cannot read properties of null (reading 'toString')")
  | Some doc =>
      mret (bool_decide (Inspected (Venue.ownerId venue) doc = Hex userId))
  end.

Definition defaultPolicy : CancellationPolicy :=
  {| fullRefundHours := 72;
     partialRefundHours := 24;
     partialRefundPercentage := 50;
     noRefundHours := 0 |}.

(** [(eventDate.getTime() - now.getTime()) / (1000 * 60 * 60)]. *)
Definition hoursUntilEvent (eventDate now : Date) : Q :=
  Qmake (eventDate - now) 3600000.

(** [calculateRefund(booking, venue)], with the clock as an argument.
    [booking.advancePaid || 0] is [booking.advancePaid]: the field is a
    number, and the only falsy number here is 0 itself. *)
Definition calculateRefund (booking : Booking.t) (venue : Venue.t) (now : Date)
  : RefundInfo :=
  let policy := default defaultPolicy (Venue.cancellationPolicy venue) in
  let hours := hoursUntilEvent (Booking.eventDate booking) now in
  let '(refundPercentage, message) :=
    if Qle_bool (inject_Z (fullRefundHours policy)) hours then
      (100, "Full refund - cancelled more than "
              +:+ pretty (fullRefundHours policy) +:+ " hours before event")
    else if Qle_bool (inject_Z (partialRefundHours policy)) hours then
      (partialRefundPercentage policy,
       "Partial refund (" +:+ pretty (partialRefundPercentage policy)
         +:+ "%) - cancelled within " +:+ pretty (fullRefundHours policy)
         +:+ " hours of event")
    else
      (0, "No refund - cancelled within "
            +:+ pretty (partialRefundHours policy) +:+ " hours of event") in
  let paidAmount := Booking.advancePaid booking in
  let refundAmount := JS.Math_round (Qmake (paidAmount * refundPercentage) 100) in
  {| refundAmount := refundAmount;
     refundPercentage := refundPercentage;
     message := message |}.

(** The minutes since midnight of an [HH:mm] string. *)
Definition minutes (time : string) : JS.number :=
  JS.add (JS.mul (JS.parsePart time 0) (Some 60)) (JS.parsePart time 1).

(** The test inside the loop of [checkAvailability]. *)
Definition overlaps (startTime endTime : string) (booking : Booking.t) : bool :=
  let existingStart := minutes (Booking.startTime booking) in
  let existingEnd := minutes (Booking.endTime booking) in
  let newStart := minutes startTime in
  let newEnd := minutes endTime in
  JS.lt newStart existingEnd && JS.gt newEnd existingStart.

(** [for (const booking of existingBookings) { if (...) return false; }
    return true;] *)
Fixpoint noOverlap (existingBookings : list Booking.t) (startTime endTime : string)
  : bool :=
  match existingBookings with
  | [] => true
  | booking :: rest =>
      if overlaps startTime endTime booking then false
      else noOverlap rest startTime endTime
  end.

Definition isActiveStatus (s : BookingStatus) : bool :=
  bool_decide (s = PENDING) || bool_decide (s = CONFIRMED).

Section LocalTime.

(** The offset of the server's time zone from UTC, in milliseconds;
    [setHours] works in local time. *)
Variable tz : Z.

(** [new Date(date)] followed by [setHours(0, 0, 0, 0)]. *)
Definition startOfDay (date : Date) : Date :=
  (date + tz) / msPerDay * msPerDay - tz.

(** [new Date(date)] followed by [setHours(23, 59, 59, 999)]. *)
Definition endOfDay (date : Date) : Date :=
  startOfDay date + (msPerDay - 1).

Definition checkAvailability (venueId : ObjectId) (date : Date)
    (startTime endTime : string) : M bool :=
  venue ← venueService_findById venueId;
  let dateStr := isoDay date in
  let isBlocked :=
    existsb (λ d, isoDay d =? dateStr) (Venue.blockedDates venue) in
  if isBlocked then mret false
  else
    existingBookings ← Db.findBookings (λ b,
      bool_decide (Booking.venueId b = venueId)
      && (startOfDay date <=? Booking.eventDate b)
      && (Booking.eventDate b <=? endOfDay date)
      && isActiveStatus (Booking.status b));
    mret (noOverlap existingBookings startTime endTime).

(** [hours * venue.pricePerHour] from the hour parts of the two times. *)
Definition price (startTime endTime : string) (venue : Venue.t) : JS.number :=
  let startHour := JS.parsePart startTime 0 in
  let endHour := JS.parsePart endTime 0 in
  let hours := JS.sub endHour startHour in
  JS.mul hours (Some (Venue.pricePerHour venue)).

(** [create(createBookingDto, userId)]. Mongoose refuses to cast [NaN] to
    a [Number] field, so [save()] rejects a [NaN] total. *)
Definition create (dto : CreateBookingDto.t) (userId : ObjectId)
  : M (ObjectId * Booking.t) :=
  venue ← venueService_findById (CreateBookingDto.venueId dto);
  if negb (Venue.isActive venue) then
    throw (BadRequestException "This venue is not available for booking")
  else if (CreateBookingDto.guestCount dto <? Venue.minCapacity venue)
          || (CreateBookingDto.guestCount dto >? Venue.maxCapacity venue) then
    throw (BadRequestException
             ("Guest count must be between " +:+ pretty (Venue.minCapacity venue)
                +:+ " and " +:+ pretty (Venue.maxCapacity venue)))
  else
    isAvailable ← checkAvailability (CreateBookingDto.venueId dto)
                    (CreateBookingDto.eventDate dto)
                    (CreateBookingDto.startTime dto)
                    (CreateBookingDto.endTime dto);
    if negb isAvailable then
      throw (BadRequestException
               "Venue is not available for the selected date and time")
    else
      match price (CreateBookingDto.startTime dto)
                  (CreateBookingDto.endTime dto) venue with
      | None =>
          throw (ValidationError "Cast to Number failed for path totalAmount")
      | Some totalAmount =>
          let booking :=
            {| Booking.userId := userId;
               Booking.venueId := CreateBookingDto.venueId dto;
               Booking.eventDate := CreateBookingDto.eventDate dto;
               Booking.startTime := CreateBookingDto.startTime dto;
               Booking.endTime := CreateBookingDto.endTime dto;
               Booking.eventType := CreateBookingDto.eventType dto;
               Booking.guestCount := CreateBookingDto.guestCount dto;
               Booking.totalAmount := totalAmount;
               Booking.advancePaid := 0;
               Booking.balanceAmount := totalAmount;
               Booking.status := PENDING;
               Booking.paymentStatus := UNPAID;
               Booking.specialRequests := CreateBookingDto.specialRequests dto;
               Booking.contactName := CreateBookingDto.contactName dto;
               Booking.contactPhone := CreateBookingDto.contactPhone dto;
               Booking.contactEmail := CreateBookingDto.contactEmail dto;
               Booking.cancellationReason := None;
               Booking.cancelledAt := None;
               Booking.refundAmount := 0;
               Booking.refundPercentage := 0 |} in
          id ← Db.newBookingId;
          Db.saveBooking id booking;;
          mret (id, booking)
      end.

(** [reschedule(id, rescheduleDto, userId)]. *)
Definition reschedule (id : ObjectId) (dto : RescheduleBookingDto.t)
    (userId : ObjectId) : M Booking.t :=
  ob ← Db.findBooking id;
  match ob with
  | None => throw (NotFoundException "Booking not found")
  | Some booking =>
      if negb (bool_decide (Booking.userId booking = userId)) then
        throw (ForbiddenException "You can only reschedule your own bookings")
      else if negb (isActiveStatus (Booking.status booking)) then
        throw (BadRequestException
                 "Cannot reschedule a cancelled or completed booking")
      else
        isAvailable ← checkAvailability (Booking.venueId booking)
                        (RescheduleBookingDto.newEventDate dto)
                        (RescheduleBookingDto.newStartTime dto)
                        (RescheduleBookingDto.newEndTime dto);
        if negb isAvailable then
          throw (BadRequestException "The new date/time is not available")
        else
          venue ← venueService_findById (Booking.venueId booking);
          match price (RescheduleBookingDto.newStartTime dto)
                      (RescheduleBookingDto.newEndTime dto) venue with
          | None =>
              throw (ValidationError "Cast to Number failed for path totalAmount")
          | Some newTotalAmount =>
              let booking :=
                Booking.set_eventDate (RescheduleBookingDto.newEventDate dto) booking in
              let booking :=
                Booking.set_startTime (RescheduleBookingDto.newStartTime dto) booking in
              let booking :=
                Booking.set_endTime (RescheduleBookingDto.newEndTime dto) booking in
              let booking := Booking.set_totalAmount newTotalAmount booking in
              let booking :=
                Booking.set_balanceAmount
                  (newTotalAmount - Booking.advancePaid booking) booking in
              Db.saveBooking id booking;;
              mret booking
          end
  end.

(** The two phases of [create] and of [reschedule]. Both methods await the
    database several times while they check, and once more when they save;
    nothing holds other requests back in between. The first phase is the
    method up to the document it is about to save, and only reads. *)
Definition create_document (dto : CreateBookingDto.t) (userId : ObjectId)
  : M Booking.t :=
  venue ← venueService_findById (CreateBookingDto.venueId dto);
  if negb (Venue.isActive venue) then
    throw (BadRequestException "This venue is not available for booking")
  else if (CreateBookingDto.guestCount dto <? Venue.minCapacity venue)
          || (CreateBookingDto.guestCount dto >? Venue.maxCapacity venue) then
    throw (BadRequestException
             ("Guest count must be between " +:+ pretty (Venue.minCapacity venue)
                +:+ " and " +:+ pretty (Venue.maxCapacity venue)))
  else
    isAvailable ← checkAvailability (CreateBookingDto.venueId dto)
                    (CreateBookingDto.eventDate dto)
                    (CreateBookingDto.startTime dto)
                    (CreateBookingDto.endTime dto);
    if negb isAvailable then
      throw (BadRequestException
               "Venue is not available for the selected date and time")
    else
      match price (CreateBookingDto.startTime dto)
                  (CreateBookingDto.endTime dto) venue with
      | None =>
          throw (ValidationError "Cast to Number failed for path totalAmount")
      | Some totalAmount =>
          mret {| Booking.userId := userId;
                  Booking.venueId := CreateBookingDto.venueId dto;
                  Booking.eventDate := CreateBookingDto.eventDate dto;
                  Booking.startTime := CreateBookingDto.startTime dto;
                  Booking.endTime := CreateBookingDto.endTime dto;
                  Booking.eventType := CreateBookingDto.eventType dto;
                  Booking.guestCount := CreateBookingDto.guestCount dto;
                  Booking.totalAmount := totalAmount;
                  Booking.advancePaid := 0;
                  Booking.balanceAmount := totalAmount;
                  Booking.status := PENDING;
                  Booking.paymentStatus := UNPAID;
                  Booking.specialRequests := CreateBookingDto.specialRequests dto;
                  Booking.contactName := CreateBookingDto.contactName dto;
                  Booking.contactPhone := CreateBookingDto.contactPhone dto;
                  Booking.contactEmail := CreateBookingDto.contactEmail dto;
                  Booking.cancellationReason := None;
                  Booking.cancelledAt := None;
                  Booking.refundAmount := 0;
                  Booking.refundPercentage := 0 |}
      end.

(** The second phase of [create]: [booking.save()] of the new document,
    under an [_id] that no booking has when it is saved. *)
Definition create_save (booking : Booking.t) : M (ObjectId * Booking.t) :=
  id ← Db.newBookingId;
  Db.saveBooking id booking;;
  mret (id, booking).

Definition reschedule_document (id : ObjectId) (dto : RescheduleBookingDto.t)
    (userId : ObjectId) : M Booking.t :=
  ob ← Db.findBooking id;
  match ob with
  | None => throw (NotFoundException "Booking not found")
  | Some booking =>
      if negb (bool_decide (Booking.userId booking = userId)) then
        throw (ForbiddenException "You can only reschedule your own bookings")
      else if negb (isActiveStatus (Booking.status booking)) then
        throw (BadRequestException
                 "Cannot reschedule a cancelled or completed booking")
      else
        isAvailable ← checkAvailability (Booking.venueId booking)
                        (RescheduleBookingDto.newEventDate dto)
                        (RescheduleBookingDto.newStartTime dto)
                        (RescheduleBookingDto.newEndTime dto);
        if negb isAvailable then
          throw (BadRequestException "The new date/time is not available")
        else
          venue ← venueService_findById (Booking.venueId booking);
          match price (RescheduleBookingDto.newStartTime dto)
                      (RescheduleBookingDto.newEndTime dto) venue with
          | None =>
              throw (ValidationError "Cast to Number failed for path totalAmount")
          | Some newTotalAmount =>
              let booking :=
                Booking.set_eventDate (RescheduleBookingDto.newEventDate dto) booking in
              let booking :=
                Booking.set_startTime (RescheduleBookingDto.newStartTime dto) booking in
              let booking :=
                Booking.set_endTime (RescheduleBookingDto.newEndTime dto) booking in
              let booking := Booking.set_totalAmount newTotalAmount booking in
              mret (Booking.set_balanceAmount
                      (newTotalAmount - Booking.advancePaid booking) booking)
          end
  end.

(** The second phase of [reschedule]: [booking.save()] of the changed
    document. *)
Definition reschedule_save (id : ObjectId) (booking : Booking.t) : M Booking.t :=
  Db.saveBooking id booking;;
  mret booking.

End LocalTime.

(** The block run by [updateStatus] when the new status is [CANCELLED]. *)
Definition stampCancellation (dto : UpdateBookingStatusDto.t) (venue : Venue.t)
    (now : Date) (booking : Booking.t) : Booking.t :=
  let booking := Booking.set_cancelledAt (Some now) booking in
  let booking :=
    Booking.set_cancellationReason
      (UpdateBookingStatusDto.cancellationReason dto) booking in
  let refundInfo := calculateRefund booking venue now in
  let booking := Booking.set_refundAmount (refundAmount refundInfo) booking in
  Booking.set_refundPercentage (refundPercentage refundInfo) booking.

(** The assignments of [updateStatus] between the permission checks and
    [booking.save()]. *)
Definition applyUpdate (updateDto : UpdateBookingStatusDto.t) (venue : Venue.t)
    (now : Date) (booking : Booking.t) : Booking.t :=
  let booking :=
    if bool_decide (UpdateBookingStatusDto.status updateDto = Some CANCELLED)
    then stampCancellation updateDto venue now booking
    else booking in
  let booking :=
    match UpdateBookingStatusDto.status updateDto with
    | Some s => Booking.set_status s booking
    | None => booking
    end in
  match UpdateBookingStatusDto.paymentStatus updateDto with
  | Some ps => Booking.set_paymentStatus ps booking
  | None => booking
  end.

(** [updateStatus(id, updateDto, userId, userRole)], with the clock as an
    argument (one reading serves [cancelledAt] and the refund). *)
Definition updateStatus (id : ObjectId) (updateDto : UpdateBookingStatusDto.t)
    (userId : ObjectId) (userRole : string) (now : Date) : M Booking.t :=
  ob ← Db.findBooking id;
  match ob with
  | None => throw (NotFoundException "Booking not found")
  | Some booking =>
      venue ← venueService_findById (Booking.venueId booking);
      let isBookingOwner := bool_decide (Booking.userId booking = userId) in
      isVenueOwner ← ownerIdIs venue userId;
      let isAdmin := bool_decide (userRole = "ADMIN") in
      if negb isBookingOwner && negb isVenueOwner && negb isAdmin then
        throw (ForbiddenException
                 "You do not have permission to update this booking")
      else if isBookingOwner && negb isVenueOwner && negb isAdmin
              && match UpdateBookingStatusDto.status updateDto with
                 | Some s => negb (bool_decide (s = CANCELLED))
                 | None => false
                 end then
        throw (ForbiddenException "You can only cancel your own bookings")
      else
        let booking := applyUpdate updateDto venue now booking in
        Db.saveBooking id booking;;
        mret booking
  end.

(** [getRefundEstimate(bookingId, userId)], with the clock as an argument. *)
Definition getRefundEstimate (bookingId : ObjectId) (userId : ObjectId)
    (now : Date) : M RefundEstimate :=
  ob ← Db.findBooking bookingId;
  match ob with
  | None => throw (NotFoundException "Booking not found")
  | Some booking =>
      if negb (bool_decide (Booking.userId booking = userId)) then
        throw (ForbiddenException
                 "You can only check refund for your own bookings")
      else
        venue ← venueService_findById (Booking.venueId booking);
        let refundInfo := calculateRefund booking venue now in
        mret {| bookingId := bookingId;
                paidAmount := Booking.advancePaid booking;
                refundInfo := refundInfo;
                cancellationPolicy := Venue.cancellationPolicy venue |}
  end.

(** What [getAvailableSlots] returns: [{ available: false, message, slots }]
    or [{ available: true, openingTime, closingTime, bookedSlots }], a booked
    slot being [{ start, end }]. *)
Inductive AvailableSlots : Type :=
  | NotAvailable (message : string) (slots : list (string * string))
  | Available (openingTime closingTime : string)
      (bookedSlots : list (string * string)).

(** [getAvailableSlots(venueId, date)], the date already parsed; [tz] is the
    offset of the server's time zone as in [checkAvailability]. *)
Definition getAvailableSlots (tz : Z) (venueId : ObjectId) (eventDate : Date)
  : M AvailableSlots :=
  venue ← venueService_findById venueId;
  let dateStr := isoDay eventDate in
  let isBlocked :=
    existsb (λ d, isoDay d =? dateStr) (Venue.blockedDates venue) in
  if isBlocked then
    mret (NotAvailable "Date is blocked by venue owner" [])
  else
    existingBookings ← Db.findBookings (λ b,
      bool_decide (Booking.venueId b = venueId)
      && (startOfDay tz eventDate <=? Booking.eventDate b)
      && (Booking.eventDate b <=? endOfDay tz eventDate)
      && isActiveStatus (Booking.status b));
    let bookedSlots :=
      (λ b, (Booking.startTime b, Booking.endTime b)) <$> existingBookings in
    mret (Available (Venue.openingTime venue) (Venue.closingTime venue)
            bookedSlots).

(** [deleteBooking(id, userId, userRole)]; it returns the message. *)
Definition deleteBooking (id : ObjectId) (userId : ObjectId) (userRole : string)
  : M string :=
  ob ← Db.findBooking id;
  match ob with
  | None => throw (NotFoundException "Booking not found")
  | Some booking =>
      venue ← venueService_findById (Booking.venueId booking);
      let isBookingOwner := bool_decide (Booking.userId booking = userId) in
      isVenueOwner ← ownerIdIs venue userId;
      let isAdmin := bool_decide (userRole = "ADMIN") in
      if negb isBookingOwner && negb isVenueOwner && negb isAdmin then
        throw (ForbiddenException
                 "You do not have permission to delete this booking")
      else if negb (bool_decide (Booking.status booking = PENDING)) then
        throw (BadRequestException
                 "Only pending bookings can be deleted. Use cancel status for confirmed bookings.")
      else
        Db.deleteBooking id;;
        mret "Booking deleted successfully"
  end.

End BookingService.

(** ** PaymentService *)

Module PaymentService.

(** What [initiatePayment] hands to the client. The form fields of eSewa
    other than the amount and the transaction uuid (URLs, HMAC signature)
    are not modelled. *)
Inductive PaymentData : Type :=
  | EsewaForm (paymentId : ObjectId) (referenceId : string) (total_amount : Z)
  | KhaltiMockData (paymentId : ObjectId) (referenceId : string)
      (mockPidx : string)
  | KhaltiData (paymentId : ObjectId) (referenceId : string)
      (paymentUrl : string) (pidx : string).

Record VerifyResult : Type := {
  success : bool;
  message : string;
  payment : Payment.t
}.

(** [generateReferenceId()], with [Date.now()] and the hexadecimal random
    bytes as arguments. *)
Definition generateReferenceId (now : Z) (rnd : string) : string :=
  "PAY-" +:+ pretty now +:+ "-" +:+ rnd.

(** The assignments of [updateBookingPayment], by payment type. *)
Definition applyPayment (payment : Payment.t) (booking : Booking.t) : Booking.t :=
  match Payment.paymentType payment with
  | ADVANCE =>
      let booking := Booking.set_advancePaid (Payment.amount payment) booking in
      let booking :=
        Booking.set_balanceAmount
          (Booking.totalAmount booking - Payment.amount payment) booking in
      Booking.set_paymentStatus PARTIAL booking
  | FULL =>
      let booking := Booking.set_advancePaid (Payment.amount payment) booking in
      let booking := Booking.set_balanceAmount 0 booking in
      Booking.set_paymentStatus PAID booking
  | BALANCE =>
      let booking :=
        Booking.set_advancePaid
          (Booking.advancePaid booking + Payment.amount payment) booking in
      let booking := Booking.set_balanceAmount 0 booking in
      Booking.set_paymentStatus PAID booking
  | REFUND => booking
  end.

(** [updateBookingPayment(payment)]. *)
Definition updateBookingPayment (payment : Payment.t) : M unit :=
  ob ← Db.findBooking (Payment.bookingId payment);
  match ob with
  | None => mret tt
  | Some booking =>
      Db.saveBooking (Payment.bookingId payment) (applyPayment payment booking)
  end.

(** [generateEsewaPaymentData(payment, booking)]. *)
Definition generateEsewaPaymentData (payment : Payment.t) : PaymentData :=
  let amount := Payment.amount payment in
  let taxAmount := 0 in
  let serviceCharge := 0 in
  let deliveryCharge := 0 in
  let totalAmount := amount + taxAmount + serviceCharge + deliveryCharge in
  EsewaForm (Payment._id payment) (Payment.referenceId payment) totalAmount.

(** The assignments on the success path of a verification. *)
Definition complete (transactionId : option string) (response : GatewayResponse)
    (payment : Payment.t) : Payment.t :=
  let payment := Payment.set_status TX_COMPLETED payment in
  let payment := Payment.set_transactionId transactionId payment in
  Payment.set_gatewayResponse (Some response) payment.

(** The assignments on the failure path of a verification. *)
Definition fail (response : GatewayResponse) (payment : Payment.t) : Payment.t :=
  let payment := Payment.set_status TX_FAILED payment in
  Payment.set_gatewayResponse (Some response) payment.

(** [verifyEsewaPayment(data)]. The argument is what
    [JSON.parse(Buffer.from(data, 'base64'))] yields, [None] when it
    throws. *)
Definition verifyEsewaPayment (decodedData : option EsewaCallback)
  : M VerifyResult :=
  try_catch
    (match decodedData with
     | None => throw (SyntaxError "Unexpected token in JSON")
     | Some d =>
         op ← Db.findOnePayment
                (λ p, bool_decide (Payment.referenceId p = transaction_uuid d));
         match op with
         | None => throw (NotFoundException "Payment not found")
         | Some payment =>
             if bool_decide (esewa_status d = "COMPLETE") then
               let payment :=
                 complete (Some (transaction_code d)) (EsewaDecoded d) payment in
               Db.savePayment payment;;
               updateBookingPayment payment;;
               mret {| success := true;
                       message := "Payment verified successfully";
                       payment := payment |}
             else
               let payment := fail (EsewaDecoded d) payment in
               Db.savePayment payment;;
               mret {| success := false;
                       message := "Payment failed";
                       payment := payment |}
         end
     end)
    (λ _, throw (BadRequestException "Payment verification failed")).

Section Khalti.

(** [KHALTI_SECRET_KEY], the empty string when it is not configured. *)
Variable khaltiSecretKey : string.

(** [generateKhaltiPaymentData(payment, booking)]. The argument
    [response] is the answer of the initiation endpoint, [None] when the
    request fails. *)
Definition generateKhaltiPaymentData (payment : Payment.t)
    (response : option KhaltiInitiation) : M PaymentData :=
  if bool_decide (khaltiSecretKey = "") then
    mret (KhaltiMockData (Payment._id payment) (Payment.referenceId payment)
            ("mock_" +:+ Payment.referenceId payment))
  else
    try_catch
      (match response with
       | None => throw (AxiosError "Request failed")
       | Some r =>
           Db.updatePayment (Payment._id payment) (λ q,
             Payment.set_gatewayResponse (Some (KhaltiInitiated r))
               (Payment.set_transactionId (Some (init_pidx r)) q));;
           mret (KhaltiData (Payment._id payment) (Payment.referenceId payment)
                   (payment_url r) (init_pidx r))
       end)
      (λ _, throw (BadRequestException "Failed to initiate Khalti payment")).

(** [initiatePayment(dto, userId)]. [dto.amount < booking.totalAmount * 0.2]
    is read exactly, as [5 * amount < totalAmount]. *)
Definition initiatePayment (dto : InitiatePaymentDto.t) (userId : ObjectId)
    (now : Z) (rnd : string) (response : option KhaltiInitiation)
  : M PaymentData :=
  ob ← Db.findBooking (InitiatePaymentDto.bookingId dto);
  match ob with
  | None => throw (NotFoundException "Booking not found")
  | Some booking =>
      if negb (bool_decide (Booking.userId booking = userId)) then
        throw (BadRequestException "You can only pay for your own bookings")
      else
        let paymentType := default FULL (InitiatePaymentDto.paymentType dto) in
        let expectedBalance :=
          Booking.totalAmount booking - Booking.advancePaid booking in
        if bool_decide (paymentType = ADVANCE)
           && (5 * InitiatePaymentDto.amount dto <? Booking.totalAmount booking) then
          throw (BadRequestException
                   "Advance payment must be at least 20% of total amount")
        else if bool_decide (paymentType = FULL)
                && negb (InitiatePaymentDto.amount dto =? Booking.totalAmount booking) then
          throw (BadRequestException
                   "Full payment amount must match booking total")
        else if bool_decide (paymentType = BALANCE)
                && negb (InitiatePaymentDto.amount dto =? expectedBalance) then
          throw (BadRequestException
                   ("Balance payment must be Rs. " +:+ pretty expectedBalance))
        else
          let referenceId := generateReferenceId now rnd in
          payment ← Db.createPayment (λ id,
            {| Payment._id := id;
               Payment.bookingId := InitiatePaymentDto.bookingId dto;
               Payment.userId := userId;
               Payment.venueId := Booking.venueId booking;
               Payment.amount := InitiatePaymentDto.amount dto;
               Payment.gateway := InitiatePaymentDto.gateway dto;
               Payment.paymentType := paymentType;
               Payment.status := TX_INITIATED;
               Payment.transactionId := None;
               Payment.referenceId := referenceId;
               Payment.gatewayResponse := None;
               Payment.refundReason := None;
               Payment.originalPaymentId := None |});
          match InitiatePaymentDto.gateway dto with
          | ESEWA => mret (generateEsewaPaymentData payment)
          | KHALTI => generateKhaltiPaymentData payment response
          end
  end.

(** The two look-ups at the head of [verifyKhaltiPayment]. *)
Definition findKhaltiPayment (pidx : string) : M (option Payment.t) :=
  op ← Db.findOnePayment
         (λ p, bool_decide (Payment.transactionId p = Some pidx));
  match op with
  | None =>
      if JS.startsWith "mock_" pidx then
        let referenceId := JS.dropPrefix "mock_" pidx in
        Db.findOnePayment (λ p, bool_decide (Payment.referenceId p = referenceId))
      else mret None
  | Some payment => mret (Some payment)
  end.

(** [verifyKhaltiPayment(pidx)]. The argument [response] is the answer of
    the lookup endpoint, [None] when the request fails. *)
Definition verifyKhaltiPayment (pidx : string) (response : option KhaltiLookup)
  : M VerifyResult :=
  op ← findKhaltiPayment pidx;
  match op with
  | None => throw (NotFoundException "Payment not found")
  | Some payment =>
      if bool_decide (khaltiSecretKey = "") then
        let payment := complete (Some pidx) (KhaltiMock pidx) payment in
        Db.savePayment payment;;
        updateBookingPayment payment;;
        mret {| success := true;
                message := "[DEV MODE] Payment marked as completed";
                payment := payment |}
      else
        try_catch
          (match response with
           | None => throw (AxiosError "Request failed")
           | Some r =>
               if bool_decide (lookup_status r = "Completed") then
                 let payment :=
                   complete (Some (transaction_id r)) (KhaltiLookedUp r) payment in
                 Db.savePayment payment;;
                 updateBookingPayment payment;;
                 mret {| success := true;
                         message := "Payment verified successfully";
                         payment := payment |}
               else
                 let payment := fail (KhaltiLookedUp r) payment in
                 Db.savePayment payment;;
                 mret {| success := false;
                         message := "Payment status: " +:+ lookup_status r;
                         payment := payment |}
           end)
          (λ _, throw (BadRequestException "Payment verification failed"))
  end.

End Khalti.

(** [initiateRefund(paymentId, reason, userId)], with [Date.now()] and the
    random bytes of the reference id as arguments; it returns the refund
    record. *)
Definition initiateRefund (paymentId : ObjectId) (reason : string)
    (userId : ObjectId) (now : Z) (rnd : string) : M Payment.t :=
  op ← Db.findPayment paymentId;
  match op with
  | None => throw (NotFoundException "Payment not found")
  | Some originalPayment =>
      if negb (bool_decide (Payment.status originalPayment = TX_COMPLETED)) then
        throw (BadRequestException "Can only refund completed payments")
      else
        Db.createPayment (λ id,
          {| Payment._id := id;
             Payment.bookingId := Payment.bookingId originalPayment;
             Payment.userId := userId;
             Payment.venueId := Payment.venueId originalPayment;
             Payment.amount := - Payment.amount originalPayment;
             Payment.gateway := Payment.gateway originalPayment;
             Payment.paymentType := REFUND;
             Payment.status := TX_PENDING;
             Payment.transactionId := None;
             Payment.referenceId := generateReferenceId now rnd;
             Payment.gatewayResponse := None;
             Payment.refundReason := Some reason;
             Payment.originalPaymentId := Some (Payment._id originalPayment) |})
  end.

End PaymentService.

(** ** VenueService: blocked dates *)

Module VenueService.

(** [venue.blockedDates = x]. *)
Definition set_blockedDates (x : list Date) (r : Venue.t) : Venue.t :=
  {| Venue.name := Venue.name r; Venue.ownerId := Venue.ownerId r;
     Venue.minCapacity := Venue.minCapacity r;
     Venue.maxCapacity := Venue.maxCapacity r;
     Venue.pricePerHour := Venue.pricePerHour r;
     Venue.openingTime := Venue.openingTime r;
     Venue.closingTime := Venue.closingTime r;
     Venue.blockedDates := x; Venue.isActive := Venue.isActive r;
     Venue.cancellationPolicy := Venue.cancellationPolicy r |}.

(** [blockDates(id, dates, userId)]. *)
Definition blockDates (id : ObjectId) (dates : list Date) (userId : ObjectId)
  : M Venue.t :=
  ov ← Db.findVenue id;
  match ov with
  | None => throw (NotFoundException "Venue not found")
  | Some venue =>
      if negb (bool_decide (Venue.ownerId venue = userId)) then
        throw (ForbiddenException "You can only block dates for your own venues")
      else
        let venue :=
          set_blockedDates (Venue.blockedDates venue ++ dates)%list venue in
        Db.saveVenue id venue;;
        mret venue
  end.

(** [unblockDates(id, dates, userId)]. Two dates have the same
    [toISOString()] exactly when they are the same instant. *)
Definition unblockDates (id : ObjectId) (dates : list Date) (userId : ObjectId)
  : M Venue.t :=
  ov ← Db.findVenue id;
  match ov with
  | None => throw (NotFoundException "Venue not found")
  | Some venue =>
      if negb (bool_decide (Venue.ownerId venue = userId)) then
        throw (ForbiddenException
                 "You can only unblock dates for your own venues")
      else
        let datesToRemove := dates in
        let venue :=
          set_blockedDates
            (List.filter (λ d, negb (existsb (Z.eqb d) datesToRemove))
               (Venue.blockedDates venue)) venue in
        Db.saveVenue id venue;;
        mret venue
  end.

End VenueService.

(** ** The pattern of the time fields in the request bodies *)

Module TimePattern.

(** A character in the range of two character codes, as in [[0-9]]. *)
Definition inRange (lo hi : nat) (c : ascii) : bool :=
  ((lo <=? nat_of_ascii c) && (nat_of_ascii c <=? hi))%nat.

(** [/^([0-1]?[0-9]|2[0-3]):[0-5][0-9]$/.test(s)], the [@Matches] pattern of
    [startTime], [endTime], [newStartTime] and [newEndTime]: one digit, or
    [0] or [1] and a digit, or [2] and a digit up to [3]; a colon; a digit
    up to [5] and a digit. *)
Definition matches (s : string) : bool :=
  match s with
  | String h (String c (String m1 (String m2 EmptyString))) =>
      inRange 48 57 h
      && Ascii.eqb c ":" && inRange 48 53 m1 && inRange 48 57 m2
  | String h1 (String h2 (String c (String m1 (String m2 EmptyString)))) =>
      ((inRange 48 49 h1 && inRange 48 57 h2)
       || (Ascii.eqb h1 "2" && inRange 48 51 h2))
      && Ascii.eqb c ":" && inRange 48 53 m1 && inRange 48 57 m2
  | _ => false
  end.

End TimePattern.

(** ** Sample data

    A hall in Kathmandu (UTC+5:45) at 5000 per hour with the seeded
    cancellation policy, a second venue without a policy, and one booking of
    the hall on 15 March 2026 from 10:00 to 12:00. *)

Module Sample.

Definition kathmandu : Z := 20700000.

Definition march15 : Date := 1773532800000.
Definition april1 : Date := 1775001600000.

Definition hall : Venue.t :=
  {| Venue.name := "Hall";
     Venue.ownerId := 2%nat;
     Venue.minCapacity := 50;
     Venue.maxCapacity := 500;
     Venue.pricePerHour := 5000;
     Venue.openingTime := "09:00";
     Venue.closingTime := "22:00";
     Venue.blockedDates := [april1];
     Venue.isActive := true;
     Venue.cancellationPolicy := Some BookingService.defaultPolicy |}.

Definition garden : Venue.t :=
  {| Venue.name := "Garden";
     Venue.ownerId := 2%nat;
     Venue.minCapacity := 10;
     Venue.maxCapacity := 80;
     Venue.pricePerHour := 2000;
     Venue.openingTime := "09:00";
     Venue.closingTime := "22:00";
     Venue.blockedDates := [];
     Venue.isActive := true;
     Venue.cancellationPolicy := None |}.

(** A booking by user 1, venue 10 being the hall and venue 11 the garden. *)
Definition booking (venueId : ObjectId) (totalAmount advancePaid : Z)
    (status : BookingStatus) (paymentStatus : PaymentStatus) : Booking.t :=
  {| Booking.userId := 1%nat;
     Booking.venueId := venueId;
     Booking.eventDate := march15;
     Booking.startTime := "10:00";
     Booking.endTime := "12:00";
     Booking.eventType := WEDDING;
     Booking.guestCount := 100;
     Booking.totalAmount := totalAmount;
     Booking.advancePaid := advancePaid;
     Booking.balanceAmount := totalAmount - advancePaid;
     Booking.status := status;
     Booking.paymentStatus := paymentStatus;
     Booking.specialRequests := None;
     Booking.contactName := "Asha";
     Booking.contactPhone := "9800000000";
     Booking.contactEmail := "asha@example.com";
     Booking.cancellationReason := None;
     Booking.cancelledAt := None;
     Booking.refundAmount := 0;
     Booking.refundPercentage := 0 |}.

Definition venues : gmap ObjectId Venue.t :=
  <[10%nat := hall]> (<[11%nat := garden]> ∅).

(** The accounts: user 1 books, user 2 owns both venues, user 3 is another
    customer, user 99 an administrator. *)
Definition asha : User.t :=
  {| User.name := "Asha"; User.email := "asha@example.com";
     User.phoneNumber := Some "9800000000" |}.

Definition owner : User.t :=
  {| User.name := "Bikram"; User.email := "bikram@example.com";
     User.phoneNumber := None |}.

Definition chandra : User.t :=
  {| User.name := "Chandra"; User.email := "chandra@example.com";
     User.phoneNumber := Some "9811111111" |}.

Definition deepa : User.t :=
  {| User.name := "Deepa"; User.email := "deepa@example.com";
     User.phoneNumber := None |}.

Definition users : gmap ObjectId User.t :=
  <[1%nat := asha]>
    (<[2%nat := owner]> (<[3%nat := chandra]> (<[99%nat := deepa]> ∅))).

(** The database with booking 100 as given and the given payments. *)
Definition store (b : Booking.t) (payments : list Payment.t) : Store :=
  {| userModel := users;
     venueModel := venues;
     bookingModel := <[100%nat := b]> ∅;
     paymentModel := payments |}.

Definition payment (paymentType : PaymentType) (amount : Z)
    (status : TransactionStatus) (transactionId : option string) : Payment.t :=
  {| Payment._id := 7%nat;
     Payment.bookingId := 100%nat;
     Payment.userId := 1%nat;
     Payment.venueId := 10%nat;
     Payment.amount := amount;
     Payment.gateway := ESEWA;
     Payment.paymentType := paymentType;
     Payment.status := status;
     Payment.transactionId := transactionId;
     Payment.referenceId := "PAY-1773000000000-0A1B2C3D";
     Payment.gatewayResponse := None;
     Payment.refundReason := None;
     Payment.originalPaymentId := None |}.

Definition esewaSuccess : EsewaCallback :=
  {| transaction_uuid := "PAY-1773000000000-0A1B2C3D";
     total_amount := "32000";
     transaction_code := "000AWEO";
     esewa_status := "COMPLETE" |}.

Definition createDto : CreateBookingDto.t :=
  {| CreateBookingDto.venueId := 10%nat;
     CreateBookingDto.eventDate := march15;
     CreateBookingDto.startTime := "10:00";
     CreateBookingDto.endTime := "18:00";
     CreateBookingDto.eventType := WEDDING;
     CreateBookingDto.guestCount := 200;
     CreateBookingDto.contactName := "Asha";
     CreateBookingDto.contactPhone := "9800000000";
     CreateBookingDto.contactEmail := "asha@example.com";
     CreateBookingDto.specialRequests := None |}.

Definition emptyStore : Store :=
  {| userModel := users; venueModel := venues; bookingModel := ∅;
     paymentModel := [] |}.

(** A total of 40000 with 8000 paid in advance, and the payment of the
    balance of 32000 initiated through eSewa. *)
Definition balanceDue : Store :=
  store (booking 10%nat 40000 8000 CONFIRMED PARTIAL)
        [payment BALANCE 32000 TX_INITIATED None].

(** The database after eSewa's success callback for that payment, and after
    the same callback once more. *)
Definition verifiedOnce : Store :=
  (PaymentService.verifyEsewaPayment (Some esewaSuccess) balanceDue).2.

Definition verifiedTwice : Store :=
  (PaymentService.verifyEsewaPayment (Some esewaSuccess) verifiedOnce).2.


Definition confirmDto : UpdateBookingStatusDto.t :=
  {| UpdateBookingStatusDto.status := Some CONFIRMED;
     UpdateBookingStatusDto.paymentStatus := None;
     UpdateBookingStatusDto.cancellationReason := None |}.

Definition cancelDto : UpdateBookingStatusDto.t :=
  {| UpdateBookingStatusDto.status := Some CANCELLED;
     UpdateBookingStatusDto.paymentStatus := None;
     UpdateBookingStatusDto.cancellationReason := Some "change of plans" |}.

(** The booking pending from 10:00 to 12:00, alone in the database. *)
Definition pending : Store :=
  store (booking 10%nat 10000 0 PENDING UNPAID) [].

(** The same day, one hour later. *)
Definition oneHourLater : RescheduleBookingDto.t :=
  {| RescheduleBookingDto.newEventDate := march15;
     RescheduleBookingDto.newStartTime := "11:00";
     RescheduleBookingDto.newEndTime := "13:00" |}.

Definition afternoon : RescheduleBookingDto.t :=
  {| RescheduleBookingDto.newEventDate := march15;
     RescheduleBookingDto.newStartTime := "13:00";
     RescheduleBookingDto.newEndTime := "15:00" |}.

Definition payDto (paymentType : PaymentType) (amount : Z) : InitiatePaymentDto.t :=
  {| InitiatePaymentDto.bookingId := 100%nat;
     InitiatePaymentDto.amount := amount;
     InitiatePaymentDto.gateway := ESEWA;
     InitiatePaymentDto.paymentType := Some paymentType |}.

(** A booking of 40000 with nothing paid. *)
Definition unpaid : Store :=
  store (booking 10%nat 40000 0 PENDING UNPAID) [].

(** The request of [createDto] with the two times exchanged. *)
Definition backwards : CreateBookingDto.t :=
  {| CreateBookingDto.venueId := 10%nat;
     CreateBookingDto.eventDate := march15;
     CreateBookingDto.startTime := "18:00";
     CreateBookingDto.endTime := "10:00";
     CreateBookingDto.eventType := WEDDING;
     CreateBookingDto.guestCount := 200;
     CreateBookingDto.contactName := "Asha";
     CreateBookingDto.contactPhone := "9800000000";
     CreateBookingDto.contactEmail := "asha@example.com";
     CreateBookingDto.specialRequests := None |}.

(** The hall on the same day from 13:00 to 15:00, asked by another
    customer. *)
Definition afternoonDto : CreateBookingDto.t :=
  {| CreateBookingDto.venueId := 10%nat;
     CreateBookingDto.eventDate := march15;
     CreateBookingDto.startTime := "13:00";
     CreateBookingDto.endTime := "15:00";
     CreateBookingDto.eventType := BIRTHDAY;
     CreateBookingDto.guestCount := 60;
     CreateBookingDto.contactName := "Asha";
     CreateBookingDto.contactPhone := "9800000000";
     CreateBookingDto.contactEmail := "asha@example.com";
     CreateBookingDto.specialRequests := None |}.

(** The database once that request was served after the sample booking:
    the hall is booked from 10:00 to 12:00 and from 13:00 to 15:00. *)
Definition twoBookings : Store :=
  (BookingService.create kathmandu afternoonDto 3%nat pending).2.

(** The same day from 16:00 to 18:00. *)
Definition evening : RescheduleBookingDto.t :=
  {| RescheduleBookingDto.newEventDate := march15;
     RescheduleBookingDto.newStartTime := "16:00";
     RescheduleBookingDto.newEndTime := "18:00" |}.

(** The request of [createDto] with the event at ten in the morning (UTC)
    of 15 March, and a slot of the hall on 1 April at ten. *)
Definition morningDto : CreateBookingDto.t :=
  {| CreateBookingDto.venueId := 10%nat;
     CreateBookingDto.eventDate := march15 + 36000000;
     CreateBookingDto.startTime := "10:00";
     CreateBookingDto.endTime := "18:00";
     CreateBookingDto.eventType := WEDDING;
     CreateBookingDto.guestCount := 200;
     CreateBookingDto.contactName := "Asha";
     CreateBookingDto.contactPhone := "9800000000";
     CreateBookingDto.contactEmail := "asha@example.com";
     CreateBookingDto.specialRequests := None |}.

(** The pending booking after the owner of the hall deleted their
    account. *)
Definition ownerGone : Store :=
  {| userModel := delete 2%nat users;
     venueModel := venues;
     bookingModel := <[100%nat := booking 10%nat 10000 0 PENDING UNPAID]> ∅;
     paymentModel := [] |}.

(** A request that carries a payment status and no status. *)
Definition markPaid : UpdateBookingStatusDto.t :=
  {| UpdateBookingStatusDto.status := None;
     UpdateBookingStatusDto.paymentStatus := Some PAID;
     UpdateBookingStatusDto.cancellationReason := None |}.

(** A total of 40000 with 20000 paid, and with 10000 paid. *)
Definition halfPaid : Store :=
  store (booking 10%nat 40000 20000 CONFIRMED PARTIAL) [].


(** eSewa's callback for the sample payment when the user gave up. *)
Definition esewaCanceled : EsewaCallback :=
  {| transaction_uuid := "PAY-1773000000000-0A1B2C3D";
     total_amount := "32000";
     transaction_code := "000AWEO";
     esewa_status := "CANCELED" |}.

(** A booking of 40000 with an advance of 8000 initiated through eSewa; the
    database after the success callback for the advance; the database after
    the payment of the balance was initiated a minute later; and the success
    callback for the balance. *)
Definition advanceDue : Store :=
  store (booking 10%nat 40000 0 PENDING UNPAID)
        [payment ADVANCE 8000 TX_INITIATED None].

Definition advanceVerified : Store :=
  (PaymentService.verifyEsewaPayment (Some esewaSuccess) advanceDue).2.

Definition balanceInitiated : Store :=
  (PaymentService.initiatePayment "" (payDto BALANCE 32000) 1%nat
     1773000060000 "4E5F6A7B" None advanceVerified).2.

Definition esewaBalance : EsewaCallback :=
  {| transaction_uuid := "PAY-1773000060000-4E5F6A7B";
     total_amount := "32000";
     transaction_code := "000AWEP";
     esewa_status := "COMPLETE" |}.

End Sample.

(** * Vocabulary of the properties *)

Import BookingService.
Import PaymentService.

(** Rounding to the nearest integer with a tie going away from zero, the
    rounding the specification names. *)
Definition round_half_away_from_zero (q : Q) : Z :=
  if Qle_bool 0 q then Qfloor (q + (1 # 2))%Q
  else - Qfloor (- q + (1 # 2))%Q.

(** The policy in force for a venue. *)
Definition policyOf (venue : Venue.t) : CancellationPolicy :=
  default defaultPolicy (Venue.cancellationPolicy venue).

(** Unfolding of the monad and of the database accessors. *)
Ltac run :=
  unfold ownerIdIs, populatedOwnerId, Db.populateUser,
    venueService_findById, Db.findVenue, Db.findBooking, Db.findBookings,
    Db.saveBooking, Db.newBookingId, Db.findOnePayment, Db.savePayment,
    Db.updatePayment, Db.createPayment, try_catch, throw,
    mbind, M_bind, mret, M_ret in *;
  cbn beta iota in *.

(** The database after [booking.save()]. *)
Definition withBooking (id : ObjectId) (b : Booking.t) (st : Store) : Store :=
  {| userModel := userModel st;
     venueModel := venueModel st;
     bookingModel := <[id := b]> (bookingModel st);
     paymentModel := paymentModel st |}.

(** The calendar day of a date in the server's time zone. *)
Definition localDay (tz : Z) (d : Date) : Z := (d + tz) / msPerDay.

(** Two slots overlap when each starts before the other ends, in minutes
    since midnight. *)
Definition slotsOverlap (startTime endTime : string) (b : Booking.t) : Prop :=
  ∃ newStart newEnd existingStart existingEnd,
    minutes startTime = Some newStart
    ∧ minutes endTime = Some newEnd
    ∧ minutes (Booking.startTime b) = Some existingStart
    ∧ minutes (Booking.endTime b) = Some existingEnd
    ∧ newStart < existingEnd ∧ newEnd > existingStart.

(** The bookings that [checkAvailability] loads. *)
Definition sameVenueAndDay (tz : Z) (venueId : ObjectId) (date : Date)
    (b : Booking.t) : bool :=
  bool_decide (Booking.venueId b = venueId)
  && (startOfDay tz date <=? Booking.eventDate b)
  && (Booking.eventDate b <=? endOfDay tz date)
  && isActiveStatus (Booking.status b).

(** The database after [payment.save()]. *)
Definition withPayment (p : Payment.t) (st : Store) : Store :=
  {| userModel := userModel st;
     venueModel := venueModel st;
     bookingModel := bookingModel st;
     paymentModel := Db.updateIn (Payment._id p) (λ _, p) <$> paymentModel st |}.

(** The booking still holds what the update step wrote for this payment. *)
Definition carries (p : Payment.t) (b : Booking.t) : Prop :=
  match Payment.paymentType p with
  | ADVANCE =>
      Booking.advancePaid b = Payment.amount p
      ∧ Booking.balanceAmount b = Booking.totalAmount b - Payment.amount p
      ∧ Booking.paymentStatus b = PARTIAL
  | FULL =>
      Booking.advancePaid b = Payment.amount p
      ∧ Booking.balanceAmount b = 0
      ∧ Booking.paymentStatus b = PAID
  | BALANCE =>
      Booking.balanceAmount b = 0 ∧ Booking.paymentStatus b = PAID
  | REFUND => True
  end.

(** What a repeated verification of payment [p] leaves of booking [b]. *)
Definition reapplied (p : Payment.t) (b : Booking.t) (st' : Store) : Prop :=
  ∃ b', bookingModel st' !! Payment.bookingId p = Some b'
        ∧ b' = applyPayment p b
        ∧ Booking.balanceAmount b' = Booking.balanceAmount b
        ∧ Booking.paymentStatus b' = Booking.paymentStatus b
        ∧ (Payment.paymentType p ≠ BALANCE → b' = b)
        ∧ (Payment.paymentType p = BALANCE →
           Booking.advancePaid b' = Booking.advancePaid b + Payment.amount p).

(** The booking of the request is paid in full. *)
Definition paidInFull (bookingId : ObjectId) (st : Store) : Prop :=
  ∃ b, bookingModel st !! bookingId = Some b
       ∧ Booking.paymentStatus b = PAID
       ∧ Booking.balanceAmount b = 0.

(** The three amount checks of [initiatePayment], in the order of the code. *)
Definition advanceTooSmall (dto : InitiatePaymentDto.t) (b : Booking.t) : bool :=
  bool_decide (default FULL (InitiatePaymentDto.paymentType dto) = ADVANCE)
  && (5 * InitiatePaymentDto.amount dto <? Booking.totalAmount b).

Definition fullMismatch (dto : InitiatePaymentDto.t) (b : Booking.t) : bool :=
  bool_decide (default FULL (InitiatePaymentDto.paymentType dto) = FULL)
  && negb (InitiatePaymentDto.amount dto =? Booking.totalAmount b).

Definition balanceMismatch (dto : InitiatePaymentDto.t) (b : Booking.t) : bool :=
  bool_decide (default FULL (InitiatePaymentDto.paymentType dto) = BALANCE)
  && negb (InitiatePaymentDto.amount dto
             =? Booking.totalAmount b - Booking.advancePaid b).

Definition advanceMessage : string :=
  "Advance payment must be at least 20% of total amount".
Definition fullMessage : string :=
  "Full payment amount must match booking total".
Definition balanceMessage (b : Booking.t) : string :=
  "Balance payment must be Rs. "
    +:+ pretty (Booking.totalAmount b - Booking.advancePaid b).

(** A booking holds its slot while it is [PENDING] or [CONFIRMED]. *)
Definition holdsSlot (b : Booking.t) : Prop :=
  Booking.status b = PENDING ∨ Booking.status b = CONFIRMED.

(** No two bookings that hold a slot of the same venue on the same day (in
    the server's time zone) overlap. *)
Definition noDoubleBooking (tz : Z) (st : Store) : Prop :=
  ∀ i j b1 b2,
    i ≠ j →
    bookingModel st !! i = Some b1 →
    bookingModel st !! j = Some b2 →
    Booking.venueId b1 = Booking.venueId b2 →
    localDay tz (Booking.eventDate b1) = localDay tz (Booking.eventDate b2) →
    holdsSlot b1 → holdsSlot b2 →
    ¬ slotsOverlap (Booking.startTime b1) (Booking.endTime b1) b2.

(** No booking that holds a slot of the venue on the day of [date] overlaps
    the slot, the booking [except] apart. *)
Definition slotFree (tz : Z) (st : Store) (except : option ObjectId)
    (venueId : ObjectId) (date : Date) (startTime endTime : string) : Prop :=
  ∀ id b,
    bookingModel st !! id = Some b →
    Some id ≠ except →
    Booking.venueId b = venueId →
    localDay tz (Booking.eventDate b) = localDay tz date →
    holdsSlot b →
    ¬ slotsOverlap startTime endTime b.

(** The day of [date] is not among the blocked days of the venue. *)
Definition notBlocked (venue : Venue.t) (date : Date) : Prop :=
  ∀ d, d ∈ Venue.blockedDates venue → isoDay d ≠ isoDay date.

(** The database after [bookingModel.findByIdAndDelete(id)]. *)
Definition withoutBooking (id : ObjectId) (st : Store) : Store :=
  {| userModel := userModel st;
     venueModel := venueModel st;
     bookingModel := delete id (bookingModel st);
     paymentModel := paymentModel st |}.

(** The database after [venue.save()]. *)
Definition withVenue (id : ObjectId) (v : Venue.t) (st : Store) : Store :=
  {| userModel := userModel st;
     venueModel := <[id := v]> (venueModel st);
     bookingModel := bookingModel st;
     paymentModel := paymentModel st |}.

(** Two time ranges overlap: each starts before the other ends, in minutes
    since midnight. *)
Definition rangesOverlap (startTime endTime start2 end2 : string) : Prop :=
  ∃ newStart newEnd existingStart existingEnd,
    minutes startTime = Some newStart
    ∧ minutes endTime = Some newEnd
    ∧ minutes start2 = Some existingStart
    ∧ minutes end2 = Some existingEnd
    ∧ newStart < existingEnd ∧ newEnd > existingStart.

(** The account of the owner of the venue exists. *)
Definition ownerAccount (st : Store) (v : Venue.t) : Prop :=
  is_Some (userModel st !! Venue.ownerId v).

(** Who gets past the permission check of [updateStatus] and
    [deleteBooking]: an admin and the user of the booking. The code means to
    let in the owner of the venue too, but its comparison reads the populated
    [ownerId] and never succeeds. *)
Definition mayTouch (b : Booking.t) (userId : ObjectId) (userRole : string)
  : Prop :=
  userRole = "ADMIN" ∨ Booking.userId b = userId.

(** The user of the booking who is no admin. *)
Definition onlyBookingUser (b : Booking.t) (userId : ObjectId)
    (userRole : string) : Prop :=
  Booking.userId b = userId ∧ userRole ≠ "ADMIN".

(** Every payment has an [_id] and a [referenceId] of its own. *)
Definition uniquePayments (st : Store) : Prop :=
  NoDup (Payment._id <$> paymentModel st)
  ∧ NoDup (Payment.referenceId <$> paymentModel st).

(** The database after [paymentModel.create(p)]. *)
Definition withNewPayment (p : Payment.t) (st : Store) : Store :=
  {| userModel := userModel st;
     venueModel := venueModel st;
     bookingModel := bookingModel st;
     paymentModel := paymentModel st ++ [p] |}.

(** The characters with a code from [lo] to [hi]. *)
Definition charsBetween (lo hi : nat) : list ascii :=
  ascii_of_nat <$> seq lo (hi + 1 - lo).

(** A time that [parseInt] reads as an hour of the day before the colon and
    a minute of the hour after it, with [minutes] the minutes since
    midnight. *)
Definition readsClock (s : string) : bool :=
  match JS.parsePart s 0, JS.parsePart s 1, minutes s with
  | Some h, Some m, Some t =>
      (0 <=? h) && (h <=? 23) && (0 <=? m) && (m <=? 59) && (t =? 60 * h + m)
  | _, _, _ => false
  end.

(** The dates of the list that are not among [dates], as instants. *)
Definition datesWithout (dates : list Date) (l : list Date) : list Date :=
  List.filter (λ d, negb (existsb (Z.eqb d) dates)) l.

(** The time from [now] to [date] in hours. A date counts milliseconds, and
    an hour has 60 minutes of 60 seconds of 1000 milliseconds. *)
Definition hoursFromTo (now date : Date) : Q :=
  (inject_Z (date - now) / inject_Z (60 * 60 * 1000))%Q.

(** The calendar day in UTC: day [k] after the epoch holds the instants from
    [k] times 86400000 milliseconds up to, and without, the start of day
    [k + 1]. *)
Definition onUtcDay (k : Z) (d : Date) : Prop :=
  k * 86400000 <= d < (k + 1) * 86400000.

(** Two instants fall on the same calendar day in UTC. *)
Definition sameUtcDay (d d' : Date) : Prop :=
  ∃ k, onUtcDay k d ∧ onUtcDay k d'.

(** The character of a decimal digit. *)
Definition digitChar (n : Z) : ascii := ascii_of_nat (48 + Z.to_nat n).

(** A number below 100 in two decimal digits. *)
Definition twoDigits (n : Z) (rest : string) : string :=
  String (digitChar (n / 10)) (String (digitChar (n mod 10)) rest).

(** The time of day [h] hours and [m] minutes, written [HH:mm], and written
    [H:mm] for an hour below ten. *)
Definition clock (h m : Z) : string :=
  twoDigits h (String ":" (twoDigits m EmptyString)).

Definition shortClock (h m : Z) : string :=
  String (digitChar h) (String ":" (twoDigits m EmptyString)).

(** The text [s] is the time of day [h] hours and [m] minutes. *)
Definition isTime (s : string) (h m : Z) : Prop :=
  0 <= h <= 23 ∧ 0 <= m <= 59
  ∧ (s = clock h m ∨ (h <= 9 ∧ s = shortClock h m)).


(** The services read the text [s] as [h] hours and [m] minutes. *)
Definition readAs (s : string) (h m : Z) : bool :=
  match JS.parsePart s 0, JS.parsePart s 1, minutes s with
  | Some h', Some m', Some t => (h' =? h) && (m' =? m) && (t =? 60 * h + m)
  | _, _, _ => false
  end.

(** Two documents of a venue that agree on every field but the blocked
    dates. *)
Definition sameButBlockedDates (venue venue' : Venue.t) : Prop :=
  Venue.name venue' = Venue.name venue
  ∧ Venue.ownerId venue' = Venue.ownerId venue
  ∧ Venue.minCapacity venue' = Venue.minCapacity venue
  ∧ Venue.maxCapacity venue' = Venue.maxCapacity venue
  ∧ Venue.pricePerHour venue' = Venue.pricePerHour venue
  ∧ Venue.openingTime venue' = Venue.openingTime venue
  ∧ Venue.closingTime venue' = Venue.closingTime venue
  ∧ Venue.isActive venue' = Venue.isActive venue
  ∧ Venue.cancellationPolicy venue' = Venue.cancellationPolicy venue.

(** The text [s] is a time of day, decided: the hour and the minute are
    those the services read, and [s] is that time written out. *)
Definition isTimeb (s : string) : bool :=
  match JS.parsePart s 0, JS.parsePart s 1 with
  | Some h, Some m =>
      (0 <=? h) && (h <=? 23) && (0 <=? m) && (m <=? 59)
      && (String.eqb s (clock h m)
          || ((h <=? 9) && String.eqb s (shortClock h m)))
  | _, _ => false
  end.

(** * Properties *)

Lemma Qle_bool_inject_hours (n a : Z) :
  Qle_bool (inject_Z n) (Qmake a 3600000) = (n * 3600000 <=? a).
Proof.
  unfold Qle_bool. cbn [Qnum Qden inject_Z].
  f_equal; lia.
Qed.

Lemma refundPercentage_cases (booking : Booking.t) (venue : Venue.t) (now : Date) :
  refundPercentage (calculateRefund booking venue now) =
    if fullRefundHours (policyOf venue) * 3600000 <=? Booking.eventDate booking - now
    then 100
    else if partialRefundHours (policyOf venue) * 3600000
              <=? Booking.eventDate booking - now
         then partialRefundPercentage (policyOf venue)
         else 0.
Proof.
  unfold calculateRefund, hoursUntilEvent, policyOf.
  rewrite !Qle_bool_inject_hours.
  repeat case_match; simplify_eq; reflexivity.
Qed.

Lemma refundAmount_round (booking : Booking.t) (venue : Venue.t) (now : Date) :
  refundAmount (calculateRefund booking venue now) =
    JS.Math_round
      (Qmake (Booking.advancePaid booking
              * refundPercentage (calculateRefund booking venue now)) 100).
Proof.
  unfold calculateRefund.
  repeat case_match; simplify_eq; reflexivity.
Qed.

Lemma round_half_away_nonneg (q : Q) :
  (0 <= q)%Q → round_half_away_from_zero q = JS.Math_round q.
Proof.
  intros Hq. unfold round_half_away_from_zero, JS.Math_round.
  apply Qle_bool_iff in Hq. rewrite Hq. reflexivity.
Qed.

Lemma product_over_100 (a b : Z) :
  (inject_Z a * inject_Z b / inject_Z 100 == Qmake (a * b) 100)%Q.
Proof. unfold Qeq, Qdiv, Qmult, Qinv, inject_Z. cbn. lia. Qed.

#[local] Instance round_half_away_proper :
  Proper (Qeq ==> eq) round_half_away_from_zero.
Proof.
  intros x y Hxy. unfold round_half_away_from_zero.
  assert (Hb : Qle_bool 0 x = Qle_bool 0 y) by (rewrite Hxy; reflexivity).
  assert (Hu : Qfloor (x + (1 # 2)) = Qfloor (y + (1 # 2)))
    by (rewrite Hxy; reflexivity).
  assert (Hd : Qfloor (- x + (1 # 2)) = Qfloor (- y + (1 # 2)))
    by (rewrite Hxy; reflexivity).
  rewrite Hb, Hu, Hd. reflexivity.
Qed.

Lemma hoursUntilEvent_hours (eventDate now : Date) :
  (hoursUntilEvent eventDate now == hoursFromTo now eventDate)%Q.
Proof.
  unfold hoursUntilEvent, hoursFromTo. change (60 * 60 * 1000) with 3600000.
  unfold Qeq, Qdiv, Qmult, Qinv. cbn [Qnum Qden inject_Z Z.mul Pos.mul]. lia.
Qed.

(** C5. [hoursUntilEvent] is the time from now to the event in hours. The
    refund percentage is 100 when that time is at least [fullRefundHours],
    [partialRefundPercentage] when it is at least [partialRefundHours] and
    below [fullRefundHours], and 0 when it is below [partialRefundHours]; the
    refund amount is the paid amount times the percentage over 100, rounded
    to the nearest integer with a tie away from zero. The policy is one whose
    partial threshold does not exceed the full one, and the paid amount and
    the partial percentage are not negative. With the policy 72 / 24 / 50,
    30 hours to go and 10000 paid, the percentage is 50 and the amount
    5000. *)
Theorem calculateRefund_tiers (booking : Booking.t) (venue : Venue.t) (now : Date) :
  partialRefundHours (policyOf venue) <= fullRefundHours (policyOf venue) →
  0 <= Booking.advancePaid booking →
  0 <= partialRefundPercentage (policyOf venue) →
  (hoursUntilEvent (Booking.eventDate booking) now
     == hoursFromTo now (Booking.eventDate booking))%Q
  ∧ ((inject_Z (fullRefundHours (policyOf venue))
        <= hoursFromTo now (Booking.eventDate booking))%Q →
     refundPercentage (calculateRefund booking venue now) = 100)
  ∧ ((inject_Z (partialRefundHours (policyOf venue))
        <= hoursFromTo now (Booking.eventDate booking))%Q
     ∧ (hoursFromTo now (Booking.eventDate booking)
          < inject_Z (fullRefundHours (policyOf venue)))%Q →
     refundPercentage (calculateRefund booking venue now)
       = partialRefundPercentage (policyOf venue))
  ∧ ((hoursFromTo now (Booking.eventDate booking)
        < inject_Z (partialRefundHours (policyOf venue)))%Q →
     refundPercentage (calculateRefund booking venue now) = 0)
  ∧ refundAmount (calculateRefund booking venue now)
      = round_half_away_from_zero
          (inject_Z (Booking.advancePaid booking)
           * inject_Z (refundPercentage (calculateRefund booking venue now))
           / inject_Z 100)%Q
  ∧ (fullRefundHours (policyOf venue) = 72 →
     partialRefundHours (policyOf venue) = 24 →
     partialRefundPercentage (policyOf venue) = 50 →
     (hoursFromTo now (Booking.eventDate booking) == inject_Z 30)%Q →
     Booking.advancePaid booking = 10000 →
     refundPercentage (calculateRefund booking venue now) = 50
     ∧ refundAmount (calculateRefund booking venue now) = 5000).
Proof.
  intros Hpol Hpaid Hpct.
  split; [apply hoursUntilEvent_hours |].
  assert (Hnonneg : 0 <= refundPercentage (calculateRefund booking venue now)).
  { rewrite refundPercentage_cases. repeat case_match; lia. }
  assert (Hamount :
            refundAmount (calculateRefund booking venue now)
            = round_half_away_from_zero
                (inject_Z (Booking.advancePaid booking)
                 * inject_Z (refundPercentage (calculateRefund booking venue now))
                 / inject_Z 100)%Q).
  { rewrite refundAmount_round, product_over_100.
    rewrite round_half_away_nonneg; [reflexivity |].
    unfold Qle. cbn [Qnum Qden]. nia. }
  assert (Hcmp : ∀ n : Z,
            ((inject_Z n <= hoursFromTo now (Booking.eventDate booking))%Q
             ↔ n * 3600000 <= Booking.eventDate booking - now)
            ∧ ((hoursFromTo now (Booking.eventDate booking) < inject_Z n)%Q
               ↔ Booking.eventDate booking - now < n * 3600000)
            ∧ ((hoursFromTo now (Booking.eventDate booking) == inject_Z n)%Q
               ↔ Booking.eventDate booking - now = n * 3600000)).
  { intros n. unfold hoursFromTo. change (60 * 60 * 1000) with 3600000.
    unfold Qle, Qlt, Qeq, Qdiv, Qmult, Qinv.
    cbn [Qnum Qden inject_Z Z.mul Pos.mul]. lia. }
  split; [| split; [| split; [| split; [exact Hamount |]]]].
  - intros H. apply Hcmp in H. rewrite refundPercentage_cases.
    case_match; [reflexivity | lia].
  - intros [H1 H2]. apply Hcmp in H1, H2. rewrite refundPercentage_cases.
    repeat case_match; lia.
  - intros H. apply Hcmp in H. rewrite refundPercentage_cases.
    repeat case_match; lia.
  - intros Hf Hp Hc Hh Ha. apply Hcmp in Hh.
    rewrite refundAmount_round, refundPercentage_cases, Hf, Hp, Hc, Ha.
    repeat case_match; try lia; split; reflexivity.
Qed.

Lemma getRefundEstimate_found (st : Store) (id userId : ObjectId) (now : Date)
    (booking : Booking.t) (venue : Venue.t) :
  bookingModel st !! id = Some booking →
  venueModel st !! Booking.venueId booking = Some venue →
  Booking.userId booking = userId →
  getRefundEstimate id userId now st =
    (inr {| bookingId := id;
            paidAmount := Booking.advancePaid booking;
            refundInfo := calculateRefund booking venue now;
            cancellationPolicy := Venue.cancellationPolicy venue |}, st).
Proof.
  intros Hb Hv Hu. unfold getRefundEstimate. run.
  rewrite Hb. rewrite bool_decide_eq_true_2 by done. cbn.
  rewrite Hv. reflexivity.
Qed.

Lemma getRefundEstimate_frame (st : Store) (id userId : ObjectId) (now : Date) :
  (getRefundEstimate id userId now st).2 = st.
Proof.
  unfold getRefundEstimate. run.
  repeat (case_match; simplify_eq; cbn in *; try reflexivity).
Qed.

Lemma calculateRefund_ext (b b' : Booking.t) (v v' : Venue.t) (now : Date) :
  Booking.eventDate b = Booking.eventDate b' →
  Booking.advancePaid b = Booking.advancePaid b' →
  Venue.cancellationPolicy v = Venue.cancellationPolicy v' →
  calculateRefund b v now = calculateRefund b' v' now.
Proof.
  intros He Ha Hp. unfold calculateRefund. rewrite He, Ha, Hp. reflexivity.
Qed.

(** C9. [getRefundEstimate] leaves the database as it found it, so no field
    of the booking changes; for the booking's own user it returns, and what
    it returns depends only on the event date, the current time, the paid
    amount and the venue's cancellation policy: two bookings that agree on
    these get the same estimate, and a second call gives what the first
    gave. *)
Theorem getRefundEstimate_pure (st st' : Store) (id userId userId' : ObjectId)
    (now : Date) (b b' : Booking.t) (v v' : Venue.t) :
  bookingModel st !! id = Some b →
  venueModel st !! Booking.venueId b = Some v →
  Booking.userId b = userId →
  bookingModel st' !! id = Some b' →
  venueModel st' !! Booking.venueId b' = Some v' →
  Booking.userId b' = userId' →
  Booking.eventDate b = Booking.eventDate b' →
  Booking.advancePaid b = Booking.advancePaid b' →
  Venue.cancellationPolicy v = Venue.cancellationPolicy v' →
  (getRefundEstimate id userId now st).2 = st
  ∧ bookingModel (getRefundEstimate id userId now st).2 !! id = Some b
  ∧ (∃ estimate, (getRefundEstimate id userId now st).1 = inr estimate)
  ∧ (getRefundEstimate id userId now st).1
      = (getRefundEstimate id userId' now st').1
  ∧ getRefundEstimate id userId now (getRefundEstimate id userId now st).2
      = getRefundEstimate id userId now st.
Proof.
  intros Hb Hv Hu Hb' Hv' Hu' He Ha Hp.
  rewrite (getRefundEstimate_found st id userId now b v) by assumption.
  rewrite (getRefundEstimate_found st' id userId' now b' v') by assumption.
  cbn [fst snd].
  rewrite (getRefundEstimate_found st id userId now b v) by assumption.
  rewrite (calculateRefund_ext b b' v v' now He Ha Hp), Ha, Hp.
  repeat split; eauto.
Qed.

Lemma updateStatus_found (st : Store) (id userId : ObjectId)
    (dto : UpdateBookingStatusDto.t) (userRole : string) (now : Date)
    (b : Booking.t) (v : Venue.t) :
  bookingModel st !! id = Some b →
  venueModel st !! Booking.venueId b = Some v →
  updateStatus id dto userId userRole now st =
    match userModel st !! Venue.ownerId v with
    | None =>
        (inl (TypeError "Cannot read properties of null (reading 'toString')"),
         st)
    | Some _ =>
        if negb (bool_decide (Booking.userId b = userId))
           && negb (bool_decide (userRole = "ADMIN")) then
          (inl (ForbiddenException
                  "You do not have permission to update this booking"), st)
        else if bool_decide (Booking.userId b = userId)
                && negb (bool_decide (userRole = "ADMIN"))
                && match UpdateBookingStatusDto.status dto with
                   | Some s => negb (bool_decide (s = CANCELLED))
                   | None => false
                   end then
          (inl (ForbiddenException "You can only cancel your own bookings"), st)
        else
          (inr (applyUpdate dto v now b),
           withBooking id (applyUpdate dto v now b) st)
    end.
Proof.
  intros Hb Hv. unfold updateStatus. run. rewrite Hb, Hv.
  destruct (userModel st !! Venue.ownerId v) as [doc |]; [| reflexivity].
  rewrite (bool_decide_eq_false_2
             (Inspected (Venue.ownerId v) doc = Hex userId)) by discriminate.
  cbn [negb]. rewrite !andb_true_r.
  repeat case_match; reflexivity.
Qed.

Lemma updateStatus_authorized (st : Store) (id userId : ObjectId)
    (dto : UpdateBookingStatusDto.t) (userRole : string) (now : Date)
    (b : Booking.t) (v : Venue.t) :
  bookingModel st !! id = Some b →
  venueModel st !! Booking.venueId b = Some v →
  ownerAccount st v →
  userRole = "ADMIN"
  ∨ (Booking.userId b = userId
     ∧ (UpdateBookingStatusDto.status dto = None
        ∨ UpdateBookingStatusDto.status dto = Some CANCELLED)) →
  updateStatus id dto userId userRole now st =
    (inr (applyUpdate dto v now b), withBooking id (applyUpdate dto v now b) st).
Proof.
  intros Hb Hv [doc Hdoc] Hauth.
  rewrite (updateStatus_found st id userId dto userRole now b v Hb Hv), Hdoc.
  destruct (bool_decide (Booking.userId b = userId)) eqn:E1,
           (bool_decide (userRole = "ADMIN")) eqn:E3;
    cbn; try reflexivity.
  - apply bool_decide_eq_false in E3.
    destruct Hauth as [? | [_ [-> | ->]]]; done.
  - apply bool_decide_eq_false in E1, E3.
    destruct Hauth as [? | [? _]]; done.
Qed.

Lemma updateStatus_returns (st st' : Store) (id userId : ObjectId)
    (dto : UpdateBookingStatusDto.t) (userRole : string) (now : Date)
    (b' : Booking.t) :
  updateStatus id dto userId userRole now st = (inr b', st') →
  ∃ b v, bookingModel st !! id = Some b
         ∧ venueModel st !! Booking.venueId b = Some v
         ∧ b' = applyUpdate dto v now b
         ∧ st' = withBooking id b' st.
Proof.
  intros H.
  destruct (bookingModel st !! id) as [b |] eqn:Hb;
    [| unfold updateStatus in H; run; rewrite Hb in H; discriminate].
  destruct (venueModel st !! Booking.venueId b) as [v |] eqn:Hv;
    [| unfold updateStatus in H; run; rewrite Hb, Hv in H; discriminate].
  rewrite (updateStatus_found st id userId dto userRole now b v Hb Hv) in H.
  repeat case_match; simplify_eq; exists b, v; done.
Qed.


Lemma applyUpdate_status (dto : UpdateBookingStatusDto.t) (v : Venue.t)
    (now : Date) (b : Booking.t) :
  Booking.status (applyUpdate dto v now b) =
    default (Booking.status b) (UpdateBookingStatusDto.status dto).
Proof.
  unfold applyUpdate, stampCancellation.
  repeat (case_match; simplify_eq; cbn); reflexivity.
Qed.




Lemma overlaps_iff (startTime endTime : string) (b : Booking.t) :
  overlaps startTime endTime b = true ↔ slotsOverlap startTime endTime b.
Proof.
  unfold overlaps, slotsOverlap, JS.lt, JS.gt. split.
  - intros H. apply andb_true_iff in H as [H1 H2].
    destruct (minutes startTime) as [ns |]; [| discriminate].
    destruct (minutes (Booking.endTime b)) as [ee |]; [| discriminate].
    destruct (minutes endTime) as [ne |]; [| discriminate].
    destruct (minutes (Booking.startTime b)) as [es |]; [| discriminate].
    exists ns, ne, es, ee. repeat split; lia.
  - intros (ns & ne & es & ee & -> & -> & -> & -> & H1 & H2).
    apply andb_true_iff. split; lia.
Qed.

Lemma noOverlap_false_iff (l : list Booking.t) (startTime endTime : string) :
  noOverlap l startTime endTime = false
  ↔ ∃ b, b ∈ l ∧ overlaps startTime endTime b = true.
Proof.
  induction l as [| b l IH]; cbn.
  - split; [discriminate | intros (b & Hb & _); inversion Hb].
  - destruct (overlaps startTime endTime b) eqn:Ho.
    + split; [| reflexivity]. intros _. exists b. split; [left | exact Ho].
    + rewrite IH. split.
      * intros (b' & Hin & Hb'). exists b'. split; [right; exact Hin | exact Hb'].
      * intros (b' & Hin & Hb'). inversion Hin; subst; [congruence |].
        exists b'. split; assumption.
Qed.

Lemma same_local_day (tz : Z) (date eventDate : Date) :
  (startOfDay tz date <=? eventDate) && (eventDate <=? endOfDay tz date) = true
  ↔ localDay tz eventDate = localDay tz date.
Proof.
  unfold endOfDay, startOfDay, localDay, msPerDay.
  rewrite andb_true_iff, !Z.leb_le.
  pose proof (Z.div_mod (date + tz) 86400000 ltac:(lia)) as Hd.
  pose proof (Z.mod_pos_bound (date + tz) 86400000 ltac:(lia)) as Hdm.
  pose proof (Z.div_mod (eventDate + tz) 86400000 ltac:(lia)) as He.
  pose proof (Z.mod_pos_bound (eventDate + tz) 86400000 ltac:(lia)) as Hem.
  lia.
Qed.

Lemma isActiveStatus_iff (s : BookingStatus) :
  isActiveStatus s = true ↔ s = PENDING ∨ s = CONFIRMED.
Proof. destruct s; vm_compute; intuition congruence. Qed.

Lemma elem_of_findBookings (st : Store) (f : Booking.t → bool) (b : Booking.t) :
  b ∈ List.filter f (map_to_list (bookingModel st)).*2
  ↔ ∃ id, bookingModel st !! id = Some b ∧ f b = true.
Proof.
  rewrite list_elem_of_In, filter_In, <- list_elem_of_In, list_elem_of_fmap.
  split.
  - intros [([id b'] & -> & Hin) Hf]. apply elem_of_map_to_list in Hin. eauto.
  - intros (id & Hb & Hf). split; [| exact Hf].
    exists (id, b). split; [reflexivity |]. by apply elem_of_map_to_list.
Qed.

Lemma isBlocked_iff (venue : Venue.t) (date : Date) :
  existsb (λ d, isoDay d =? isoDay date) (Venue.blockedDates venue) = true
  ↔ ∃ d, d ∈ Venue.blockedDates venue ∧ isoDay d = isoDay date.
Proof.
  rewrite existsb_exists. split; intros (d & Hin & Hd); exists d.
  - rewrite list_elem_of_In. split; [exact Hin | lia].
  - rewrite <- list_elem_of_In. split; [exact Hin | lia].
Qed.

Lemma checkAvailability_found (tz : Z) (st : Store) (venueId : ObjectId)
    (date : Date) (startTime endTime : string) (venue : Venue.t) :
  venueModel st !! venueId = Some venue →
  checkAvailability tz venueId date startTime endTime st =
    (inr (if existsb (λ d, isoDay d =? isoDay date) (Venue.blockedDates venue)
          then false
          else noOverlap
                 (List.filter (sameVenueAndDay tz venueId date)
                    (map_to_list (bookingModel st)).*2)
                 startTime endTime), st).
Proof.
  intros Hv. unfold checkAvailability. run. rewrite Hv.
  destruct (existsb _ _); reflexivity.
Qed.

Lemma sameVenueAndDay_iff (tz : Z) (venueId : ObjectId) (date : Date)
    (b : Booking.t) :
  sameVenueAndDay tz venueId date b = true
  ↔ Booking.venueId b = venueId
    ∧ localDay tz (Booking.eventDate b) = localDay tz date
    ∧ (Booking.status b = PENDING ∨ Booking.status b = CONFIRMED).
Proof.
  unfold sameVenueAndDay.
  pose proof (same_local_day tz date (Booking.eventDate b)) as Hday.
  rewrite andb_true_iff in Hday.
  rewrite !andb_true_iff, bool_decide_eq_true, isActiveStatus_iff.
  tauto.
Qed.

Lemma checkAvailability_false_cases (tz : Z) (st : Store) (venueId : ObjectId)
    (date : Date) (startTime endTime : string) (venue : Venue.t) :
  venueModel st !! venueId = Some venue →
  ((checkAvailability tz venueId date startTime endTime st).1 = inr false
   ↔ (∃ d, d ∈ Venue.blockedDates venue ∧ isoDay d = isoDay date)
     ∨ (∃ id b, bookingModel st !! id = Some b
                ∧ Booking.venueId b = venueId
                ∧ localDay tz (Booking.eventDate b) = localDay tz date
                ∧ (Booking.status b = PENDING ∨ Booking.status b = CONFIRMED)
                ∧ slotsOverlap startTime endTime b))
  ∧ ((checkAvailability tz venueId date startTime endTime st).1 = inr false
     ∨ (checkAvailability tz venueId date startTime endTime st).1 = inr true).
Proof.
  intros Hv. rewrite (checkAvailability_found tz st venueId date _ _ venue Hv).
  cbn [fst snd]. split.
  - rewrite <- isBlocked_iff.
    destruct (existsb _ (Venue.blockedDates venue)) eqn:Hblocked.
    + split; [intros _; left; reflexivity | reflexivity].
    + split.
      * intros H. right. injection H as H.
        apply noOverlap_false_iff in H as (b & Hin & Ho).
        apply elem_of_findBookings in Hin as (id & Hb & Hf).
        apply sameVenueAndDay_iff in Hf as (Hvenue & Hday & Hstatus).
        apply overlaps_iff in Ho. eauto 10.
      * intros [H | (id & b & Hb & Hvenue & Hday & Hstatus & Ho)];
          [discriminate |].
        f_equal. apply noOverlap_false_iff. exists b. split.
        -- apply elem_of_findBookings. exists id. split; [exact Hb |].
           apply sameVenueAndDay_iff. auto.
        -- apply overlaps_iff. exact Ho.
  - destruct (existsb _ _); [left; reflexivity |].
    destruct (noOverlap _ _ _); [right | left]; reflexivity.
Qed.

Lemma isoDay_sameUtcDay (d d' : Date) :
  isoDay d = isoDay d' ↔ sameUtcDay d d'.
Proof.
  unfold isoDay, msPerDay, sameUtcDay, onUtcDay.
  pose proof (Z.div_mod d 86400000 ltac:(lia)) as Hd.
  pose proof (Z.mod_pos_bound d 86400000 ltac:(lia)) as Hdm.
  pose proof (Z.div_mod d' 86400000 ltac:(lia)) as Hd'.
  pose proof (Z.mod_pos_bound d' 86400000 ltac:(lia)) as Hdm'.
  split.
  - intros Heq. exists (d / 86400000). lia.
  - intros (k & Hk & Hk'). lia.
Qed.

Lemma clock_table :
  forallb (λ h,
    forallb (λ m,
      readAs (clock h m) h m && ((9 <? h) || readAs (shortClock h m) h m))
      (seqZ 0 60))
    (seqZ 0 24) = true.
Proof. vm_compute. reflexivity. Qed.

Lemma isTime_readAs (s : string) (h m : Z) :
  isTime s h m → readAs s h m = true.
Proof.
  intros (Hh & Hm & Hs).
  pose proof clock_table as Hall.
  rewrite forallb_forall in Hall.
  specialize (Hall h). rewrite <- list_elem_of_In, elem_of_seqZ in Hall.
  specialize (Hall ltac:(lia)). rewrite forallb_forall in Hall.
  specialize (Hall m). rewrite <- list_elem_of_In, elem_of_seqZ in Hall.
  specialize (Hall ltac:(lia)). apply andb_true_iff in Hall as [Hlong Hshort].
  destruct Hs as [-> | [Hnine ->]]; [exact Hlong |].
  apply orb_true_iff in Hshort as [Hlt | Hshort]; [lia | exact Hshort].
Qed.



Lemma checkAvailability_frame (tz : Z) (st : Store) (venueId : ObjectId)
    (date : Date) (startTime endTime : string) :
  (checkAvailability tz venueId date startTime endTime st).2 = st.
Proof.
  unfold checkAvailability. run.
  repeat (case_match; simplify_eq; cbn in *; try reflexivity).
Qed.

Lemma checkAvailability_eq (tz : Z) (st : Store) (venueId : ObjectId)
    (date : Date) (startTime endTime : string) (r : Exception + bool) :
  (checkAvailability tz venueId date startTime endTime st).1 = r →
  checkAvailability tz venueId date startTime endTime st = (r, st).
Proof.
  intros <-. rewrite <- (checkAvailability_frame tz st venueId date startTime endTime)
    at 3.
  apply surjective_pairing.
Qed.

(** A time whose part before the colon is [h]: [split] gives [h] first,
    whatever follows the colon. *)
Lemma split_before_colon (h m : string) :
  JS.split ":" h = [h] → JS.split ":" (h +:+ ":" +:+ m) !! 0%nat = Some h.
Proof.
  revert m. induction h as [| c h IH]; intros m Hh.
  - reflexivity.
  - change (String c h +:+ ":" +:+ m) with (String c (h +:+ ":" +:+ m)).
    cbn [JS.split] in *.
    destruct (Ascii.eqb c ":"); [discriminate |].
    destruct (JS.split ":" h) as [| w ws] eqn:Hsplit; [| injection Hh as -> ->].
    + destruct h; cbn in Hsplit; repeat case_match; discriminate.
    + specialize (IH m eq_refl).
      destruct (JS.split ":" (h +:+ ":" +:+ m)) as [| w' ws']; [discriminate |].
      cbn in IH |- *. by simplify_eq.
Qed.

(** C7. When the venue exists and is active, the guest count is within its
    capacity, the slot is available and the two times have an hour part,
    [create] stores a new booking under a fresh id with
    [totalAmount = (endHour - startHour) * pricePerHour], where the hours are
    the integers before the colon (what follows the colon plays no part in
    the price),
    status [PENDING], payment status [UNPAID], nothing paid and the whole
    total as balance. At 5000 per hour, 10:00 to 18:00 costs 40000. *)
Theorem create_total_and_defaults (tz : Z) (st : Store)
    (dto : CreateBookingDto.t) (userId : ObjectId) (venue : Venue.t)
    (startHour endHour : Z) :
  venueModel st !! CreateBookingDto.venueId dto = Some venue →
  Venue.isActive venue = true →
  Venue.minCapacity venue <= CreateBookingDto.guestCount dto
    <= Venue.maxCapacity venue →
  (checkAvailability tz (CreateBookingDto.venueId dto)
     (CreateBookingDto.eventDate dto) (CreateBookingDto.startTime dto)
     (CreateBookingDto.endTime dto) st).1 = inr true →
  JS.parsePart (CreateBookingDto.startTime dto) 0 = Some startHour →
  JS.parsePart (CreateBookingDto.endTime dto) 0 = Some endHour →
  (∃ id b,
     create tz dto userId st = (inr (id, b), withBooking id b st)
     ∧ bookingModel st !! id = None
     ∧ Booking.totalAmount b = (endHour - startHour) * Venue.pricePerHour venue
     ∧ Booking.status b = PENDING
     ∧ Booking.paymentStatus b = UNPAID
     ∧ Booking.advancePaid b = 0
     ∧ Booking.balanceAmount b = Booking.totalAmount b
     ∧ (CreateBookingDto.startTime dto = "10:00" →
        CreateBookingDto.endTime dto = "18:00" →
        Venue.pricePerHour venue = 5000 →
        Booking.totalAmount b = 40000))
  ∧ (∀ h1 h2 m1 m2 m1' m2',
       JS.split ":" h1 = [h1] → JS.split ":" h2 = [h2] →
       price (h1 +:+ ":" +:+ m1) (h2 +:+ ":" +:+ m2) venue
         = price (h1 +:+ ":" +:+ m1') (h2 +:+ ":" +:+ m2') venue)
  ∧ price "10:45" "18:15" venue = price "10:00" "18:00" venue.
Proof.
  intros Hv Hactive Hcap Havail Hs He. split.
  - apply checkAvailability_eq in Havail.
    unfold create. run. rewrite Hv, Hactive. cbn [negb].
    replace (CreateBookingDto.guestCount dto <? Venue.minCapacity venue)
      with false by lia.
    replace (CreateBookingDto.guestCount dto >? Venue.maxCapacity venue)
      with false by lia.
    cbn [orb]. unfold mbind, M_bind in Havail. rewrite Havail. cbn [negb].
    unfold price. rewrite Hs, He. cbn [JS.sub JS.mul].
    eexists _, _. split; [reflexivity |]. cbn.
    split; [apply not_elem_of_dom, is_fresh |].
    repeat split; try reflexivity.
    intros Hs10 He18 Hprice. rewrite Hs10 in Hs. rewrite He18 in He.
    cbv in Hs, He. simplify_eq. lia.
  - split; [| reflexivity].
    intros h1 h2 m1 m2 m1' m2' H1 H2. unfold price, JS.parsePart.
    rewrite !split_before_colon by assumption. reflexivity.
Qed.

Lemma reschedule_conflict (tz : Z) (st : Store) (id userId : ObjectId)
    (dto : RescheduleBookingDto.t) (b : Booking.t) :
  bookingModel st !! id = Some b →
  Booking.userId b = userId →
  Booking.status b = PENDING ∨ Booking.status b = CONFIRMED →
  (checkAvailability tz (Booking.venueId b) (RescheduleBookingDto.newEventDate dto)
     (RescheduleBookingDto.newStartTime dto)
     (RescheduleBookingDto.newEndTime dto) st).1 = inr false →
  reschedule tz id dto userId st =
    (inl (BadRequestException "The new date/time is not available"), st).
Proof.
  intros Hb Hu Hs Havail. apply checkAvailability_eq in Havail.
  apply isActiveStatus_iff in Hs.
  unfold reschedule. run. rewrite Hb.
  rewrite (bool_decide_eq_true_2 _ Hu), Hs. cbn [negb].
  rewrite Havail. reflexivity.
Qed.

Lemma reschedule_available (tz : Z) (st : Store) (id userId : ObjectId)
    (dto : RescheduleBookingDto.t) (b : Booking.t) (v : Venue.t)
    (newTotalAmount : Z) :
  bookingModel st !! id = Some b →
  venueModel st !! Booking.venueId b = Some v →
  Booking.userId b = userId →
  Booking.status b = PENDING ∨ Booking.status b = CONFIRMED →
  (checkAvailability tz (Booking.venueId b) (RescheduleBookingDto.newEventDate dto)
     (RescheduleBookingDto.newStartTime dto)
     (RescheduleBookingDto.newEndTime dto) st).1 = inr true →
  price (RescheduleBookingDto.newStartTime dto)
        (RescheduleBookingDto.newEndTime dto) v = Some newTotalAmount →
  ∃ b', reschedule tz id dto userId st = (inr b', withBooking id b' st)
        ∧ Booking.eventDate b' = RescheduleBookingDto.newEventDate dto
        ∧ Booking.startTime b' = RescheduleBookingDto.newStartTime dto
        ∧ Booking.endTime b' = RescheduleBookingDto.newEndTime dto
        ∧ Booking.totalAmount b' = newTotalAmount
        ∧ Booking.balanceAmount b' = newTotalAmount - Booking.advancePaid b
        ∧ Booking.status b' = Booking.status b.
Proof.
  intros Hb Hv Hu Hs Havail Hprice. apply checkAvailability_eq in Havail.
  apply isActiveStatus_iff in Hs.
  unfold reschedule. run. rewrite Hb.
  rewrite (bool_decide_eq_true_2 _ Hu), Hs. cbn [negb].
  rewrite Havail. cbn [negb]. rewrite Hv, Hprice.
  eexists. split; [reflexivity |]. cbn. done.
Qed.

(** C4, as the code has it. [reschedule] checks the new slot against every
    [PENDING] or [CONFIRMED] booking of the venue on the new day, the booking
    being rescheduled included. For the booking's own user and a [PENDING] or
    [CONFIRMED] booking: a new slot on the booking's current day that
    overlaps its current slot is refused with "The new date/time is not
    available" and nothing is written; a new slot on a day that is not
    blocked and that overlaps no [PENDING] or [CONFIRMED] booking of the
    venue on that day, this booking among them, is accepted, and the booking
    gets the new date, times, total and balance. *)
Theorem reschedule_checks_own_slot (tz : Z) (st : Store) (id userId : ObjectId)
    (dto : RescheduleBookingDto.t) (b : Booking.t) (v : Venue.t) :
  bookingModel st !! id = Some b →
  venueModel st !! Booking.venueId b = Some v →
  Booking.userId b = userId →
  Booking.status b = PENDING ∨ Booking.status b = CONFIRMED →
  (localDay tz (Booking.eventDate b)
     = localDay tz (RescheduleBookingDto.newEventDate dto) →
   slotsOverlap (RescheduleBookingDto.newStartTime dto)
     (RescheduleBookingDto.newEndTime dto) b →
   reschedule tz id dto userId st =
     (inl (BadRequestException "The new date/time is not available"), st))
  ∧ (∀ newTotalAmount,
       (∀ d, d ∈ Venue.blockedDates v →
             isoDay d ≠ isoDay (RescheduleBookingDto.newEventDate dto)) →
       (∀ id' b', bookingModel st !! id' = Some b' →
                  Booking.venueId b' = Booking.venueId b →
                  localDay tz (Booking.eventDate b')
                    = localDay tz (RescheduleBookingDto.newEventDate dto) →
                  Booking.status b' = PENDING ∨ Booking.status b' = CONFIRMED →
                  ¬ slotsOverlap (RescheduleBookingDto.newStartTime dto)
                      (RescheduleBookingDto.newEndTime dto) b') →
       price (RescheduleBookingDto.newStartTime dto)
             (RescheduleBookingDto.newEndTime dto) v = Some newTotalAmount →
       ∃ b', reschedule tz id dto userId st = (inr b', withBooking id b' st)
             ∧ Booking.eventDate b' = RescheduleBookingDto.newEventDate dto
             ∧ Booking.startTime b' = RescheduleBookingDto.newStartTime dto
             ∧ Booking.endTime b' = RescheduleBookingDto.newEndTime dto
             ∧ Booking.totalAmount b' = newTotalAmount
             ∧ Booking.balanceAmount b' = newTotalAmount - Booking.advancePaid b).
Proof.
  intros Hb Hv Hu Hs.
  destruct (checkAvailability_false_cases tz st (Booking.venueId b)
              (RescheduleBookingDto.newEventDate dto)
              (RescheduleBookingDto.newStartTime dto)
              (RescheduleBookingDto.newEndTime dto) v Hv)
    as (Hiff & Hbool).
  split.
  - intros Hday Hover. apply reschedule_conflict with (b := b); try assumption.
    apply Hiff. right. exists id, b. done.
  - intros total Hblocked Hfree Hprice.
    destruct (reschedule_available tz st id userId dto b v total)
      as (b' & Hrun & Hfields); try assumption.
    + destruct Hbool as [Hfalse | Htrue]; [| exact Htrue].
      apply Hiff in Hfalse as [(d & Hd & Hday) | (id' & b' & H1 & H2 & H3 & H4 & H5)].
      * destruct (Hblocked d Hd Hday).
      * destruct (Hfree id' b' H1 H2 H3 H4 H5).
    + exists b'. split; [exact Hrun |]. tauto.
Qed.

Lemma updateBookingPayment_found (st : Store) (p : Payment.t) (b : Booking.t) :
  bookingModel st !! Payment.bookingId p = Some b →
  updateBookingPayment p st
    = (inr tt, withBooking (Payment.bookingId p) (applyPayment p b) st).
Proof. intros Hb. unfold updateBookingPayment. run. rewrite Hb. reflexivity. Qed.

(** The success path shared by the two verifications. *)
Lemma save_and_apply {A : Type} (st : Store) (p : Payment.t) (b : Booking.t)
    (result : A) :
  bookingModel st !! Payment.bookingId p = Some b →
  (Db.savePayment p;; updateBookingPayment p;; mret result) st
    = (inr result,
       withBooking (Payment.bookingId p) (applyPayment p b) (withPayment p st)).
Proof.
  intros Hb. unfold updateBookingPayment. run. cbn. rewrite Hb. reflexivity.
Qed.

Lemma applyPayment_fields (p : Payment.t) (b : Booking.t) :
  (Payment.paymentType p = ADVANCE →
   Booking.advancePaid (applyPayment p b) = Payment.amount p
   ∧ Booking.balanceAmount (applyPayment p b)
       = Booking.totalAmount b - Payment.amount p
   ∧ Booking.paymentStatus (applyPayment p b) = PARTIAL)
  ∧ (Payment.paymentType p = FULL →
     Booking.advancePaid (applyPayment p b) = Payment.amount p
     ∧ Booking.balanceAmount (applyPayment p b) = 0
     ∧ Booking.paymentStatus (applyPayment p b) = PAID)
  ∧ (Payment.paymentType p = BALANCE →
     Booking.advancePaid (applyPayment p b)
       = Booking.advancePaid b + Payment.amount p
     ∧ Booking.balanceAmount (applyPayment p b) = 0
     ∧ Booking.paymentStatus (applyPayment p b) = PAID)
  ∧ Booking.totalAmount (applyPayment p b) = Booking.totalAmount b
  ∧ Booking.status (applyPayment p b) = Booking.status b.
Proof.
  unfold applyPayment.
  destruct (Payment.paymentType p); cbn; repeat split; intros; done.
Qed.

Lemma applyPayment_complete (t : option string) (g : GatewayResponse)
    (p : Payment.t) (b : Booking.t) :
  applyPayment (complete t g p) b = applyPayment p b.
Proof. reflexivity. Qed.

Lemma findKhaltiPayment_frame (pidx : string) (st : Store) :
  (findKhaltiPayment pidx st).2 = st.
Proof.
  unfold findKhaltiPayment. run. repeat case_match; reflexivity.
Qed.

Lemma verifyEsewaPayment_success (st : Store) (d : EsewaCallback)
    (p : Payment.t) (b : Booking.t) :
  List.find (λ q, bool_decide (Payment.referenceId q = transaction_uuid d))
    (paymentModel st) = Some p →
  esewa_status d = "COMPLETE" →
  bookingModel st !! Payment.bookingId p = Some b →
  verifyEsewaPayment (Some d) st =
    (inr {| success := true;
            message := "Payment verified successfully";
            payment := complete (Some (transaction_code d)) (EsewaDecoded d) p |},
     withBooking (Payment.bookingId p) (applyPayment p b)
       (withPayment (complete (Some (transaction_code d)) (EsewaDecoded d) p) st)).
Proof.
  intros Hfind Hstatus Hb. unfold verifyEsewaPayment, try_catch.
  unfold mbind at 1, M_bind at 1, Db.findOnePayment. rewrite Hfind.
  rewrite (bool_decide_eq_true_2 _ Hstatus).
  rewrite (save_and_apply st _ b) by exact Hb. reflexivity.
Qed.

Lemma verifyKhaltiPayment_success (khaltiSecretKey : string) (st : Store)
    (pidx : string) (response : option KhaltiLookup) (p : Payment.t)
    (b : Booking.t) :
  (findKhaltiPayment pidx st).1 = inr (Some p) →
  bookingModel st !! Payment.bookingId p = Some b →
  khaltiSecretKey = ""
  ∨ (∃ r, response = Some r ∧ lookup_status r = "Completed") →
  ∃ result p',
    verifyKhaltiPayment khaltiSecretKey pidx response st =
      (inr result,
       withBooking (Payment.bookingId p) (applyPayment p b) (withPayment p' st))
    ∧ success result = true ∧ payment result = p'
    ∧ Payment._id p' = Payment._id p
    ∧ Payment.status p' = TX_COMPLETED.
Proof.
  intros Hfind Hb Hmode.
  assert (Hrun : findKhaltiPayment pidx st = (inr (Some p), st)).
  { pose proof (findKhaltiPayment_frame pidx st) as Hframe.
    destruct (findKhaltiPayment pidx st) as [x s]. cbn in *. congruence. }
  unfold verifyKhaltiPayment.
  unfold mbind at 1, M_bind at 1. rewrite Hrun.
  destruct (bool_decide (khaltiSecretKey = "")) eqn:Hkey.
  - rewrite (save_and_apply st _ b) by exact Hb.
    eexists _, _. split; [reflexivity |]. done.
  - destruct Hmode as [-> | (r & -> & Hstatus)]; [discriminate |].
    unfold try_catch. rewrite (bool_decide_eq_true_2 _ Hstatus).
    rewrite (save_and_apply st _ b) by exact Hb.
    eexists _, _. split; [reflexivity |]. done.
Qed.

Lemma applyPayment_carried (p : Payment.t) (b : Booking.t) :
  carries p b →
  Booking.balanceAmount (applyPayment p b) = Booking.balanceAmount b
  ∧ Booking.paymentStatus (applyPayment p b) = Booking.paymentStatus b
  ∧ (Payment.paymentType p ≠ BALANCE → applyPayment p b = b)
  ∧ (Payment.paymentType p = BALANCE →
     Booking.advancePaid (applyPayment p b)
       = Booking.advancePaid b + Payment.amount p).
Proof.
  unfold carries, applyPayment. destruct b.
  destruct (Payment.paymentType p); cbn; intros H;
    repeat split; intros; try done;
    destruct H as (? & ? & ?) || destruct H as (? & ?);
    simplify_eq; cbn in *; try done; f_equal; lia.
Qed.

Lemma reapplied_after_save (p p' : Payment.t) (b : Booking.t) (st : Store) :
  carries p b →
  reapplied p b
    (withBooking (Payment.bookingId p) (applyPayment p b) (withPayment p' st)).
Proof.
  intros Hc. exists (applyPayment p b). split.
  - cbn. apply lookup_insert_eq.
  - split; [reflexivity |]. apply applyPayment_carried, Hc.
Qed.

(** C1, as the code has it. Neither verification looks at the status of the
    payment: for a payment that is already [COMPLETED], a repeated successful
    callback runs the booking update again. While the booking still holds
    what the first verification wrote, that leaves [balanceAmount] and
    [paymentStatus] as they were, and for an [ADVANCE], [FULL] or [REFUND]
    payment the whole booking; for a [BALANCE] payment [advancePaid] grows by
    the amount once more. *)
Theorem verify_repeat_reapplies (khaltiSecretKey : string) (st : Store)
    (p : Payment.t) (b : Booking.t) (d : EsewaCallback) (pidx : string)
    (response : option KhaltiLookup) :
  Payment.status p = TX_COMPLETED →
  bookingModel st !! Payment.bookingId p = Some b →
  carries p b →
  (List.find (λ q, bool_decide (Payment.referenceId q = transaction_uuid d))
     (paymentModel st) = Some p →
   esewa_status d = "COMPLETE" →
   ∃ result st', verifyEsewaPayment (Some d) st = (inr result, st')
                 ∧ success result = true
                 ∧ reapplied p b st')
  ∧ ((findKhaltiPayment pidx st).1 = inr (Some p) →
     khaltiSecretKey = ""
     ∨ (∃ r, response = Some r ∧ lookup_status r = "Completed") →
     ∃ result st', verifyKhaltiPayment khaltiSecretKey pidx response st
                     = (inr result, st')
                   ∧ success result = true
                   ∧ reapplied p b st').
Proof.
  intros _ Hb Hc. split.
  - intros Hfind Hstatus. eexists _, _. split.
    + apply verifyEsewaPayment_success; eassumption.
    + split; [reflexivity |]. apply reapplied_after_save, Hc.
  - intros Hfind Hmode.
    destruct (verifyKhaltiPayment_success khaltiSecretKey st pidx response p b
                Hfind Hb Hmode) as (result & p' & Hrun & Hsucc & _).
    eexists _, _. split; [exact Hrun |]. split; [exact Hsucc |].
    apply reapplied_after_save, Hc.
Qed.

Lemma find_snoc {A : Type} (f : A → bool) (l : list A) (x : A) :
  (∀ y, y ∈ l → f y = false) → f x = true → List.find f (l ++ [x]) = Some x.
Proof.
  intros Hl Hx. induction l as [| y l IH]; cbn.
  - rewrite Hx. reflexivity.
  - rewrite (Hl y) by left. apply IH. intros z Hz. apply Hl. by right.
Qed.

Lemma find_none {A : Type} (f : A → bool) (l : list A) :
  (∀ y, y ∈ l → f y = false) → List.find f l = None.
Proof.
  intros Hl. induction l as [| y l IH]; cbn; [reflexivity |].
  rewrite (Hl y) by left. apply IH. intros z Hz. apply Hl. by right.
Qed.

Lemma existsb_false_elem {A : Type} (f : A → bool) (l : list A) :
  existsb f l = false → ∀ y, y ∈ l → f y = false.
Proof.
  intros H y Hy. destruct (f y) eqn:Hf; [| reflexivity].
  rewrite <- H. symmetry. apply existsb_exists. exists y.
  by rewrite <- list_elem_of_In.
Qed.

Lemma updateIn_fresh (id : ObjectId) (f : Payment.t → Payment.t)
    (l : list Payment.t) :
  (∀ q, q ∈ l → Payment._id q ≠ id) → Db.updateIn id f <$> l = l.
Proof.
  intros Hl. induction l as [| q l IH]; cbn; [reflexivity |].
  unfold Db.updateIn at 1. rewrite bool_decide_eq_false_2 by (apply Hl; left).
  f_equal. apply IH. intros z Hz. apply Hl. by right.
Qed.

Lemma new_payment_id_fresh (l : list Payment.t) (q : Payment.t) :
  q ∈ l → Payment._id q ≠ fresh (list_to_set (Payment._id <$> l) : gset ObjectId).
Proof.
  intros Hq Heq.
  apply (is_fresh (list_to_set (Payment._id <$> l) : gset ObjectId)).
  rewrite <- Heq. apply elem_of_list_to_set, list_elem_of_fmap_2, Hq.
Qed.

Lemma dropPrefix_mock (s : string) : JS.dropPrefix "mock_" ("mock_" +:+ s) = s.
Proof.
  unfold JS.dropPrefix.
  change ("mock_" +:+ s)
    with (String "m" (String "o" (String "c" (String "k" (String "_" s))))).
  cbn. rewrite Nat.sub_0_r.
  induction s as [| c s IH]; cbn; [reflexivity |]. by rewrite IH.
Qed.

Lemma startsWith_mock (s : string) : JS.startsWith "mock_" ("mock_" +:+ s) = true.
Proof.
  unfold JS.startsWith.
  change ("mock_" +:+ s)
    with (String "m" (String "o" (String "c" (String "k" (String "_" s))))).
  destruct s; reflexivity.
Qed.

(** What a returning [initiatePayment] has done: the booking exists and is
    the caller's, a full payment is for the whole total, and a payment with
    a new reference id was appended, for Khalti with the token of the
    gateway on it. *)
Lemma initiatePayment_returns (khaltiSecretKey : string)
    (dto : InitiatePaymentDto.t) (userId : ObjectId) (now : Z) (rnd : string)
    (response : option KhaltiInitiation) (st st1 : Store) (data : PaymentData) :
  initiatePayment khaltiSecretKey dto userId now rnd response st = (inr data, st1) →
  ∃ b p,
    bookingModel st !! InitiatePaymentDto.bookingId dto = Some b
    ∧ Booking.userId b = userId
    ∧ (default FULL (InitiatePaymentDto.paymentType dto) = FULL →
       InitiatePaymentDto.amount dto = Booking.totalAmount b)
    ∧ bookingModel st1 = bookingModel st
    ∧ paymentModel st1 = (paymentModel st ++ [p])%list
    ∧ Payment.bookingId p = InitiatePaymentDto.bookingId dto
    ∧ Payment.amount p = InitiatePaymentDto.amount dto
    ∧ Payment.paymentType p = default FULL (InitiatePaymentDto.paymentType dto)
    ∧ Payment.referenceId p = generateReferenceId now rnd
    ∧ (∀ q, q ∈ paymentModel st → Payment.referenceId q ≠ Payment.referenceId p)
    ∧ match data with
      | EsewaForm _ referenceId _ =>
          InitiatePaymentDto.gateway dto = ESEWA
          ∧ referenceId = Payment.referenceId p
      | KhaltiMockData _ referenceId mockPidx =>
          InitiatePaymentDto.gateway dto = KHALTI
          ∧ khaltiSecretKey = ""
          ∧ referenceId = Payment.referenceId p
          ∧ mockPidx = "mock_" +:+ Payment.referenceId p
          ∧ Payment.transactionId p = None
      | KhaltiData _ referenceId _ pidx =>
          InitiatePaymentDto.gateway dto = KHALTI
          ∧ khaltiSecretKey ≠ ""
          ∧ referenceId = Payment.referenceId p
          ∧ Payment.transactionId p = Some pidx
      end.
Proof.
  unfold initiatePayment, generateKhaltiPaymentData. run. intros H.
  destruct (bookingModel st !! InitiatePaymentDto.bookingId dto) as [b |] eqn:Hb;
    [| discriminate].
  destruct (bool_decide (Booking.userId b = userId)) eqn:Hu; [| discriminate].
  apply bool_decide_eq_true in Hu. cbn [negb] in H.
  destruct (bool_decide (default FULL (InitiatePaymentDto.paymentType dto) = ADVANCE)
            && (5 * InitiatePaymentDto.amount dto <? Booking.totalAmount b))
    eqn:Hadv; [discriminate |].
  destruct (bool_decide (default FULL (InitiatePaymentDto.paymentType dto) = FULL)
            && negb (InitiatePaymentDto.amount dto =? Booking.totalAmount b))
    eqn:Hfull; [discriminate |].
  destruct (bool_decide (default FULL (InitiatePaymentDto.paymentType dto) = BALANCE)
            && negb (InitiatePaymentDto.amount dto
                       =? Booking.totalAmount b - Booking.advancePaid b))
    eqn:Hbal; [discriminate |].
  cbn beta in H.
  destruct (existsb _ (paymentModel st)) eqn:Hdup; [discriminate |].
  pose proof (existsb_false_elem _ _ Hdup) as Hfresh. cbn in Hfresh.
  assert (Hamount : default FULL (InitiatePaymentDto.paymentType dto) = FULL →
                    InitiatePaymentDto.amount dto = Booking.totalAmount b).
  { intros Ht. rewrite Ht in Hfull. cbn in Hfull.
    apply negb_false_iff in Hfull. lia. }
  assert (Hne : ∀ q, q ∈ paymentModel st →
                     Payment.referenceId q ≠ generateReferenceId now rnd).
  { intros q Hq. specialize (Hfresh q Hq).
    by apply bool_decide_eq_false in Hfresh. }
  destruct (InitiatePaymentDto.gateway dto) eqn:Hgw.
  - cbn in H. simplify_eq. eexists b, _.
    repeat (split; [first [eassumption | reflexivity] |]);
      first [done | cbn; done | cbn; split; [exact Hne | done]].
  - destruct (bool_decide (khaltiSecretKey = "")) eqn:Hkey.
    + apply bool_decide_eq_true in Hkey. cbn in H. simplify_eq. eexists b, _.
      repeat (split; [first [eassumption | reflexivity] |]);
        first [done | cbn; done | cbn; split; [exact Hne | done]].
    + apply bool_decide_eq_false in Hkey.
      destruct response as [r |]; [| discriminate].
      cbn in H. simplify_eq. cbn [Payment._id].
      rewrite fmap_app, updateIn_fresh by apply new_payment_id_fresh.
      cbn [fmap list_fmap]. unfold Db.updateIn.
      rewrite bool_decide_eq_true_2 by reflexivity.
      eexists b, _.
      repeat (split; [first [eassumption | reflexivity] |]);
        first [done | cbn; done | cbn; split; [exact Hne | done]].
Qed.

Lemma paidInFull_after_apply (p p' : Payment.t) (b : Booking.t) (st : Store) :
  Payment.paymentType p = FULL →
  paidInFull (Payment.bookingId p)
    (withBooking (Payment.bookingId p) (applyPayment p b) (withPayment p' st)).
Proof.
  intros Ht. exists (applyPayment p b). split; [apply lookup_insert_eq |].
  destruct (applyPayment_fields p b) as (_ & Hfull & _).
  destruct (Hfull Ht) as (_ & Hbal & Hpaid). done.
Qed.

(** C6. The update step run by a successful verification writes, for an
    [ADVANCE] payment, [advancePaid = amount],
    [balanceAmount = totalAmount - amount] and [PARTIAL]; for a [FULL]
    payment, [advancePaid = amount], [balanceAmount = 0] and [PAID]; for a
    [BALANCE] payment, [advancePaid] grown by the amount, [balanceAmount = 0]
    and [PAID]. So when [initiatePayment] for a full payment has returned,
    one successful verification of that payment, through eSewa or through
    Khalti (configured or not) with a token no earlier payment carries,
    leaves the booking [PAID] with balance 0. *)
Theorem payment_applied_to_booking (khaltiSecretKey : string) (st st1 : Store)
    (p : Payment.t) (b : Booking.t) (dto : InitiatePaymentDto.t)
    (userId : ObjectId) (now : Z) (rnd : string)
    (initiation : option KhaltiInitiation) (data : PaymentData) :
  bookingModel st !! Payment.bookingId p = Some b →
  (updateBookingPayment p st
     = (inr tt, withBooking (Payment.bookingId p) (applyPayment p b) st)
   ∧ (Payment.paymentType p = ADVANCE →
      Booking.advancePaid (applyPayment p b) = Payment.amount p
      ∧ Booking.balanceAmount (applyPayment p b)
          = Booking.totalAmount b - Payment.amount p
      ∧ Booking.paymentStatus (applyPayment p b) = PARTIAL)
   ∧ (Payment.paymentType p = FULL →
      Booking.advancePaid (applyPayment p b) = Payment.amount p
      ∧ Booking.balanceAmount (applyPayment p b) = 0
      ∧ Booking.paymentStatus (applyPayment p b) = PAID)
   ∧ (Payment.paymentType p = BALANCE →
      Booking.advancePaid (applyPayment p b)
        = Booking.advancePaid b + Payment.amount p
      ∧ Booking.balanceAmount (applyPayment p b) = 0
      ∧ Booking.paymentStatus (applyPayment p b) = PAID))
  ∧ (default FULL (InitiatePaymentDto.paymentType dto) = FULL →
     initiatePayment khaltiSecretKey dto userId now rnd initiation st
       = (inr data, st1) →
     match data with
     | EsewaForm _ referenceId _ =>
         ∀ d, transaction_uuid d = referenceId →
              esewa_status d = "COMPLETE" →
              ∃ result st2,
                verifyEsewaPayment (Some d) st1 = (inr result, st2)
                ∧ success result = true
                ∧ paidInFull (InitiatePaymentDto.bookingId dto) st2
     | KhaltiMockData _ _ pidx =>
         (∀ q, q ∈ paymentModel st → Payment.transactionId q ≠ Some pidx) →
         ∀ lookup,
           ∃ result st2,
             verifyKhaltiPayment khaltiSecretKey pidx lookup st1
               = (inr result, st2)
             ∧ success result = true
             ∧ paidInFull (InitiatePaymentDto.bookingId dto) st2
     | KhaltiData _ _ _ pidx =>
         (∀ q, q ∈ paymentModel st → Payment.transactionId q ≠ Some pidx) →
         ∀ r, lookup_status r = "Completed" →
              ∃ result st2,
                verifyKhaltiPayment khaltiSecretKey pidx (Some r) st1
                  = (inr result, st2)
                ∧ success result = true
                ∧ paidInFull (InitiatePaymentDto.bookingId dto) st2
     end).
Proof.
  intros Hb. split.
  - split; [apply updateBookingPayment_found, Hb |].
    destruct (applyPayment_fields p b) as (Ha & Hf & Hbal & _). done.
  - intros Hfull Hinit.
    apply initiatePayment_returns in Hinit
      as (b0 & p0 & Hb0 & _ & _ & Hbook & Hpay & Hbid & _ & Htype & Href & Hne & Hdata).
    rewrite Hfull in Htype. rewrite <- Hbook in Hb0. rewrite <- Hbid in Hb0 |- *.
    destruct data as [pid ref total | pid ref pidx | pid ref url pidx].
    + destruct Hdata as (_ & ->). intros d Hd Hstatus.
      eexists _, _. split.
      * apply verifyEsewaPayment_success with (p := p0) (b := b0); try assumption.
        rewrite Hpay. apply find_snoc.
        -- intros q Hq. apply bool_decide_eq_false_2. rewrite Hd. by apply Hne.
        -- apply bool_decide_eq_true_2. by rewrite Hd.
      * split; [reflexivity |]. apply paidInFull_after_apply, Htype.
    + destruct Hdata as (_ & -> & -> & -> & Htx). intros Hnew lookup.
      destruct (verifyKhaltiPayment_success "" st1
                  ("mock_" +:+ Payment.referenceId p0) lookup p0 b0)
        as (result & p' & Hrun & Hsucc & _); [| exact Hb0 | by left |].
      * unfold findKhaltiPayment. run. rewrite Hpay.
        rewrite find_none.
        2:{ intros q Hq. apply bool_decide_eq_false_2.
            apply elem_of_app in Hq as [Hq | Hq]; [by apply Hnew |].
            apply list_elem_of_singleton in Hq as ->. by rewrite Htx. }
        rewrite startsWith_mock, dropPrefix_mock. cbn beta iota.
        rewrite Hpay, find_snoc; [reflexivity | |].
        -- intros q Hq. apply bool_decide_eq_false_2. by apply Hne.
        -- by apply bool_decide_eq_true_2.
      * eexists _, _. split; [exact Hrun |]. split; [exact Hsucc |].
        apply paidInFull_after_apply, Htype.
    + destruct Hdata as (_ & Hkey & -> & Htx). intros Hnew r Hstatus.
      destruct (verifyKhaltiPayment_success khaltiSecretKey st1 pidx (Some r) p0 b0)
        as (result & p' & Hrun & Hsucc & _); [| exact Hb0 | right; eauto |].
      * unfold findKhaltiPayment. run. rewrite Hpay.
        rewrite find_snoc; [reflexivity | |].
        -- intros q Hq. apply bool_decide_eq_false_2. by apply Hnew.
        -- by apply bool_decide_eq_true_2.
      * eexists _, _. split; [exact Hrun |]. split; [exact Hsucc |].
        apply paidInFull_after_apply, Htype.
Qed.

Lemma initiatePayment_checks (khaltiSecretKey : string)
    (dto : InitiatePaymentDto.t) (userId : ObjectId) (now : Z) (rnd : string)
    (initiation : option KhaltiInitiation) (st : Store) (b : Booking.t) :
  bookingModel st !! InitiatePaymentDto.bookingId dto = Some b →
  Booking.userId b = userId →
  if advanceTooSmall dto b then
    initiatePayment khaltiSecretKey dto userId now rnd initiation st
      = (inl (BadRequestException advanceMessage), st)
  else if fullMismatch dto b then
    initiatePayment khaltiSecretKey dto userId now rnd initiation st
      = (inl (BadRequestException fullMessage), st)
  else if balanceMismatch dto b then
    initiatePayment khaltiSecretKey dto userId now rnd initiation st
      = (inl (BadRequestException (balanceMessage b)), st)
  else
    (∃ data, (initiatePayment khaltiSecretKey dto userId now rnd initiation st).1
               = inr data)
    ∨ (∃ m, (initiatePayment khaltiSecretKey dto userId now rnd initiation st).1
              = inl (MongoServerError m))
    ∨ (initiatePayment khaltiSecretKey dto userId now rnd initiation st).1
        = inl (BadRequestException "Failed to initiate Khalti payment").
Proof.
  intros Hb Hu.
  unfold initiatePayment, generateKhaltiPaymentData,
    advanceTooSmall, fullMismatch, balanceMismatch. run.
  rewrite Hb, (bool_decide_eq_true_2 _ Hu). cbn [negb].
  destruct (bool_decide (default FULL (InitiatePaymentDto.paymentType dto) = ADVANCE)
            && (5 * InitiatePaymentDto.amount dto <? Booking.totalAmount b));
    [reflexivity |].
  destruct (bool_decide (default FULL (InitiatePaymentDto.paymentType dto) = FULL)
            && negb (InitiatePaymentDto.amount dto =? Booking.totalAmount b));
    [reflexivity |].
  destruct (bool_decide (default FULL (InitiatePaymentDto.paymentType dto) = BALANCE)
            && negb (InitiatePaymentDto.amount dto
                       =? Booking.totalAmount b - Booking.advancePaid b));
    [reflexivity |].
  cbn beta.
  destruct (existsb _ (paymentModel st)); [right; left; eauto |].
  destruct (InitiatePaymentDto.gateway dto); [left; eauto |].
  destruct (bool_decide (khaltiSecretKey = "")); [left; eauto |].
  destruct initiation; [left; eauto | right; right; reflexivity].
Qed.

Lemma balanceMessage_head (b : Booking.t) :
  balanceMessage b ≠ "Failed to initiate Khalti payment".
Proof.
  unfold balanceMessage.
  change ("Balance payment must be Rs. " +:+ ?s)
    with (String "B" ("alance payment must be Rs. " +:+ s)).
  discriminate.
Qed.

Lemma below_twenty_percent (amount total : Z) :
  (inject_Z amount < (20 # 100) * inject_Z total)%Q ↔ 5 * amount < total.
Proof. unfold Qlt, Qmult, inject_Z. cbn. lia. Qed.

(** C8. For a booking of the caller, [initiatePayment] throws its amount
    error exactly when the amount breaks the rule of the payment type: an
    [ADVANCE] below 20 percent of the total, a [FULL] payment different from
    the total, a [BALANCE] payment different from the total less what was
    paid. A refused amount writes nothing. An advance of 5000 on a total of
    40000 is refused. *)
Theorem initiatePayment_amount_rules (khaltiSecretKey : string)
    (dto : InitiatePaymentDto.t) (userId : ObjectId) (now : Z) (rnd : string)
    (initiation : option KhaltiInitiation) (st : Store) (b : Booking.t) :
  bookingModel st !! InitiatePaymentDto.bookingId dto = Some b →
  Booking.userId b = userId →
  (default FULL (InitiatePaymentDto.paymentType dto) = ADVANCE →
   (initiatePayment khaltiSecretKey dto userId now rnd initiation st
      = (inl (BadRequestException
                "Advance payment must be at least 20% of total amount"), st)
    ↔ (inject_Z (InitiatePaymentDto.amount dto)
         < (20 # 100) * inject_Z (Booking.totalAmount b))%Q)
   ∧ ((initiatePayment khaltiSecretKey dto userId now rnd initiation st).1
        = inl (BadRequestException
                 "Advance payment must be at least 20% of total amount")
      ↔ (inject_Z (InitiatePaymentDto.amount dto)
           < (20 # 100) * inject_Z (Booking.totalAmount b))%Q))
  ∧ (default FULL (InitiatePaymentDto.paymentType dto) = FULL →
     (initiatePayment khaltiSecretKey dto userId now rnd initiation st
        = (inl (BadRequestException
                  "Full payment amount must match booking total"), st)
      ↔ InitiatePaymentDto.amount dto ≠ Booking.totalAmount b)
     ∧ ((initiatePayment khaltiSecretKey dto userId now rnd initiation st).1
          = inl (BadRequestException
                   "Full payment amount must match booking total")
        ↔ InitiatePaymentDto.amount dto ≠ Booking.totalAmount b))
  ∧ (default FULL (InitiatePaymentDto.paymentType dto) = BALANCE →
     (initiatePayment khaltiSecretKey dto userId now rnd initiation st
        = (inl (BadRequestException
                  ("Balance payment must be Rs. "
                     +:+ pretty (Booking.totalAmount b - Booking.advancePaid b))),
           st)
      ↔ InitiatePaymentDto.amount dto
          ≠ Booking.totalAmount b - Booking.advancePaid b)
     ∧ ((initiatePayment khaltiSecretKey dto userId now rnd initiation st).1
          = inl (BadRequestException
                   ("Balance payment must be Rs. "
                      +:+ pretty (Booking.totalAmount b - Booking.advancePaid b)))
        ↔ InitiatePaymentDto.amount dto
            ≠ Booking.totalAmount b - Booking.advancePaid b))
  ∧ (default FULL (InitiatePaymentDto.paymentType dto) = ADVANCE →
     InitiatePaymentDto.amount dto = 5000 →
     Booking.totalAmount b = 40000 →
     initiatePayment khaltiSecretKey dto userId now rnd initiation st
       = (inl (BadRequestException
                 "Advance payment must be at least 20% of total amount"), st)).
Proof.
  intros Hb Hu.
  pose proof (initiatePayment_checks khaltiSecretKey dto userId now rnd
                initiation st b Hb Hu) as Hrun.
  pose proof (balanceMessage_head b) as Hhead.
  unfold advanceTooSmall, fullMismatch, balanceMismatch, advanceMessage,
    fullMessage, balanceMessage in *.
  split; [| split; [| split]].
  - intros Ht. rewrite Ht in Hrun. cbn in Hrun.
    rewrite below_twenty_percent.
    destruct (5 * InitiatePaymentDto.amount dto <? Booking.totalAmount b) eqn:E.
    + rewrite Hrun. cbn. split; (split; [intros _; lia | reflexivity]).
    + split; (split; [| lia]); intros H; exfalso;
        try rewrite H in Hrun; cbn in Hrun;
        destruct Hrun as [[? ?] | [[? ?] | ?]]; congruence.
  - intros Ht. rewrite Ht in Hrun. cbn in Hrun.
    destruct (InitiatePaymentDto.amount dto =? Booking.totalAmount b) eqn:E.
    + split; (split; [| lia]); intros H; exfalso;
        try rewrite H in Hrun; cbn in Hrun;
        destruct Hrun as [[? ?] | [[? ?] | ?]]; congruence.
    + rewrite Hrun. cbn. split; (split; [intros _; lia | reflexivity]).
  - intros Ht. rewrite Ht in Hrun. cbn in Hrun.
    destruct (InitiatePaymentDto.amount dto
                =? Booking.totalAmount b - Booking.advancePaid b) eqn:E.
    + split; (split; [| lia]); intros H; exfalso;
        try rewrite H in Hrun; cbn in Hrun;
        destruct Hrun as [[? ?] | [[? ?] | ?]]; congruence.
    + rewrite Hrun. cbn. split; (split; [intros _; lia | reflexivity]).
  - intros Ht Ha Htot. rewrite Ht, Ha, Htot in Hrun. exact Hrun.
Qed.

(** ** Further properties of the refund computation *)

Lemma Math_round_hundredths (n : Z) :
  JS.Math_round (Qmake n 100) = (n + 50) / 100.
Proof.
  unfold JS.Math_round, Qfloor, Qplus. cbn [Qnum Qden].
  change (Z.pos (100 * 2)) with (2 * 100).
  replace (n * 2 + 1 * 100) with (2 * (n + 50)) by lia.
  apply Z.div_mul_cancel_l; lia.
Qed.

Lemma refundAmount_div (booking : Booking.t) (venue : Venue.t) (now : Date) :
  refundAmount (calculateRefund booking venue now) =
    (Booking.advancePaid booking
     * refundPercentage (calculateRefund booking venue now) + 50) / 100.
Proof. rewrite refundAmount_round. apply Math_round_hundredths. Qed.

Lemma Math_round_half (n : Z) :
  JS.Math_round ((inject_Z n + (1 # 2)) * inject_Z 100 / inject_Z 100) = n + 1.
Proof.
  unfold JS.Math_round.
  transitivity (Qfloor (inject_Z (n + 1))); [| apply Qfloor_Z].
  apply Qfloor_comp.
  unfold Qeq, Qdiv, Qmult, Qplus, Qinv, inject_Z.
  cbn [Qnum Qden Z.mul Pos.mul]. lia.
Qed.

(** X1. For a paid amount in whole rupees that is not negative and a partial
    percentage between 0 and 100, the refund lies between 0 and the paid
    amount and the percentage between 0 and 100; at 100 percent the whole
    paid amount comes back, at 0 percent nothing. The upper bound rests on
    the paid amount being whole: the rounding of the code takes a half up, so
    that at 100 percent a paid amount of [n] and a half would give
    [n + 1]. *)
Theorem refund_within_paid (booking : Booking.t) (venue : Venue.t) (now : Date) :
  0 <= Booking.advancePaid booking →
  0 <= partialRefundPercentage (policyOf venue) <= 100 →
  0 <= refundPercentage (calculateRefund booking venue now) <= 100
  ∧ 0 <= refundAmount (calculateRefund booking venue now)
      <= Booking.advancePaid booking
  ∧ (refundPercentage (calculateRefund booking venue now) = 100 →
     refundAmount (calculateRefund booking venue now)
       = Booking.advancePaid booking)
  ∧ (refundPercentage (calculateRefund booking venue now) = 0 →
     refundAmount (calculateRefund booking venue now) = 0)
  ∧ (∀ n : Z,
       JS.Math_round ((inject_Z n + (1 # 2)) * inject_Z 100 / inject_Z 100)
       = n + 1).
Proof.
  intros Hpaid Hpct. rewrite refundAmount_div.
  assert (Hp : 0 <= refundPercentage (calculateRefund booking venue now) <= 100).
  { rewrite refundPercentage_cases. repeat case_match; lia. }
  set (p := refundPercentage (calculateRefund booking venue now)) in *.
  set (a := Booking.advancePaid booking) in *.
  split; [exact Hp |]. split; [| split; [| split; [| apply Math_round_half]]].
  - split.
    + apply Z.div_pos; nia.
    + assert (Hmul : a * p <= a * 100) by nia.
      pose proof (Z.div_mod (a * p + 50) 100 ltac:(lia)) as Hdiv.
      pose proof (Z.mod_pos_bound (a * p + 50) 100 ltac:(lia)) as Hmod.
      lia.
  - intros ->. replace (a * 100 + 50) with (50 + a * 100) by lia.
    rewrite Z.div_add by lia. reflexivity.
  - intros ->. rewrite Z.mul_0_r. reflexivity.
Qed.

(** X2. Waiting never raises the refund: with the partial threshold not
    above the full one, a partial percentage between 0 and 100 and a paid
    amount that is not negative, a cancellation at a later time gets at most
    the percentage and the amount of an earlier one. *)
Theorem refund_never_grows_with_delay (booking : Booking.t) (venue : Venue.t)
    (earlier later : Date) :
  partialRefundHours (policyOf venue) <= fullRefundHours (policyOf venue) →
  0 <= partialRefundPercentage (policyOf venue) <= 100 →
  0 <= Booking.advancePaid booking →
  earlier <= later →
  refundPercentage (calculateRefund booking venue later)
    <= refundPercentage (calculateRefund booking venue earlier)
  ∧ refundAmount (calculateRefund booking venue later)
      <= refundAmount (calculateRefund booking venue earlier).
Proof.
  intros Hpol Hpct Hpaid Htime.
  assert (Hle : refundPercentage (calculateRefund booking venue later)
                <= refundPercentage (calculateRefund booking venue earlier)).
  { rewrite !refundPercentage_cases. repeat case_match; lia. }
  split; [exact Hle |].
  rewrite !refundAmount_div. apply Z.div_le_mono; [lia | nia].
Qed.

(** ** Further properties of booking creation and availability *)

Lemma checkAvailability_true_iff (tz : Z) (st : Store) (venueId : ObjectId)
    (date : Date) (startTime endTime : string) (venue : Venue.t) :
  venueModel st !! venueId = Some venue →
  (checkAvailability tz venueId date startTime endTime st).1 = inr true
  ↔ notBlocked venue date
    ∧ slotFree tz st None venueId date startTime endTime.
Proof.
  intros Hv. rewrite (checkAvailability_found tz st venueId date _ _ venue Hv).
  cbn [fst]. unfold notBlocked, slotFree, holdsSlot.
  destruct (existsb _ (Venue.blockedDates venue)) eqn:Hblocked.
  - apply isBlocked_iff in Hblocked as (d & Hd & Hday).
    split; [discriminate |]. intros [Hnot _]. destruct (Hnot d Hd Hday).
  - split.
    + intros Htrue. split.
      * intros d Hd Hday.
        assert (Hex : existsb (λ d, isoDay d =? isoDay date)
                        (Venue.blockedDates venue) = true)
          by (apply isBlocked_iff; eauto).
        congruence.
      * intros id b Hb _ Hvenue Hday Hstatus Hover.
        assert (Hfalse : noOverlap
                           (List.filter (sameVenueAndDay tz venueId date)
                              (map_to_list (bookingModel st)).*2)
                           startTime endTime = false).
        { apply noOverlap_false_iff. exists b. split.
          - apply elem_of_findBookings. exists id. split; [exact Hb |].
            apply sameVenueAndDay_iff. auto.
          - apply overlaps_iff. exact Hover. }
        congruence.
    + intros [_ Hfree].
      destruct (noOverlap _ startTime endTime) eqn:Hno; [reflexivity |].
      apply noOverlap_false_iff in Hno as (b & Hin & Ho).
      apply elem_of_findBookings in Hin as (id & Hb & Hf).
      apply sameVenueAndDay_iff in Hf as (Hvenue & Hday & Hstatus).
      apply overlaps_iff in Ho.
      destruct (Hfree id b Hb ltac:(discriminate) Hvenue Hday Hstatus Ho).
Qed.

Lemma checkAvailability_bool (tz : Z) (st : Store) (venueId : ObjectId)
    (date : Date) (startTime endTime : string) (venue : Venue.t) :
  venueModel st !! venueId = Some venue →
  ∃ r : bool, checkAvailability tz venueId date startTime endTime st = (inr r, st).
Proof.
  intros Hv. rewrite (checkAvailability_found tz st venueId date _ _ venue Hv).
  eauto.
Qed.

Lemma checkAvailability_taken (tz : Z) (st : Store) (venueId : ObjectId)
    (date : Date) (startTime endTime : string) (venue : Venue.t)
    (id : ObjectId) (b : Booking.t) :
  venueModel st !! venueId = Some venue →
  bookingModel st !! id = Some b →
  Booking.venueId b = venueId →
  localDay tz (Booking.eventDate b) = localDay tz date →
  holdsSlot b →
  slotsOverlap startTime endTime b →
  checkAvailability tz venueId date startTime endTime st = (inr false, st).
Proof.
  intros Hv Hb Hvenue Hday Hstatus Hover.
  destruct (checkAvailability_bool tz st venueId date startTime endTime venue Hv)
    as ([|] & Hrun); [| exact Hrun].
  assert (Htrue : (checkAvailability tz venueId date startTime endTime st).1
                  = inr true) by (rewrite Hrun; reflexivity).
  apply (checkAvailability_true_iff tz st venueId date _ _ venue Hv) in Htrue
    as [_ Hfree].
  destruct (Hfree id b Hb ltac:(discriminate) Hvenue Hday Hstatus Hover).
Qed.

Lemma slotsOverlap_sym (b1 b2 : Booking.t) :
  slotsOverlap (Booking.startTime b1) (Booking.endTime b1) b2 →
  slotsOverlap (Booking.startTime b2) (Booking.endTime b2) b1.
Proof.
  intros (ns & ne & es & ee & H1 & H2 & H3 & H4 & H5 & H6).
  exists es, ee, ns, ne. repeat split; try assumption; lia.
Qed.

(** The booking that [create] builds from the request. *)
Lemma create_returns (tz : Z) (st st' : Store) (dto : CreateBookingDto.t)
    (userId id : ObjectId) (b : Booking.t) :
  create tz dto userId st = (inr (id, b), st') →
  ∃ venue,
    venueModel st !! CreateBookingDto.venueId dto = Some venue
    ∧ Venue.isActive venue = true
    ∧ Venue.minCapacity venue <= CreateBookingDto.guestCount dto
        <= Venue.maxCapacity venue
    ∧ (checkAvailability tz (CreateBookingDto.venueId dto)
         (CreateBookingDto.eventDate dto) (CreateBookingDto.startTime dto)
         (CreateBookingDto.endTime dto) st).1 = inr true
    ∧ price (CreateBookingDto.startTime dto) (CreateBookingDto.endTime dto) venue
        = Some (Booking.totalAmount b)
    ∧ bookingModel st !! id = None
    ∧ st' = withBooking id b st
    ∧ Booking.userId b = userId
    ∧ Booking.venueId b = CreateBookingDto.venueId dto
    ∧ Booking.eventDate b = CreateBookingDto.eventDate dto
    ∧ Booking.startTime b = CreateBookingDto.startTime dto
    ∧ Booking.endTime b = CreateBookingDto.endTime dto
    ∧ Booking.status b = PENDING.
Proof.
  intros Hrun. unfold create in Hrun. run.
  destruct (venueModel st !! CreateBookingDto.venueId dto) as [venue |] eqn:Hv;
    [| discriminate].
  destruct (Venue.isActive venue) eqn:Hactive; [| discriminate].
  cbn [negb] in Hrun.
  destruct (CreateBookingDto.guestCount dto <? Venue.minCapacity venue) eqn:Hmin;
    [discriminate |].
  destruct (CreateBookingDto.guestCount dto >? Venue.maxCapacity venue) eqn:Hmax;
    [discriminate |].
  cbn [orb] in Hrun.
  destruct (checkAvailability_bool tz st (CreateBookingDto.venueId dto)
              (CreateBookingDto.eventDate dto) (CreateBookingDto.startTime dto)
              (CreateBookingDto.endTime dto) venue Hv) as (r & Havail).
  rewrite Havail in Hrun. destruct r; [| discriminate]. cbn [negb] in Hrun.
  destruct (price _ _ venue) as [total |] eqn:Hprice; [| discriminate].
  simplify_eq. exists venue. rewrite Havail. cbn.
  repeat (split; [first [assumption | reflexivity | lia] |]).
  split; [apply not_elem_of_dom, is_fresh |]. done.
Qed.

Lemma create_throws (tz : Z) (st st' : Store) (dto : CreateBookingDto.t)
    (userId : ObjectId) (e : Exception) :
  create tz dto userId st = (inl e, st') → st' = st.
Proof.
  intros Hrun. unfold create in Hrun. run.
  destruct (venueModel st !! CreateBookingDto.venueId dto) as [venue |] eqn:Hv;
    [| by simplify_eq].
  destruct (checkAvailability_bool tz st (CreateBookingDto.venueId dto)
              (CreateBookingDto.eventDate dto) (CreateBookingDto.startTime dto)
              (CreateBookingDto.endTime dto) venue Hv) as (r & Havail).
  destruct (negb (Venue.isActive venue)); [by simplify_eq |].
  destruct (_ || _); [by simplify_eq |].
  rewrite Havail in Hrun. destruct r; cbn [negb] in Hrun; [| by simplify_eq].
  destruct (price _ _ venue); [discriminate | by simplify_eq].
Qed.

Lemma create_succeeds (tz : Z) (st : Store) (dto : CreateBookingDto.t)
    (userId : ObjectId) (venue : Venue.t) (total : Z) :
  venueModel st !! CreateBookingDto.venueId dto = Some venue →
  Venue.isActive venue = true →
  Venue.minCapacity venue <= CreateBookingDto.guestCount dto
    <= Venue.maxCapacity venue →
  (checkAvailability tz (CreateBookingDto.venueId dto)
     (CreateBookingDto.eventDate dto) (CreateBookingDto.startTime dto)
     (CreateBookingDto.endTime dto) st).1 = inr true →
  price (CreateBookingDto.startTime dto) (CreateBookingDto.endTime dto) venue
    = Some total →
  ∃ id b, create tz dto userId st = (inr (id, b), withBooking id b st)
          ∧ Booking.totalAmount b = total
          ∧ Booking.balanceAmount b = total
          ∧ Booking.status b = PENDING.
Proof.
  intros Hv Hactive Hcap Havail Hprice. apply checkAvailability_eq in Havail.
  unfold create. run. rewrite Hv, Hactive. cbn [negb].
  replace (CreateBookingDto.guestCount dto <? Venue.minCapacity venue)
    with false by lia.
  replace (CreateBookingDto.guestCount dto >? Venue.maxCapacity venue)
    with false by lia.
  cbn [orb]. rewrite Havail. cbn [negb]. rewrite Hprice.
  eexists _, _. split; [reflexivity |]. done.
Qed.

(** X3. What [create] refuses, in the order of its checks: an unknown venue
    (NotFound), an inactive venue, a guest count outside the capacity of the
    venue (the message states the range), a slot that is not available (all
    three BadRequest). Whenever [create] throws, nothing is written. *)
Theorem create_refusals (tz : Z) (st : Store) (dto : CreateBookingDto.t)
    (userId : ObjectId) :
  (venueModel st !! CreateBookingDto.venueId dto = None →
   create tz dto userId st = (inl (NotFoundException "Venue not found"), st))
  ∧ (∀ venue,
       venueModel st !! CreateBookingDto.venueId dto = Some venue →
       (Venue.isActive venue = false →
        create tz dto userId st
          = (inl (BadRequestException "This venue is not available for booking"),
             st))
       ∧ (Venue.isActive venue = true →
          CreateBookingDto.guestCount dto < Venue.minCapacity venue
          ∨ Venue.maxCapacity venue < CreateBookingDto.guestCount dto →
          create tz dto userId st
            = (inl (BadRequestException
                      ("Guest count must be between "
                         +:+ pretty (Venue.minCapacity venue) +:+ " and "
                         +:+ pretty (Venue.maxCapacity venue))), st))
       ∧ (Venue.isActive venue = true →
          Venue.minCapacity venue <= CreateBookingDto.guestCount dto
            <= Venue.maxCapacity venue →
          (checkAvailability tz (CreateBookingDto.venueId dto)
             (CreateBookingDto.eventDate dto) (CreateBookingDto.startTime dto)
             (CreateBookingDto.endTime dto) st).1 = inr false →
          create tz dto userId st
            = (inl (BadRequestException
                      "Venue is not available for the selected date and time"),
               st)))
  ∧ (∀ e st', create tz dto userId st = (inl e, st') → st' = st).
Proof.
  split; [| split].
  - intros Hv. unfold create. run. rewrite Hv. reflexivity.
  - intros venue Hv. split; [| split].
    + intros Hactive. unfold create. run. rewrite Hv, Hactive. reflexivity.
    + intros Hactive Hcap. unfold create. run. rewrite Hv, Hactive. cbn [negb].
      destruct Hcap as [Hlow | Hhigh].
      * replace (CreateBookingDto.guestCount dto <? Venue.minCapacity venue)
          with true by lia. reflexivity.
      * replace (CreateBookingDto.guestCount dto >? Venue.maxCapacity venue)
          with true by lia. rewrite orb_true_r. reflexivity.
    + intros Hactive Hcap Havail. apply checkAvailability_eq in Havail.
      unfold create. run. rewrite Hv, Hactive. cbn [negb].
      replace (CreateBookingDto.guestCount dto <? Venue.minCapacity venue)
        with false by lia.
      replace (CreateBookingDto.guestCount dto >? Venue.maxCapacity venue)
        with false by lia.
      cbn [orb]. rewrite Havail. reflexivity.
  - intros e st'. apply create_throws.
Qed.

Lemma create_phases (tz : Z) (dto : CreateBookingDto.t) (userId : ObjectId)
    (st : Store) :
  create tz dto userId st
    = (booking ← create_document tz dto userId; create_save booking) st.
Proof.
  unfold create, create_document, create_save. run.
  destruct (venueModel st !! CreateBookingDto.venueId dto) as [venue |];
    [| reflexivity].
  destruct (negb (Venue.isActive venue)); [reflexivity |].
  destruct (_ || _); [reflexivity |].
  destruct (checkAvailability tz _ _ _ _ st) as [[e | [|]] st0];
    cbn [negb]; try reflexivity.
  destruct (price _ _ venue); reflexivity.
Qed.

Lemma create_document_returns (tz : Z) (dto : CreateBookingDto.t)
    (userId : ObjectId) (st st' : Store) (b : Booking.t) :
  create_document tz dto userId st = (inr b, st') →
  st' = st
  ∧ Booking.status b = PENDING
  ∧ Booking.venueId b = CreateBookingDto.venueId dto
  ∧ Booking.eventDate b = CreateBookingDto.eventDate dto
  ∧ Booking.startTime b = CreateBookingDto.startTime dto
  ∧ Booking.endTime b = CreateBookingDto.endTime dto.
Proof.
  intros Hrun. unfold create_document in Hrun. run.
  destruct (venueModel st !! CreateBookingDto.venueId dto) as [venue |] eqn:Hv;
    [| discriminate].
  destruct (checkAvailability_bool tz st (CreateBookingDto.venueId dto)
              (CreateBookingDto.eventDate dto) (CreateBookingDto.startTime dto)
              (CreateBookingDto.endTime dto) venue Hv) as (r & Havail).
  destruct (negb (Venue.isActive venue)); [discriminate |].
  destruct (_ || _); [discriminate |].
  rewrite Havail in Hrun. destruct r; cbn [negb] in Hrun; [| discriminate].
  destruct (price _ _ venue); [| discriminate].
  simplify_eq. done.
Qed.

Lemma create_save_fresh (st : Store) (b : Booking.t) :
  ∃ id, bookingModel st !! id = None
        ∧ create_save b st = (inr (id, b), withBooking id b st).
Proof.
  exists (fresh (dom (bookingModel st))). split.
  - apply not_elem_of_dom, is_fresh.
  - reflexivity.
Qed.

Lemma overlapping_pair (tz : Z) (st : Store) (i j : ObjectId)
    (b1 b2 : Booking.t) :
  i ≠ j →
  bookingModel st !! i = Some b1 →
  bookingModel st !! j = Some b2 →
  Booking.venueId b1 = Booking.venueId b2 →
  localDay tz (Booking.eventDate b1) = localDay tz (Booking.eventDate b2) →
  holdsSlot b1 → holdsSlot b2 →
  slotsOverlap (Booking.startTime b1) (Booking.endTime b1) b2 →
  ¬ noDoubleBooking tz st.
Proof.
  intros Hij Hi Hj Hvenue Hday H1 H2 Hover Hinv.
  exact (Hinv i j b1 b2 Hij Hi Hj Hvenue Hday H1 H2 Hover).
Qed.

Lemma create_alone_apart (tz : Z) (st st' : Store) (dto : CreateBookingDto.t)
    (userId id : ObjectId) (b : Booking.t) :
  noDoubleBooking tz st →
  create tz dto userId st = (inr (id, b), st') →
  noDoubleBooking tz st'.
Proof.
  intros Hinv Hrun.
  apply create_returns in Hrun
    as (venue & Hv & _ & _ & Havail & _ & Hnew & -> & _ & Hvenue & Hdate
        & Hstart & Hend & _).
  apply (checkAvailability_true_iff tz st _ _ _ _ venue Hv) in Havail
    as [_ Hfree].
  intros i j b1 b2 Hij Hb1 Hb2 Hsame Hday H1 H2 Hover. cbn in Hb1, Hb2.
  destruct (decide (i = id)) as [-> | Hi].
  - rewrite lookup_insert_eq in Hb1. rewrite lookup_insert_ne in Hb2 by done.
    simplify_eq. rewrite Hstart, Hend in Hover.
    apply (Hfree j b2 Hb2); try assumption;
      [discriminate | congruence | congruence].
  - rewrite lookup_insert_ne in Hb1 by done.
    destruct (decide (j = id)) as [-> | Hj].
    + rewrite lookup_insert_eq in Hb2. simplify_eq.
      apply slotsOverlap_sym in Hover. rewrite Hstart, Hend in Hover.
      apply (Hfree i b1 Hb1); try assumption;
        [discriminate | congruence | congruence].
    + rewrite lookup_insert_ne in Hb2 by done.
      exact (Hinv i j b1 b2 Hij Hb1 Hb2 Hsame Hday H1 H2 Hover).
Qed.

(** X4. [create] keeps bookings apart when it is served alone: if no two
    bookings holding a slot of the same venue on the same day overlap before
    a successful [create], none do after it. That is all the protection there
    is. [create] is its check followed by its save, the code takes no lock
    and the collection has no index on the slot; when the checks of two
    requests both pass on the same database, before either save, both
    documents are saved, and if they are for overlapping slots of one venue
    on one day the database then holds a double booking. *)
Theorem create_keeps_bookings_apart (tz : Z) (st : Store) :
  (∀ dto userId id b st',
     noDoubleBooking tz st →
     create tz dto userId st = (inr (id, b), st') →
     noDoubleBooking tz st')
  ∧ (∀ dto userId,
       create tz dto userId st
       = (booking ← create_document tz dto userId; create_save booking) st)
  ∧ (∀ dto1 userId1 dto2 userId2 b1 b2,
       create_document tz dto1 userId1 st = (inr b1, st) →
       create_document tz dto2 userId2 st = (inr b2, st) →
       ∃ id1 id2,
         id1 ≠ id2
         ∧ create_save b1 st = (inr (id1, b1), withBooking id1 b1 st)
         ∧ create_save b2 (withBooking id1 b1 st)
           = (inr (id2, b2), withBooking id2 b2 (withBooking id1 b1 st))
         ∧ (Booking.venueId b1 = Booking.venueId b2 →
            localDay tz (Booking.eventDate b1)
              = localDay tz (Booking.eventDate b2) →
            slotsOverlap (Booking.startTime b1) (Booking.endTime b1) b2 →
            ¬ noDoubleBooking tz (withBooking id2 b2 (withBooking id1 b1 st)))).
Proof.
  split; [| split; [intros; apply create_phases |]].
  - intros dto userId id b st'. apply create_alone_apart.
  - intros dto1 userId1 dto2 userId2 b1 b2 Hdoc1 Hdoc2.
    apply create_document_returns in Hdoc1 as (_ & Hs1 & _).
    apply create_document_returns in Hdoc2 as (_ & Hs2 & _).
    destruct (create_save_fresh st b1) as (id1 & Hnew1 & Hsave1).
    destruct (create_save_fresh (withBooking id1 b1 st) b2)
      as (id2 & Hnew2 & Hsave2).
    assert (Hne : id1 ≠ id2).
    { intros <-. cbn in Hnew2. by rewrite lookup_insert_eq in Hnew2. }
    exists id1, id2. split; [exact Hne |]. split; [exact Hsave1 |].
    split; [exact Hsave2 |]. intros Hvenue Hday Hover.
    apply (overlapping_pair tz _ id1 id2 b1 b2 Hne); try assumption.
    + cbn. rewrite lookup_insert_ne by done. apply lookup_insert_eq.
    + cbn. apply lookup_insert_eq.
    + by left.
    + by left.
Qed.

(** X5. Once [create] has stored a booking whose slot starts before it ends,
    every slot of that venue on that day that overlaps it is unavailable, and
    the same request sent again, by anyone, is refused with nothing
    written. *)
Theorem created_slot_is_taken (tz : Z) (st st' : Store)
    (dto : CreateBookingDto.t) (userId id : ObjectId) (b : Booking.t)
    (startMinutes endMinutes : Z) :
  create tz dto userId st = (inr (id, b), st') →
  minutes (CreateBookingDto.startTime dto) = Some startMinutes →
  minutes (CreateBookingDto.endTime dto) = Some endMinutes →
  startMinutes < endMinutes →
  (∀ date startTime endTime,
     localDay tz date = localDay tz (CreateBookingDto.eventDate dto) →
     slotsOverlap startTime endTime b →
     checkAvailability tz (CreateBookingDto.venueId dto) date startTime endTime st'
       = (inr false, st'))
  ∧ (∀ userId',
       create tz dto userId' st'
         = (inl (BadRequestException
                   "Venue is not available for the selected date and time"),
            st')).
Proof.
  intros Hrun Hs He Hlt.
  apply create_returns in Hrun
    as (venue & Hv & Hactive & Hcap & _ & _ & _ & -> & _ & Hvenue & Hdate
        & Hstart & Hend & Hstatus).
  assert (Htaken : ∀ date startTime endTime,
            localDay tz date = localDay tz (CreateBookingDto.eventDate dto) →
            slotsOverlap startTime endTime b →
            checkAvailability tz (CreateBookingDto.venueId dto) date
              startTime endTime (withBooking id b st)
            = (inr false, withBooking id b st)).
  { intros date s e Hday Hover.
    apply checkAvailability_taken with (venue := venue) (id := id) (b := b);
      try assumption.
    - cbn. apply lookup_insert_eq.
    - congruence.
    - left. exact Hstatus. }
  split; [exact Htaken |].
  intros userId'.
  assert (Hself : slotsOverlap (CreateBookingDto.startTime dto)
                    (CreateBookingDto.endTime dto) b).
  { exists startMinutes, endMinutes, startMinutes, endMinutes.
    rewrite Hstart, Hend. repeat split; try assumption; lia. }
  specialize (Htaken (CreateBookingDto.eventDate dto) _ _ eq_refl Hself).
  unfold create. run. cbn [venueModel withBooking]. rewrite Hv, Hactive.
  cbn [negb].
  replace (CreateBookingDto.guestCount dto <? Venue.minCapacity venue)
    with false by lia.
  replace (CreateBookingDto.guestCount dto >? Venue.maxCapacity venue)
    with false by lia.
  cbn [orb]. rewrite Htaken. reflexivity.
Qed.

(** X6. [create] does not compare the two times: with the other checks
    passed, an end hour before the start hour at a positive price is stored
    with a negative total and a negative balance, and equal hours with a
    total of 0. *)
Theorem create_end_before_start (tz : Z) (st : Store)
    (dto : CreateBookingDto.t) (userId : ObjectId) (venue : Venue.t)
    (startHour endHour : Z) :
  venueModel st !! CreateBookingDto.venueId dto = Some venue →
  Venue.isActive venue = true →
  Venue.minCapacity venue <= CreateBookingDto.guestCount dto
    <= Venue.maxCapacity venue →
  (checkAvailability tz (CreateBookingDto.venueId dto)
     (CreateBookingDto.eventDate dto) (CreateBookingDto.startTime dto)
     (CreateBookingDto.endTime dto) st).1 = inr true →
  JS.parsePart (CreateBookingDto.startTime dto) 0 = Some startHour →
  JS.parsePart (CreateBookingDto.endTime dto) 0 = Some endHour →
  0 < Venue.pricePerHour venue →
  ∃ id b, create tz dto userId st = (inr (id, b), withBooking id b st)
          ∧ (endHour < startHour →
             Booking.totalAmount b < 0 ∧ Booking.balanceAmount b < 0)
          ∧ (endHour = startHour →
             Booking.totalAmount b = 0 ∧ Booking.balanceAmount b = 0).
Proof.
  intros Hv Hactive Hcap Havail Hs He Hprice.
  destruct (create_succeeds tz st dto userId venue
              ((endHour - startHour) * Venue.pricePerHour venue)
              Hv Hactive Hcap Havail)
    as (id & b & Hrun & Htotal & Hbal & _).
  { unfold price. rewrite Hs, He. reflexivity. }
  exists id, b. split; [exact Hrun |]. rewrite Htotal, Hbal.
  split; intros H; [nia | subst; lia].
Qed.

(** ** Further properties of [reschedule] *)

Lemma reschedule_returns (tz : Z) (st st' : Store) (id userId : ObjectId)
    (dto : RescheduleBookingDto.t) (b' : Booking.t) :
  reschedule tz id dto userId st = (inr b', st') →
  ∃ b v,
    bookingModel st !! id = Some b
    ∧ venueModel st !! Booking.venueId b = Some v
    ∧ Booking.userId b = userId
    ∧ holdsSlot b
    ∧ (checkAvailability tz (Booking.venueId b)
         (RescheduleBookingDto.newEventDate dto)
         (RescheduleBookingDto.newStartTime dto)
         (RescheduleBookingDto.newEndTime dto) st).1 = inr true
    ∧ price (RescheduleBookingDto.newStartTime dto)
            (RescheduleBookingDto.newEndTime dto) v
        = Some (Booking.totalAmount b')
    ∧ st' = withBooking id b' st
    ∧ Booking.eventDate b' = RescheduleBookingDto.newEventDate dto
    ∧ Booking.startTime b' = RescheduleBookingDto.newStartTime dto
    ∧ Booking.endTime b' = RescheduleBookingDto.newEndTime dto
    ∧ Booking.balanceAmount b' = Booking.totalAmount b' - Booking.advancePaid b
    ∧ Booking.userId b' = Booking.userId b
    ∧ Booking.venueId b' = Booking.venueId b
    ∧ Booking.status b' = Booking.status b
    ∧ Booking.paymentStatus b' = Booking.paymentStatus b
    ∧ Booking.advancePaid b' = Booking.advancePaid b.
Proof.
  intros Hrun. unfold reschedule in Hrun. run.
  destruct (bookingModel st !! id) as [b |] eqn:Hb; [| discriminate].
  destruct (bool_decide (Booking.userId b = userId)) eqn:Hu; [| discriminate].
  apply bool_decide_eq_true in Hu. cbn [negb] in Hrun.
  destruct (isActiveStatus (Booking.status b)) eqn:Hs; [| discriminate].
  apply isActiveStatus_iff in Hs. cbn [negb] in Hrun.
  destruct (checkAvailability tz (Booking.venueId b)
              (RescheduleBookingDto.newEventDate dto)
              (RescheduleBookingDto.newStartTime dto)
              (RescheduleBookingDto.newEndTime dto) st) as [r st0] eqn:Havail.
  pose proof (checkAvailability_frame tz st (Booking.venueId b)
                (RescheduleBookingDto.newEventDate dto)
                (RescheduleBookingDto.newStartTime dto)
                (RescheduleBookingDto.newEndTime dto)) as Hframe.
  rewrite Havail in Hframe. cbn in Hframe. subst st0.
  destruct r as [e | [|]]; [discriminate | | discriminate]. cbn [negb] in Hrun.
  destruct (venueModel st !! Booking.venueId b) as [v |] eqn:Hv; [| discriminate].
  destruct (price _ _ v) as [total |] eqn:Hprice; [| discriminate].
  simplify_eq. exists b, v. rewrite Havail. cbn.
  repeat split; first [assumption | reflexivity].
Qed.

Lemma reschedule_throws (tz : Z) (st st' : Store) (id userId : ObjectId)
    (dto : RescheduleBookingDto.t) (e : Exception) :
  reschedule tz id dto userId st = (inl e, st') → st' = st.
Proof.
  intros Hrun. unfold reschedule in Hrun. run.
  destruct (bookingModel st !! id) as [b |]; [| by simplify_eq].
  destruct (negb (bool_decide (Booking.userId b = userId))); [by simplify_eq |].
  destruct (negb (isActiveStatus (Booking.status b))); [by simplify_eq |].
  destruct (checkAvailability tz (Booking.venueId b)
              (RescheduleBookingDto.newEventDate dto)
              (RescheduleBookingDto.newStartTime dto)
              (RescheduleBookingDto.newEndTime dto) st) as [r st0] eqn:Havail.
  pose proof (checkAvailability_frame tz st (Booking.venueId b)
                (RescheduleBookingDto.newEventDate dto)
                (RescheduleBookingDto.newStartTime dto)
                (RescheduleBookingDto.newEndTime dto)) as Hframe.
  rewrite Havail in Hframe. cbn in Hframe. subst st0.
  destruct r as [e0 | [|]]; cbn [negb] in Hrun; [by simplify_eq | | by simplify_eq].
  destruct (venueModel st !! Booking.venueId b) as [v |]; [| by simplify_eq].
  destruct (price _ _ v); [discriminate | by simplify_eq].
Qed.

Lemma reschedule_phases (tz : Z) (id : ObjectId) (dto : RescheduleBookingDto.t)
    (userId : ObjectId) (st : Store) :
  reschedule tz id dto userId st
    = (booking ← reschedule_document tz id dto userId;
       reschedule_save id booking) st.
Proof.
  unfold reschedule, reschedule_document, reschedule_save. run.
  destruct (bookingModel st !! id) as [b |]; [| reflexivity].
  destruct (negb (bool_decide (Booking.userId b = userId))); [reflexivity |].
  destruct (negb (isActiveStatus (Booking.status b))); [reflexivity |].
  destruct (checkAvailability tz _ _ _ _ st) as [[e | [|]] st0];
    cbn [negb]; try reflexivity.
  destruct (venueModel st0 !! Booking.venueId b) as [v |]; [| reflexivity].
  destruct (price _ _ v); reflexivity.
Qed.

Lemma reschedule_document_returns (tz : Z) (id : ObjectId)
    (dto : RescheduleBookingDto.t) (userId : ObjectId) (st st' : Store)
    (b' : Booking.t) :
  reschedule_document tz id dto userId st = (inr b', st') →
  st' = st
  ∧ is_Some (bookingModel st !! id)
  ∧ holdsSlot b'.
Proof.
  intros Hrun. unfold reschedule_document in Hrun. run.
  destruct (bookingModel st !! id) as [b |] eqn:Hb; [| discriminate].
  destruct (negb (bool_decide (Booking.userId b = userId))); [discriminate |].
  destruct (isActiveStatus (Booking.status b)) eqn:Hs; [| discriminate].
  apply isActiveStatus_iff in Hs. cbn [negb] in Hrun.
  destruct (checkAvailability tz (Booking.venueId b)
              (RescheduleBookingDto.newEventDate dto)
              (RescheduleBookingDto.newStartTime dto)
              (RescheduleBookingDto.newEndTime dto) st) as [r st0] eqn:Havail.
  pose proof (checkAvailability_frame tz st (Booking.venueId b)
                (RescheduleBookingDto.newEventDate dto)
                (RescheduleBookingDto.newStartTime dto)
                (RescheduleBookingDto.newEndTime dto)) as Hframe.
  rewrite Havail in Hframe. cbn in Hframe. subst st0.
  destruct r as [e | [|]]; [discriminate | | discriminate]. cbn [negb] in Hrun.
  destruct (venueModel st !! Booking.venueId b) as [v |]; [| discriminate].
  destruct (price _ _ v); [| discriminate].
  simplify_eq. split; [reflexivity |]. split; [by eexists |]. exact Hs.
Qed.

Lemma reschedule_alone_apart (tz : Z) (st st' : Store) (id userId : ObjectId)
    (dto : RescheduleBookingDto.t) (b' : Booking.t) :
  noDoubleBooking tz st →
  reschedule tz id dto userId st = (inr b', st') →
  noDoubleBooking tz st'.
Proof.
  intros Hinv Hrun.
  apply reschedule_returns in Hrun
    as (b & v & Hb & Hv & _ & _ & Havail & _ & -> & Hdate & Hstart & Hend & _
        & _ & Hvenue & _).
  apply (checkAvailability_true_iff tz st _ _ _ _ v Hv) in Havail
    as [_ Hfree].
  intros i j b1 b2 Hij Hb1 Hb2 Hsame Hday H1 H2 Hover. cbn in Hb1, Hb2.
  destruct (decide (i = id)) as [-> | Hi].
  - rewrite lookup_insert_eq in Hb1. rewrite lookup_insert_ne in Hb2 by done.
    simplify_eq. rewrite Hstart, Hend in Hover.
    apply (Hfree j b2 Hb2); try assumption;
      [discriminate | congruence | congruence].
  - rewrite lookup_insert_ne in Hb1 by done.
    destruct (decide (j = id)) as [-> | Hj].
    + rewrite lookup_insert_eq in Hb2. simplify_eq.
      apply slotsOverlap_sym in Hover. rewrite Hstart, Hend in Hover.
      apply (Hfree i b1 Hb1); try assumption;
        [discriminate | congruence | congruence].
    + rewrite lookup_insert_ne in Hb2 by done.
      exact (Hinv i j b1 b2 Hij Hb1 Hb2 Hsame Hday H1 H2 Hover).
Qed.

(** X7. [reschedule] keeps bookings apart when it is served alone: if no two
    bookings holding a slot of the same venue on the same day overlap before
    a successful [reschedule], none do after it. That is all the protection
    there is. [reschedule] is its check followed by its save, with nothing to
    hold other requests back in between; when its check and the check of a
    [create] both pass on the same database and the [create] saves first, the
    changed booking is saved all the same, and if the two are for overlapping
    slots of one venue on one day the database then holds a double
    booking. *)
Theorem reschedule_keeps_bookings_apart (tz : Z) (st : Store) :
  (∀ id userId dto b' st',
     noDoubleBooking tz st →
     reschedule tz id dto userId st = (inr b', st') →
     noDoubleBooking tz st')
  ∧ (∀ id userId dto,
       reschedule tz id dto userId st
       = (booking ← reschedule_document tz id dto userId;
          reschedule_save id booking) st)
  ∧ (∀ id userId dto b' dto2 userId2 b2,
       reschedule_document tz id dto userId st = (inr b', st) →
       create_document tz dto2 userId2 st = (inr b2, st) →
       ∃ id2,
         id2 ≠ id
         ∧ create_save b2 st = (inr (id2, b2), withBooking id2 b2 st)
         ∧ reschedule_save id b' (withBooking id2 b2 st)
           = (inr b', withBooking id b' (withBooking id2 b2 st))
         ∧ (Booking.venueId b' = Booking.venueId b2 →
            localDay tz (Booking.eventDate b')
              = localDay tz (Booking.eventDate b2) →
            slotsOverlap (Booking.startTime b') (Booking.endTime b') b2 →
            ¬ noDoubleBooking tz (withBooking id b' (withBooking id2 b2 st)))).
Proof.
  split; [| split; [intros; apply reschedule_phases |]].
  - intros id userId dto b' st'. apply reschedule_alone_apart.
  - intros id userId dto b' dto2 userId2 b2 Hdoc Hdoc2.
    apply reschedule_document_returns in Hdoc as (_ & [b Hb] & Hs').
    apply create_document_returns in Hdoc2 as (_ & Hs2 & _).
    destruct (create_save_fresh st b2) as (id2 & Hnew2 & Hsave2).
    assert (Hne : id2 ≠ id) by congruence.
    exists id2. split; [exact Hne |]. split; [exact Hsave2 |].
    split; [reflexivity |]. intros Hvenue Hday Hover.
    apply (overlapping_pair tz _ id id2 b' b2); try assumption.
    + congruence.
    + cbn. apply lookup_insert_eq.
    + cbn. rewrite lookup_insert_ne by done. apply lookup_insert_eq.
    + by left.
Qed.

(** X8. What [reschedule] refuses before it looks at the new slot: an unknown
    booking (NotFound), a caller who is not the user of the booking
    (Forbidden, also for an admin or the owner of the venue), a booking that
    is [CANCELLED] or [COMPLETED] (BadRequest). Whenever [reschedule] throws,
    nothing is written. *)
Theorem reschedule_refusals (tz : Z) (st : Store) (id userId : ObjectId)
    (dto : RescheduleBookingDto.t) :
  (bookingModel st !! id = None →
   reschedule tz id dto userId st
     = (inl (NotFoundException "Booking not found"), st))
  ∧ (∀ b, bookingModel st !! id = Some b →
          (Booking.userId b ≠ userId →
           reschedule tz id dto userId st
             = (inl (ForbiddenException
                       "You can only reschedule your own bookings"), st))
          ∧ (Booking.userId b = userId →
             Booking.status b = CANCELLED ∨ Booking.status b = COMPLETED →
             reschedule tz id dto userId st
               = (inl (BadRequestException
                         "Cannot reschedule a cancelled or completed booking"),
                  st)))
  ∧ (∀ e st', reschedule tz id dto userId st = (inl e, st') → st' = st).
Proof.
  split; [| split].
  - intros Hb. unfold reschedule. run. rewrite Hb. reflexivity.
  - intros b Hb. split.
    + intros Hu. unfold reschedule. run. rewrite Hb.
      rewrite (bool_decide_eq_false_2 _ Hu). reflexivity.
    + intros Hu Hs. unfold reschedule. run. rewrite Hb.
      rewrite (bool_decide_eq_true_2 _ Hu). cbn [negb].
      destruct Hs as [-> | ->]; reflexivity.
  - intros e st'. apply reschedule_throws.
Qed.

(** X9. A successful [reschedule] changes the date, the times, the total and
    the balance and nothing else of the money and the state: user, venue,
    status, payment status and paid amount stay. The balance is the new total
    less what was paid, so it is negative exactly when more was paid than the
    new slot costs. *)
Theorem reschedule_keeps_payment_state (tz : Z) (st st' : Store)
    (id userId : ObjectId) (dto : RescheduleBookingDto.t)
    (b b' : Booking.t) :
  bookingModel st !! id = Some b →
  reschedule tz id dto userId st = (inr b', st') →
  bookingModel st' !! id = Some b'
  ∧ Booking.userId b' = Booking.userId b
  ∧ Booking.venueId b' = Booking.venueId b
  ∧ Booking.status b' = Booking.status b
  ∧ Booking.paymentStatus b' = Booking.paymentStatus b
  ∧ Booking.advancePaid b' = Booking.advancePaid b
  ∧ Booking.balanceAmount b' = Booking.totalAmount b' - Booking.advancePaid b
  ∧ (Booking.balanceAmount b' < 0
     ↔ Booking.totalAmount b' < Booking.advancePaid b)
  ∧ paymentModel st' = paymentModel st.
Proof.
  intros Hb Hrun.
  apply reschedule_returns in Hrun
    as (b0 & v & Hb0 & _ & _ & _ & _ & _ & -> & _ & _ & _ & Hbal & Hu & Hvenue
        & Hs & Hps & Hadv).
  simplify_eq. split; [cbn; apply lookup_insert_eq |].
  repeat (split; [assumption |]). split; [lia | reflexivity].
Qed.

(** ** Further properties of [updateStatus], [deleteBooking] and
    [getAvailableSlots] *)

(** X10. Who gets through [updateStatus], for an existing booking and
    venue. While the account of the venue's owner exists, the call returns
    exactly when the caller is an admin, or is the user of the booking and
    sends no status or [CANCELLED]. Everyone else is refused and nothing is
    written: who is neither admin nor the user of the booking, the owner of
    the venue included, with "You do not have permission to update this
    booking" (the code compares the populated [ownerId], printed, with the
    caller's id, so it never recognises the owner); the user of the booking
    who sends another status with "You can only cancel your own bookings".
    Once the account of the venue's owner is gone, every call fails with a
    TypeError. *)
Theorem updateStatus_permissions (st : Store) (id userId : ObjectId)
    (dto : UpdateBookingStatusDto.t) (userRole : string) (now : Date)
    (b : Booking.t) (v : Venue.t) :
  bookingModel st !! id = Some b →
  venueModel st !! Booking.venueId b = Some v →
  (ownerAccount st v →
   ((∃ b' st', updateStatus id dto userId userRole now st = (inr b', st'))
    ↔ userRole = "ADMIN"
      ∨ (Booking.userId b = userId
         ∧ (UpdateBookingStatusDto.status dto = None
            ∨ UpdateBookingStatusDto.status dto = Some CANCELLED)))
   ∧ (¬ mayTouch b userId userRole →
      updateStatus id dto userId userRole now st
        = (inl (ForbiddenException
                  "You do not have permission to update this booking"), st))
   ∧ (Venue.ownerId v = userId → Booking.userId b ≠ userId →
      userRole ≠ "ADMIN" →
      updateStatus id dto userId userRole now st
        = (inl (ForbiddenException
                  "You do not have permission to update this booking"), st))
   ∧ (onlyBookingUser b userId userRole →
      ∀ s, UpdateBookingStatusDto.status dto = Some s → s ≠ CANCELLED →
           updateStatus id dto userId userRole now st
             = (inl (ForbiddenException
                       "You can only cancel your own bookings"), st)))
  ∧ (userModel st !! Venue.ownerId v = None →
     updateStatus id dto userId userRole now st
       = (inl (TypeError "Cannot read properties of null (reading 'toString')"),
          st)).
Proof.
  intros Hb Hv.
  pose proof (updateStatus_found st id userId dto userRole now b v Hb Hv)
    as Hfound.
  split; [| intros Hnone; by rewrite Hfound, Hnone].
  intros [doc Hdoc]. rewrite Hdoc in Hfound.
  assert (Hstranger : ¬ mayTouch b userId userRole →
            updateStatus id dto userId userRole now st
            = (inl (ForbiddenException
                      "You do not have permission to update this booking"), st)).
  { unfold mayTouch. intros Hnot. rewrite Hfound.
    rewrite !bool_decide_eq_false_2 by tauto. reflexivity. }
  assert (Huser : onlyBookingUser b userId userRole →
            ∀ s, UpdateBookingStatusDto.status dto = Some s → s ≠ CANCELLED →
                 updateStatus id dto userId userRole now st
                 = (inl (ForbiddenException
                           "You can only cancel your own bookings"), st)).
  { intros (Hu & Ha) s Hs Hne. rewrite Hfound.
    rewrite (bool_decide_eq_true_2 _ Hu), (bool_decide_eq_false_2 _ Ha), Hs,
      (bool_decide_eq_false_2 _ Hne).
    reflexivity. }
  split; [| split; [exact Hstranger | split; [| exact Huser]]].
  - split.
    + intros (b' & st' & Hrun).
      destruct (decide (userRole = "ADMIN")) as [Ha | Ha]; [by left |].
      destruct (decide (Booking.userId b = userId)) as [Hu | Hu].
      * right. split; [exact Hu |].
        destruct (UpdateBookingStatusDto.status dto) as [s |] eqn:Hs;
          [| by left].
        destruct (decide (s = CANCELLED)) as [-> | Hne]; [by right |].
        rewrite (Huser (conj Hu Ha) s eq_refl Hne) in Hrun. discriminate.
      * rewrite Hstranger in Hrun; [discriminate |].
        unfold mayTouch. tauto.
    + intros Hauth. eexists _, _.
      exact (updateStatus_authorized st id userId dto userRole now b v Hb Hv
               (ex_intro _ doc Hdoc) Hauth).
  - intros _ Hu Ha. apply Hstranger. unfold mayTouch. tauto.
Qed.

(** X11. [updateStatus] stores a payment status that the request carries as
    it is, whoever of the permitted callers sends it: the user of the
    booking, sending no status or [CANCELLED], can mark the booking [PAID]
    (or anything else) while the paid amount, the balance and the payments
    stay as they were. (The account of the venue's owner exists, which
    [updateStatus] needs of every caller.) *)
Theorem updateStatus_sets_paymentStatus (st : Store) (id userId : ObjectId)
    (dto : UpdateBookingStatusDto.t) (userRole : string) (now : Date)
    (b : Booking.t) (v : Venue.t) (ps : PaymentStatus) :
  bookingModel st !! id = Some b →
  venueModel st !! Booking.venueId b = Some v →
  ownerAccount st v →
  Booking.userId b = userId →
  UpdateBookingStatusDto.status dto = None
  ∨ UpdateBookingStatusDto.status dto = Some CANCELLED →
  UpdateBookingStatusDto.paymentStatus dto = Some ps →
  ∃ b' st',
    updateStatus id dto userId userRole now st = (inr b', st')
    ∧ bookingModel st' !! id = Some b'
    ∧ Booking.paymentStatus b' = ps
    ∧ Booking.advancePaid b' = Booking.advancePaid b
    ∧ Booking.balanceAmount b' = Booking.balanceAmount b
    ∧ Booking.totalAmount b' = Booking.totalAmount b
    ∧ paymentModel st' = paymentModel st.
Proof.
  intros Hb Hv Howner Hu Hs Hps. eexists _, _. split.
  - apply updateStatus_authorized; eauto.
  - split; [cbn; apply lookup_insert_eq |].
    unfold applyUpdate, stampCancellation. rewrite Hps.
    destruct Hs as [-> | ->]; cbn; done.
Qed.


Lemma deleteBooking_found (st : Store) (id userId : ObjectId)
    (userRole : string) (b : Booking.t) (v : Venue.t) :
  bookingModel st !! id = Some b →
  venueModel st !! Booking.venueId b = Some v →
  deleteBooking id userId userRole st =
    match userModel st !! Venue.ownerId v with
    | None =>
        (inl (TypeError "Cannot read properties of null (reading 'toString')"),
         st)
    | Some _ =>
        if negb (bool_decide (Booking.userId b = userId))
           && negb (bool_decide (userRole = "ADMIN")) then
          (inl (ForbiddenException
                  "You do not have permission to delete this booking"), st)
        else if bool_decide (Booking.status b = PENDING) then
          (inr "Booking deleted successfully", withoutBooking id st)
        else
          (inl (BadRequestException
                  "Only pending bookings can be deleted. Use cancel status for confirmed bookings."),
           st)
    end.
Proof.
  intros Hb Hv. unfold deleteBooking, Db.deleteBooking. run. rewrite Hb, Hv.
  destruct (userModel st !! Venue.ownerId v) as [doc |]; [| reflexivity].
  rewrite (bool_decide_eq_false_2
             (Inspected (Venue.ownerId v) doc = Hex userId)) by discriminate.
  cbn [negb]. rewrite andb_true_r.
  destruct (negb _ && negb _); [reflexivity |].
  destruct (bool_decide (Booking.status b = PENDING)); reflexivity.
Qed.

Lemma deleteBooking_permitted (st : Store) (id userId : ObjectId)
    (userRole : string) (b : Booking.t) (v : Venue.t) :
  bookingModel st !! id = Some b →
  venueModel st !! Booking.venueId b = Some v →
  ownerAccount st v →
  mayTouch b userId userRole →
  deleteBooking id userId userRole st =
    if bool_decide (Booking.status b = PENDING)
    then (inr "Booking deleted successfully", withoutBooking id st)
    else (inl (BadRequestException
                 "Only pending bookings can be deleted. Use cancel status for confirmed bookings."),
          st).
Proof.
  intros Hb Hv [doc Hdoc] Hmay.
  rewrite (deleteBooking_found st id userId userRole b v Hb Hv), Hdoc.
  replace (negb (bool_decide (Booking.userId b = userId))
           && negb (bool_decide (userRole = "ADMIN"))) with false;
    [reflexivity |].
  symmetry. destruct Hmay as [Ha | Hu].
  - rewrite (bool_decide_eq_true_2 _ Ha). apply andb_false_r.
  - rewrite (bool_decide_eq_true_2 _ Hu). reflexivity.
Qed.

(** X13. [deleteBooking], while the account of the venue's owner exists. For
    an admin or the user of the booking, a [PENDING] booking is removed from
    the database and a booking in any other status is refused (BadRequest)
    and stays. Anyone else is refused (Forbidden), the owner of the venue
    included: the code compares the populated [ownerId], printed, with the
    caller's id and never recognises the owner. An unknown booking is
    NotFound, and once the account of the venue's owner is gone every call
    fails with a TypeError. A call that throws writes nothing. *)
Theorem deleteBooking_only_pending (st : Store) (id userId : ObjectId)
    (userRole : string) :
  (bookingModel st !! id = None →
   deleteBooking id userId userRole st
     = (inl (NotFoundException "Booking not found"), st))
  ∧ (∀ b v,
       bookingModel st !! id = Some b →
       venueModel st !! Booking.venueId b = Some v →
       (ownerAccount st v →
        (mayTouch b userId userRole → Booking.status b = PENDING →
         ∃ st', deleteBooking id userId userRole st
                  = (inr "Booking deleted successfully", st')
                ∧ bookingModel st' !! id = None
                ∧ (∀ j, j ≠ id → bookingModel st' !! j = bookingModel st !! j)
                ∧ paymentModel st' = paymentModel st)
        ∧ (mayTouch b userId userRole → Booking.status b ≠ PENDING →
           deleteBooking id userId userRole st
             = (inl (BadRequestException
                       "Only pending bookings can be deleted. Use cancel status for confirmed bookings."),
                st))
        ∧ (¬ mayTouch b userId userRole →
           deleteBooking id userId userRole st
             = (inl (ForbiddenException
                       "You do not have permission to delete this booking"),
                st))
        ∧ (Venue.ownerId v = userId → Booking.userId b ≠ userId →
           userRole ≠ "ADMIN" →
           deleteBooking id userId userRole st
             = (inl (ForbiddenException
                       "You do not have permission to delete this booking"),
                st)))
       ∧ (userModel st !! Venue.ownerId v = None →
          deleteBooking id userId userRole st
            = (inl (TypeError
                      "Cannot read properties of null (reading 'toString')"),
               st)))
  ∧ (∀ e st', deleteBooking id userId userRole st = (inl e, st') → st' = st).
Proof.
  split; [| split].
  - intros Hb. unfold deleteBooking. run. rewrite Hb. reflexivity.
  - intros b v Hb Hv.
    pose proof (deleteBooking_found st id userId userRole b v Hb Hv) as Hfound.
    split; [| intros Hnone; by rewrite Hfound, Hnone].
    intros Howner.
    assert (Hstranger : ¬ mayTouch b userId userRole →
              deleteBooking id userId userRole st
              = (inl (ForbiddenException
                        "You do not have permission to delete this booking"),
                 st)).
    { unfold mayTouch. intros Hnot. destruct Howner as [doc Hdoc].
      rewrite Hfound, Hdoc.
      rewrite !bool_decide_eq_false_2 by tauto. reflexivity. }
    split; [| split; [| split; [exact Hstranger |]]].
    + intros Hmay Hs.
      rewrite (deleteBooking_permitted st id _ _ b v Hb Hv Howner Hmay).
      rewrite (bool_decide_eq_true_2 _ Hs). eexists. split; [reflexivity |].
      cbn. split; [apply lookup_delete_eq |].
      split; [| reflexivity]. intros j Hj. by apply lookup_delete_ne.
    + intros Hmay Hs.
      rewrite (deleteBooking_permitted st id _ _ b v Hb Hv Howner Hmay).
      rewrite (bool_decide_eq_false_2 _ Hs). reflexivity.
    + intros _ Hu Ha. apply Hstranger. unfold mayTouch. tauto.
  - intros e st' Hrun.
    destruct (bookingModel st !! id) as [b |] eqn:Hb;
      [| unfold deleteBooking in Hrun; run; rewrite Hb in Hrun;
         by simplify_eq].
    destruct (venueModel st !! Booking.venueId b) as [v |] eqn:Hv;
      [| unfold deleteBooking in Hrun; run; rewrite Hb, Hv in Hrun;
         by simplify_eq].
    rewrite (deleteBooking_found st id userId userRole b v Hb Hv) in Hrun.
    repeat (case_match; simplify_eq; try reflexivity).
Qed.

Lemma checkAvailability_free (tz : Z) (st : Store) (venueId : ObjectId)
    (date : Date) (startTime endTime : string) (venue : Venue.t) :
  venueModel st !! venueId = Some venue →
  notBlocked venue date →
  slotFree tz st None venueId date startTime endTime →
  checkAvailability tz venueId date startTime endTime st = (inr true, st).
Proof.
  intros Hv Hnot Hfree. apply checkAvailability_eq.
  apply (checkAvailability_true_iff tz st venueId date _ _ venue Hv). done.
Qed.

(** X14. Deleting a booking frees its slot: a slot of a venue on a day that
    is not blocked, which no booking other than the deleted one holds an
    overlap with, is available once [deleteBooking] has returned. *)
Theorem deleted_slot_is_free (tz : Z) (st st' : Store) (id userId : ObjectId)
    (userRole message : string) (venueId : ObjectId) (venue : Venue.t)
    (date : Date) (startTime endTime : string) :
  deleteBooking id userId userRole st = (inr message, st') →
  venueModel st !! venueId = Some venue →
  notBlocked venue date →
  slotFree tz st (Some id) venueId date startTime endTime →
  checkAvailability tz venueId date startTime endTime st' = (inr true, st').
Proof.
  intros Hrun Hv Hnot Hfree.
  assert (Hst : st' = withoutBooking id st).
  { destruct (bookingModel st !! id) as [b |] eqn:Hb;
      [| unfold deleteBooking in Hrun; run; rewrite Hb in Hrun;
         discriminate].
    destruct (venueModel st !! Booking.venueId b) as [v |] eqn:Hvb;
      [| unfold deleteBooking in Hrun; run; rewrite Hb, Hvb in Hrun;
         discriminate].
    rewrite (deleteBooking_found st id userId userRole b v Hb Hvb) in Hrun.
    repeat (case_match; simplify_eq). reflexivity. }
  subst st'. apply checkAvailability_free with (venue := venue);
    [exact Hv | exact Hnot |].
  intros j b Hb _ Hvenue Hday Hstatus. cbn in Hb.
  apply lookup_delete_Some in Hb as [Hj Hb].
  apply (Hfree j b Hb); try assumption. congruence.
Qed.

(** X15. Cancelling or completing a booking frees its slot: after
    [updateStatus] has stored [CANCELLED] or [COMPLETED], a slot of a venue on
    a day that is not blocked, which no other booking holds an overlap with,
    is available. *)
Theorem closed_booking_frees_slot (tz : Z) (st st' : Store)
    (id userId : ObjectId) (dto : UpdateBookingStatusDto.t)
    (userRole : string) (now : Date) (b' : Booking.t) (venueId : ObjectId)
    (venue : Venue.t) (date : Date) (startTime endTime : string) :
  updateStatus id dto userId userRole now st = (inr b', st') →
  UpdateBookingStatusDto.status dto = Some CANCELLED
  ∨ UpdateBookingStatusDto.status dto = Some COMPLETED →
  venueModel st !! venueId = Some venue →
  notBlocked venue date →
  slotFree tz st (Some id) venueId date startTime endTime →
  checkAvailability tz venueId date startTime endTime st' = (inr true, st').
Proof.
  intros Hrun Hs Hv Hnot Hfree.
  apply updateStatus_returns in Hrun as (b & v & Hb & _ & -> & ->).
  apply checkAvailability_free with (venue := venue);
    [exact Hv | exact Hnot |].
  intros j b2 Hb2 _ Hvenue Hday Hstatus. cbn in Hb2.
  destruct (decide (j = id)) as [-> | Hj].
  - rewrite lookup_insert_eq in Hb2. simplify_eq.
    unfold holdsSlot in Hstatus. rewrite applyUpdate_status in Hstatus.
    destruct Hs as [Hs | Hs]; rewrite Hs in Hstatus; cbn in Hstatus;
      destruct Hstatus; discriminate.
  - rewrite lookup_insert_ne in Hb2 by done.
    apply (Hfree j b2 Hb2); try assumption. congruence.
Qed.

Lemma getAvailableSlots_found (tz : Z) (st : Store) (venueId : ObjectId)
    (date : Date) (venue : Venue.t) :
  venueModel st !! venueId = Some venue →
  getAvailableSlots tz venueId date st =
    (inr (if existsb (λ d, isoDay d =? isoDay date) (Venue.blockedDates venue)
          then NotAvailable "Date is blocked by venue owner" []
          else Available (Venue.openingTime venue) (Venue.closingTime venue)
                 ((λ b, (Booking.startTime b, Booking.endTime b))
                    <$> List.filter (sameVenueAndDay tz venueId date)
                          (map_to_list (bookingModel st)).*2)), st).
Proof.
  intros Hv. unfold getAvailableSlots. run. rewrite Hv.
  destruct (existsb _ _); reflexivity.
Qed.

(** X16. [getAvailableSlots] and [checkAvailability] agree. For an existing
    venue: on a blocked day the first answers "not available" with no slots
    and the second refuses every slot; on any other day the first lists
    exactly the times of the bookings that hold a slot of the venue that day,
    with the opening hours of the venue, and the second accepts a slot
    exactly when it overlaps none of the listed ones. Neither writes. *)
Theorem getAvailableSlots_agrees (tz : Z) (st : Store) (venueId : ObjectId)
    (date : Date) (venue : Venue.t) :
  venueModel st !! venueId = Some venue →
  ((∃ d, d ∈ Venue.blockedDates venue ∧ isoDay d = isoDay date) →
   getAvailableSlots tz venueId date st
     = (inr (NotAvailable "Date is blocked by venue owner" []), st)
   ∧ ∀ startTime endTime,
       checkAvailability tz venueId date startTime endTime st
         = (inr false, st))
  ∧ (notBlocked venue date →
     ∃ bookedSlots,
       getAvailableSlots tz venueId date st
         = (inr (Available (Venue.openingTime venue) (Venue.closingTime venue)
                   bookedSlots), st)
       ∧ (∀ slot,
            slot ∈ bookedSlots
            ↔ ∃ id b, bookingModel st !! id = Some b
                      ∧ Booking.venueId b = venueId
                      ∧ localDay tz (Booking.eventDate b) = localDay tz date
                      ∧ holdsSlot b
                      ∧ slot = (Booking.startTime b, Booking.endTime b))
       ∧ (∀ startTime endTime,
            checkAvailability tz venueId date startTime endTime st
              = (inr true, st)
            ↔ ∀ slot, slot ∈ bookedSlots →
                      ¬ rangesOverlap startTime endTime slot.1 slot.2)).
Proof.
  intros Hv. rewrite (getAvailableSlots_found tz st venueId date venue Hv).
  split.
  - intros Hblocked.
    assert (Hex : existsb (λ d, isoDay d =? isoDay date)
                    (Venue.blockedDates venue) = true)
      by (by apply isBlocked_iff).
    rewrite Hex. split; [reflexivity |]. intros s e.
    rewrite (checkAvailability_found tz st venueId date s e venue Hv), Hex.
    reflexivity.
  - intros Hnot.
    assert (Hex : existsb (λ d, isoDay d =? isoDay date)
                    (Venue.blockedDates venue) = false).
    { destruct (existsb _ _) eqn:Hex; [| reflexivity].
      apply isBlocked_iff in Hex as (d & Hd & Hday). destruct (Hnot d Hd Hday). }
    rewrite Hex. eexists. split; [reflexivity |].
    assert (Hmem : ∀ slot,
              slot ∈ (λ b, (Booking.startTime b, Booking.endTime b))
                       <$> List.filter (sameVenueAndDay tz venueId date)
                             (map_to_list (bookingModel st)).*2
              ↔ ∃ id b, bookingModel st !! id = Some b
                        ∧ Booking.venueId b = venueId
                        ∧ localDay tz (Booking.eventDate b) = localDay tz date
                        ∧ holdsSlot b
                        ∧ slot = (Booking.startTime b, Booking.endTime b)).
    { intros slot. rewrite list_elem_of_fmap. split.
      - intros (b & -> & Hin).
        apply elem_of_findBookings in Hin as (id & Hb & Hf).
        apply sameVenueAndDay_iff in Hf as (H1 & H2 & H3). eauto 10.
      - intros (id & b & Hb & H1 & H2 & H3 & ->). exists b.
        split; [reflexivity |]. apply elem_of_findBookings. exists id.
        split; [exact Hb |]. apply sameVenueAndDay_iff. done. }
    split; [exact Hmem |]. intros s e. split.
    + intros Hrun slot Hslot Hover.
      apply Hmem in Hslot as (id & b & Hb & H1 & H2 & H3 & ->).
      assert (Htrue : (checkAvailability tz venueId date s e st).1 = inr true)
        by (rewrite Hrun; reflexivity).
      apply (checkAvailability_true_iff tz st venueId date s e venue Hv) in Htrue
        as [_ Hfree].
      exact (Hfree id b Hb ltac:(discriminate) H1 H2 H3 Hover).
    + intros Hnone. apply checkAvailability_free with (venue := venue);
        [exact Hv | exact Hnot |].
      intros id b Hb _ H1 H2 H3 Hover.
      apply (Hnone (Booking.startTime b, Booking.endTime b)); [| exact Hover].
      apply Hmem. eauto 10.
Qed.

(** ** Further properties of the payment service *)

Lemma find_after_save (f : Payment.t → bool) (p p' : Payment.t)
    (l : list Payment.t) :
  List.find f l = Some p →
  Payment._id p' = Payment._id p →
  f p' = true →
  List.find f (Db.updateIn (Payment._id p') (λ _, p') <$> l) = Some p'.
Proof.
  intros Hfind Hid Hf. induction l as [| q l IH]; [discriminate |].
  cbn in Hfind |- *. unfold Db.updateIn at 1 2.
  destruct (f q) eqn:Hq.
  - simplify_eq. rewrite bool_decide_eq_true_2 by done. by rewrite Hf.
  - destruct (bool_decide (Payment._id q = Payment._id p')).
    + by rewrite Hf.
    + rewrite Hq. by apply IH.
Qed.

Lemma find_elem (f : Payment.t → bool) (l : list Payment.t) (p : Payment.t) :
  List.find f l = Some p → p ∈ l ∧ f p = true.
Proof.
  intros H. apply find_some in H as [Hin Hf]. by rewrite list_elem_of_In.
Qed.

Lemma verifyEsewaPayment_failure (st : Store) (d : EsewaCallback)
    (p : Payment.t) :
  List.find (λ q, bool_decide (Payment.referenceId q = transaction_uuid d))
    (paymentModel st) = Some p →
  esewa_status d ≠ "COMPLETE" →
  verifyEsewaPayment (Some d) st =
    (inr {| success := false;
            message := "Payment failed";
            payment := fail (EsewaDecoded d) p |},
     withPayment (fail (EsewaDecoded d) p) st).
Proof.
  intros Hfind Hstatus. unfold verifyEsewaPayment. run. rewrite Hfind.
  rewrite (bool_decide_eq_false_2 _ Hstatus). reflexivity.
Qed.

Lemma findKhaltiPayment_run (pidx : string) (st : Store) (op : option Payment.t) :
  (findKhaltiPayment pidx st).1 = inr op →
  findKhaltiPayment pidx st = (inr op, st).
Proof.
  intros H. pose proof (findKhaltiPayment_frame pidx st) as Hframe.
  destruct (findKhaltiPayment pidx st) as [x s]. cbn in *. congruence.
Qed.

Lemma verifyKhaltiPayment_failure (khaltiSecretKey : string) (st : Store)
    (pidx : string) (r : KhaltiLookup) (p : Payment.t) :
  (findKhaltiPayment pidx st).1 = inr (Some p) →
  khaltiSecretKey ≠ "" →
  lookup_status r ≠ "Completed" →
  verifyKhaltiPayment khaltiSecretKey pidx (Some r) st =
    (inr {| success := false;
            message := "Payment status: " +:+ lookup_status r;
            payment := fail (KhaltiLookedUp r) p |},
     withPayment (fail (KhaltiLookedUp r) p) st).
Proof.
  intros Hfind Hkey Hstatus. apply findKhaltiPayment_run in Hfind.
  unfold verifyKhaltiPayment. unfold mbind at 1, M_bind at 1. rewrite Hfind.
  rewrite (bool_decide_eq_false_2 _ Hkey). run.
  rewrite (bool_decide_eq_false_2 _ Hstatus). reflexivity.
Qed.

(** X17. A callback that does not report success never touches a booking.
    For eSewa (a status other than "COMPLETE") and for configured Khalti (a
    lookup status other than "Completed"), the payment the callback locates
    is stored as [FAILED], whatever its status was, a payment that had been
    [COMPLETED] included; the answer says [success: false]; the bookings stay
    as they were. *)
Theorem failed_callback_leaves_bookings (khaltiSecretKey : string) (st : Store)
    (p : Payment.t) (d : EsewaCallback) (pidx : string) (r : KhaltiLookup) :
  (List.find (λ q, bool_decide (Payment.referenceId q = transaction_uuid d))
     (paymentModel st) = Some p →
   esewa_status d ≠ "COMPLETE" →
   ∃ result st',
     verifyEsewaPayment (Some d) st = (inr result, st')
     ∧ success result = false
     ∧ bookingModel st' = bookingModel st
     ∧ ∃ p', List.find
               (λ q, bool_decide (Payment.referenceId q = transaction_uuid d))
               (paymentModel st') = Some p'
             ∧ Payment.status p' = TX_FAILED
             ∧ Payment._id p' = Payment._id p)
  ∧ ((findKhaltiPayment pidx st).1 = inr (Some p) →
     khaltiSecretKey ≠ "" →
     lookup_status r ≠ "Completed" →
     ∃ result st',
       verifyKhaltiPayment khaltiSecretKey pidx (Some r) st = (inr result, st')
       ∧ success result = false
       ∧ bookingModel st' = bookingModel st
       ∧ Payment.status (payment result) = TX_FAILED
       ∧ paymentModel st'
           = Db.updateIn (Payment._id p) (λ _, payment result) <$> paymentModel st).
Proof.
  split.
  - intros Hfind Hstatus. eexists _, _. split.
    + apply verifyEsewaPayment_failure; eassumption.
    + split; [reflexivity |]. split; [reflexivity |].
      exists (fail (EsewaDecoded d) p). split; [| done]. cbn.
      apply (find_after_save _ p (fail (EsewaDecoded d) p));
        [exact Hfind | reflexivity |].
      apply find_elem in Hfind as [_ Hf]. exact Hf.
  - intros Hfind Hkey Hstatus. eexists _, _. split.
    + apply verifyKhaltiPayment_failure; eassumption.
    + done.
Qed.

(** X18. What the verifications do with a callback they cannot use. eSewa:
    data that cannot be decoded and a reference that no payment has both give
    BadRequest "Payment verification failed" (the NotFound thrown inside is
    caught). Khalti: a token that locates no payment gives NotFound; with
    Khalti configured, a lookup request that fails gives BadRequest. In all
    four cases nothing is written. *)
Theorem unusable_callback_writes_nothing (khaltiSecretKey : string) (st : Store)
    (d : EsewaCallback) (pidx : string) (response : option KhaltiLookup)
    (p : Payment.t) :
  verifyEsewaPayment None st
    = (inl (BadRequestException "Payment verification failed"), st)
  ∧ (List.find (λ q, bool_decide (Payment.referenceId q = transaction_uuid d))
       (paymentModel st) = None →
     verifyEsewaPayment (Some d) st
       = (inl (BadRequestException "Payment verification failed"), st))
  ∧ ((findKhaltiPayment pidx st).1 = inr None →
     verifyKhaltiPayment khaltiSecretKey pidx response st
       = (inl (NotFoundException "Payment not found"), st))
  ∧ ((findKhaltiPayment pidx st).1 = inr (Some p) →
     khaltiSecretKey ≠ "" →
     verifyKhaltiPayment khaltiSecretKey pidx None st
       = (inl (BadRequestException "Payment verification failed"), st)).
Proof.
  split; [reflexivity |]. split; [| split].
  - intros Hfind. unfold verifyEsewaPayment. run. rewrite Hfind. reflexivity.
  - intros Hfind. apply findKhaltiPayment_run in Hfind.
    unfold verifyKhaltiPayment. unfold mbind at 1, M_bind at 1. rewrite Hfind.
    reflexivity.
  - intros Hfind Hkey. apply findKhaltiPayment_run in Hfind.
    unfold verifyKhaltiPayment. unfold mbind at 1, M_bind at 1. rewrite Hfind.
    rewrite (bool_decide_eq_false_2 _ Hkey). reflexivity.
Qed.

(** X19. What [initiatePayment] refuses besides a wrong amount, and what it
    leaves behind. An unknown booking is NotFound and a booking of another
    user is BadRequest "You can only pay for your own bookings", with nothing
    written. With Khalti configured, an amount that passes and a reference id
    that is new, a failing request to Khalti gives BadRequest "Failed to
    initiate Khalti payment" and the payment stays in the database,
    [INITIATED], without a transaction id. *)
Theorem initiatePayment_refusals (khaltiSecretKey : string)
    (dto : InitiatePaymentDto.t) (userId : ObjectId) (now : Z) (rnd : string)
    (initiation : option KhaltiInitiation) (st : Store) :
  (bookingModel st !! InitiatePaymentDto.bookingId dto = None →
   initiatePayment khaltiSecretKey dto userId now rnd initiation st
     = (inl (NotFoundException "Booking not found"), st))
  ∧ (∀ b,
       bookingModel st !! InitiatePaymentDto.bookingId dto = Some b →
       (Booking.userId b ≠ userId →
        initiatePayment khaltiSecretKey dto userId now rnd initiation st
          = (inl (BadRequestException "You can only pay for your own bookings"),
             st))
       ∧ (Booking.userId b = userId →
          advanceTooSmall dto b = false →
          fullMismatch dto b = false →
          balanceMismatch dto b = false →
          (∀ q, q ∈ paymentModel st →
                Payment.referenceId q ≠ generateReferenceId now rnd) →
          InitiatePaymentDto.gateway dto = KHALTI →
          khaltiSecretKey ≠ "" →
          ∃ p, initiatePayment khaltiSecretKey dto userId now rnd None st
                 = (inl (BadRequestException "Failed to initiate Khalti payment"),
                    withNewPayment p st)
               ∧ Payment.status p = TX_INITIATED
               ∧ Payment.transactionId p = None
               ∧ Payment.referenceId p = generateReferenceId now rnd
               ∧ Payment.amount p = InitiatePaymentDto.amount dto
               ∧ Payment.bookingId p = InitiatePaymentDto.bookingId dto)).
Proof.
  split.
  - intros Hb. unfold initiatePayment. run. rewrite Hb. reflexivity.
  - intros b Hb. split.
    + intros Hu. unfold initiatePayment. run. rewrite Hb.
      rewrite (bool_decide_eq_false_2 _ Hu). reflexivity.
    + unfold advanceTooSmall, fullMismatch, balanceMismatch.
      intros Hu Hadv Hfull Hbal Hnew Hgw Hkey.
      unfold initiatePayment, generateKhaltiPaymentData. run. rewrite Hb.
      rewrite (bool_decide_eq_true_2 _ Hu). cbn [negb].
      rewrite Hadv, Hfull, Hbal. cbn beta.
      assert (Hdup : ∀ p0, Payment.referenceId p0 = generateReferenceId now rnd →
                existsb (λ q, bool_decide
                                (Payment.referenceId q = Payment.referenceId p0))
                  (paymentModel st) = false).
      { intros p0 Hp0. apply not_true_is_false. intros Hex.
        apply existsb_exists in Hex as (q & Hq & Heq).
        apply bool_decide_eq_true in Heq. rewrite <- list_elem_of_In in Hq.
        apply (Hnew q Hq). congruence. }
      rewrite Hdup by reflexivity. rewrite Hgw.
      rewrite (bool_decide_eq_false_2 _ Hkey).
      eexists. split; [reflexivity |]. done.
Qed.

Lemma NoDup_fmap_same {A B : Type} (f : A → B) (l : list A) (x y : A) :
  NoDup (f <$> l) → x ∈ l → y ∈ l → f x = f y → x = y.
Proof.
  induction l as [| z l IH]; intros Hnd Hx Hy Hf; [inversion Hx |].
  cbn in Hnd. apply NoDup_cons in Hnd as [Hz Hnd].
  apply elem_of_cons in Hx as [-> | Hx]; apply elem_of_cons in Hy as [-> | Hy].
  - reflexivity.
  - destruct Hz. rewrite Hf. by apply list_elem_of_fmap_2.
  - destruct Hz. rewrite <- Hf. by apply list_elem_of_fmap_2.
  - by apply IH.
Qed.

Lemma uniquePayments_save (st : Store) (p p' : Payment.t) :
  uniquePayments st →
  p ∈ paymentModel st →
  Payment._id p' = Payment._id p →
  Payment.referenceId p' = Payment.referenceId p →
  uniquePayments (withPayment p' st).
Proof.
  intros [Hids Hrefs] Hin Hid Href. unfold uniquePayments. cbn.
  assert (Hsame : ∀ q, q ∈ paymentModel st →
            Payment._id (Db.updateIn (Payment._id p') (λ _, p') q) = Payment._id q
            ∧ Payment.referenceId (Db.updateIn (Payment._id p') (λ _, p') q)
              = Payment.referenceId q).
  { intros q Hq. unfold Db.updateIn. case_bool_decide as Hqp; [| done].
    assert (q = p) as -> by (apply (NoDup_fmap_same Payment._id (paymentModel st));
                              [assumption .. | congruence]).
    done. }
  rewrite <- !list_fmap_compose.
  rewrite (list_fmap_ext (Payment._id ∘ _) Payment._id),
          (list_fmap_ext (Payment.referenceId ∘ _) Payment.referenceId);
    [done | |]; intros i q Hq; apply list_elem_of_lookup_2 in Hq;
    apply (Hsame q Hq).
Qed.

Lemma uniquePayments_same (st st' : Store) :
  paymentModel st' = paymentModel st → uniquePayments st → uniquePayments st'.
Proof. unfold uniquePayments. by intros ->. Qed.

Lemma uniquePayments_create (st st' : Store) (mk : ObjectId → Payment.t)
    (r : Exception + Payment.t) :
  (∀ id, Payment._id (mk id) = id) →
  uniquePayments st →
  Db.createPayment mk st = (r, st') →
  uniquePayments st'.
Proof.
  intros Hmk [Hids Hrefs] Hrun. unfold Db.createPayment in Hrun.
  destruct (existsb _ (paymentModel st)) eqn:Hdup; simplify_eq; [done |].
  unfold uniquePayments. cbn. rewrite !fmap_app. cbn. split.
  - apply NoDup_app. split; [exact Hids |]. split; [| apply NoDup_singleton].
    intros i Hi Hnew. apply list_elem_of_singleton in Hnew. rewrite Hmk in Hnew.
    subst i.
    apply (is_fresh (list_to_set (Payment._id <$> paymentModel st) : gset ObjectId)).
    by apply elem_of_list_to_set.
  - apply NoDup_app. split; [exact Hrefs |]. split; [| apply NoDup_singleton].
    intros ref Hi Hnew. apply list_elem_of_singleton in Hnew. subst ref.
    apply list_elem_of_fmap in Hi as (q & Href & Hq).
    pose proof (existsb_false_elem _ _ Hdup q Hq) as Hne.
    apply bool_decide_eq_false in Hne. congruence.
Qed.

Lemma updateBookingPayment_payments (p : Payment.t) (st : Store) :
  paymentModel (updateBookingPayment p st).2 = paymentModel st.
Proof. unfold updateBookingPayment. run. case_match; reflexivity. Qed.

Lemma uniquePayments_verified {A : Type} (st st' : Store) (p p' : Payment.t)
    (r : Exception + A) (x : A) :
  uniquePayments st →
  p ∈ paymentModel st →
  Payment._id p' = Payment._id p →
  Payment.referenceId p' = Payment.referenceId p →
  (Db.savePayment p';; updateBookingPayment p';; mret x) st = (r, st') →
  uniquePayments st'.
Proof.
  intros Hinv Hin Hid Href Hrun. unfold updateBookingPayment in Hrun. run.
  cbn in Hrun.
  destruct (bookingModel st !! Payment.bookingId p'); simplify_eq;
    apply (uniquePayments_same (withPayment p' st)); try reflexivity;
    by apply (uniquePayments_save st p p').
Qed.

(** Unfolding of the monad that leaves [Db.createPayment] folded. *)
Ltac run_to_create :=
  unfold Db.findBooking, Db.findOnePayment, Db.findPayment, Db.savePayment,
    Db.updatePayment, try_catch, throw, mbind, M_bind, mret, M_ret in *;
  cbn beta iota in *.

(** X20. The payment service keeps the payments distinct: if every payment
    has an [_id] and a [referenceId] of its own, that still holds after
    [initiatePayment], [verifyEsewaPayment], [verifyKhaltiPayment] and
    [initiateRefund], whether they return or throw. *)
Theorem payments_stay_distinct (khaltiSecretKey : string) (st : Store) :
  uniquePayments st →
  (∀ dto userId now rnd initiation,
     uniquePayments
       (initiatePayment khaltiSecretKey dto userId now rnd initiation st).2)
  ∧ (∀ decodedData, uniquePayments (verifyEsewaPayment decodedData st).2)
  ∧ (∀ pidx response,
       uniquePayments (verifyKhaltiPayment khaltiSecretKey pidx response st).2)
  ∧ (∀ paymentId reason userId now rnd,
       uniquePayments (initiateRefund paymentId reason userId now rnd st).2).
Proof.
  intros Hinv. split; [| split; [| split]].
  - intros dto userId now rnd initiation.
    unfold initiatePayment, generateKhaltiPaymentData. run_to_create.
    destruct (bookingModel st !! InitiatePaymentDto.bookingId dto) as [b |];
      [| exact Hinv].
    destruct (negb (bool_decide (Booking.userId b = userId))); [exact Hinv |].
    destruct (_ && (_ <? _)); [exact Hinv |].
    destruct (_ && negb (_ =? Booking.totalAmount b)); [exact Hinv |].
    destruct (_ && negb (_ =? _)); [exact Hinv |]. cbn beta.
    match goal with
    | |- context [Db.createPayment ?mk st] =>
        destruct (Db.createPayment mk st) as [r st1] eqn:Hcreate;
        pose proof (uniquePayments_create st st1 mk r ltac:(reflexivity)
                      Hinv Hcreate) as Hinv1
    end.
    destruct r as [e | p]; [exact Hinv1 |].
    destruct (InitiatePaymentDto.gateway dto); [exact Hinv1 |].
    destruct (bool_decide (khaltiSecretKey = "")); [exact Hinv1 |].
    destruct initiation as [r |]; [| exact Hinv1]. cbn.
    destruct Hinv1 as [Hids Hrefs]. unfold uniquePayments. cbn.
    rewrite <- !list_fmap_compose.
    rewrite (list_fmap_ext (Payment._id ∘ _) Payment._id),
            (list_fmap_ext (Payment.referenceId ∘ _) Payment.referenceId);
      [done | |]; intros i q _; cbn; unfold Db.updateIn; case_bool_decide; done.
  - intros [d |]; [| exact Hinv]. unfold verifyEsewaPayment, try_catch.
    unfold mbind at 1, M_bind at 1, Db.findOnePayment.
    destruct (List.find _ (paymentModel st)) as [p |] eqn:Hfind; [| exact Hinv].
    apply find_elem in Hfind as [Hin _].
    destruct (bool_decide (esewa_status d = "COMPLETE")).
    + match goal with
      | |- context [(Db.savePayment ?q;; updateBookingPayment ?q;; mret ?x) st] =>
          destruct ((Db.savePayment q;; updateBookingPayment q;; mret x) st)
            as [r st1] eqn:Hrun;
          pose proof (uniquePayments_verified st st1 p q r x Hinv Hin
                        ltac:(reflexivity) ltac:(reflexivity) Hrun) as Hinv1
      end.
      destruct r; exact Hinv1.
    + run. cbn. by apply (uniquePayments_save st p (fail (EsewaDecoded d) p)).
  - intros pidx response. unfold verifyKhaltiPayment.
    unfold mbind at 1, M_bind at 1.
    assert (Hfound : ∀ p, (findKhaltiPayment pidx st).1 = inr (Some p) →
                          p ∈ paymentModel st).
    { intros p. unfold findKhaltiPayment. run.
      destruct (List.find _ (paymentModel st)) as [q |] eqn:Hq; cbn.
      - intros ?; simplify_eq. by apply find_elem in Hq as [? _].
      - destruct (JS.startsWith "mock_" pidx); cbn; [| intros ?; simplify_eq].
        destruct (List.find (λ p, bool_decide (Payment.referenceId p = _))
                    (paymentModel st)) as [q |] eqn:Hq'; cbn;
          intros ?; simplify_eq.
        by apply find_elem in Hq' as [? _]. }
    pose proof (findKhaltiPayment_frame pidx st) as Hframe.
    destruct (findKhaltiPayment pidx st) as [[e | [p |]] st0]; cbn in Hframe;
      subst st0; [exact Hinv | | exact Hinv].
    specialize (Hfound p eq_refl).
    destruct (bool_decide (khaltiSecretKey = "")).
    + match goal with
      | |- context [(Db.savePayment ?q;; updateBookingPayment ?q;; mret ?x) st] =>
          destruct ((Db.savePayment q;; updateBookingPayment q;; mret x) st)
            as [r st1] eqn:Hrun;
          pose proof (uniquePayments_verified st st1 p q r x Hinv Hfound
                        ltac:(reflexivity) ltac:(reflexivity) Hrun) as Hinv1
      end.
      exact Hinv1.
    + unfold try_catch. destruct response as [r |]; [| exact Hinv].
      destruct (bool_decide (lookup_status r = "Completed")).
      * match goal with
        | |- context [(Db.savePayment ?q;; updateBookingPayment ?q;; mret ?x) st] =>
            destruct ((Db.savePayment q;; updateBookingPayment q;; mret x) st)
              as [r0 st1] eqn:Hrun;
            pose proof (uniquePayments_verified st st1 p q r0 x Hinv Hfound
                          ltac:(reflexivity) ltac:(reflexivity) Hrun) as Hinv1
        end.
        destruct r0; exact Hinv1.
      * run. cbn. by apply (uniquePayments_save st p (fail (KhaltiLookedUp r) p)).
  - intros paymentId reason userId now rnd. unfold initiateRefund.
    run_to_create.
    destruct (List.find _ (paymentModel st)) as [p |]; [| exact Hinv].
    destruct (negb (bool_decide (Payment.status p = TX_COMPLETED)));
      [exact Hinv |].
    match goal with
    | |- context [Db.createPayment ?mk st] =>
        destruct (Db.createPayment mk st) as [r st1] eqn:Hcreate;
        exact (uniquePayments_create st st1 mk r ltac:(reflexivity) Hinv Hcreate)
    end.
Qed.

Lemma find_app_l {A : Type} (f : A → bool) (l l' : list A) (x : A) :
  List.find f l = Some x → List.find f (l ++ l') = Some x.
Proof.
  induction l as [| y l IH]; cbn; [discriminate |].
  destruct (f y); [done | exact IH].
Qed.

(** X21. [initiateRefund] records a request and moves no money. For a
    [COMPLETED] payment and a reference id that is new, it appends one
    payment of type [REFUND], status [PENDING], for the amount of the original
    with the sign turned, of the same booking, venue and gateway, naming the
    original, the reason and the requesting user (who need not be the payer);
    the bookings and the other payments stay as they were, the original
    [COMPLETED], so the request can be made again. A payment in any other
    status is refused (BadRequest) and an unknown one is NotFound, with
    nothing written. *)
Theorem initiateRefund_records_request (st : Store) (paymentId : ObjectId)
    (reason : string) (userId : ObjectId) (now : Z) (rnd : string) :
  (List.find (λ p, bool_decide (Payment._id p = paymentId)) (paymentModel st)
     = None →
   initiateRefund paymentId reason userId now rnd st
     = (inl (NotFoundException "Payment not found"), st))
  ∧ (∀ original,
       List.find (λ p, bool_decide (Payment._id p = paymentId)) (paymentModel st)
         = Some original →
       (Payment.status original ≠ TX_COMPLETED →
        initiateRefund paymentId reason userId now rnd st
          = (inl (BadRequestException "Can only refund completed payments"), st))
       ∧ (Payment.status original = TX_COMPLETED →
          (∀ q, q ∈ paymentModel st →
                Payment.referenceId q ≠ generateReferenceId now rnd) →
          ∃ refund,
            initiateRefund paymentId reason userId now rnd st
              = (inr refund, withNewPayment refund st)
            ∧ Payment.amount refund = - Payment.amount original
            ∧ Payment.paymentType refund = REFUND
            ∧ Payment.status refund = TX_PENDING
            ∧ Payment.originalPaymentId refund = Some paymentId
            ∧ Payment.refundReason refund = Some reason
            ∧ Payment.userId refund = userId
            ∧ Payment.bookingId refund = Payment.bookingId original
            ∧ Payment.venueId refund = Payment.venueId original
            ∧ Payment.gateway refund = Payment.gateway original
            ∧ (∀ q, q ∈ paymentModel st → Payment._id q ≠ Payment._id refund)
            ∧ List.find (λ p, bool_decide (Payment._id p = paymentId))
                (paymentModel (withNewPayment refund st)) = Some original)).
Proof.
  split.
  - intros Hfind. unfold initiateRefund, Db.findPayment. run. rewrite Hfind.
    reflexivity.
  - intros original Hfind. split.
    + intros Hs. unfold initiateRefund, Db.findPayment. run. rewrite Hfind.
      rewrite (bool_decide_eq_false_2 _ Hs). reflexivity.
    + intros Hs Hnew. unfold initiateRefund, Db.findPayment. run. rewrite Hfind.
      rewrite (bool_decide_eq_true_2 _ Hs). cbn [negb].
      assert (Hdup : existsb (λ q, bool_decide
                                     (Payment.referenceId q
                                      = generateReferenceId now rnd))
                       (paymentModel st) = false).
      { apply not_true_is_false. intros Hex.
        apply existsb_exists in Hex as (q & Hq & Heq).
        apply bool_decide_eq_true in Heq. rewrite <- list_elem_of_In in Hq.
        by apply (Hnew q Hq). }
      cbn [Payment.referenceId]. rewrite Hdup.
      eexists. split; [reflexivity |]. cbn.
      pose proof (find_elem _ _ _ Hfind) as [_ Hid].
      apply bool_decide_eq_true in Hid.
      repeat (split; [first [reflexivity | congruence] |]). split.
      * intros q Hq. by apply new_payment_id_fresh.
      * apply find_app_l. exact Hfind.
Qed.

Lemma initiatePayment_balance_amount (khaltiSecretKey : string)
    (dto : InitiatePaymentDto.t) (userId : ObjectId) (now : Z) (rnd : string)
    (initiation : option KhaltiInitiation) (st st1 : Store) (data : PaymentData)
    (b : Booking.t) :
  bookingModel st !! InitiatePaymentDto.bookingId dto = Some b →
  InitiatePaymentDto.paymentType dto = Some BALANCE →
  initiatePayment khaltiSecretKey dto userId now rnd initiation st
    = (inr data, st1) →
  InitiatePaymentDto.amount dto = Booking.totalAmount b - Booking.advancePaid b.
Proof.
  intros Hb Ht Hrun. unfold initiatePayment in Hrun. run. rewrite Hb, Ht in Hrun.
  destruct (negb _); [discriminate |]. cbn in Hrun.
  destruct (InitiatePaymentDto.amount dto
              =? Booking.totalAmount b - Booking.advancePaid b) eqn:E;
    [lia | discriminate].
Qed.

(** X22. Advance, then balance. When the success callback of eSewa for an
    [ADVANCE] payment has been verified, and [initiatePayment] then accepts
    the payment of the balance through eSewa and its success callback is
    verified, the booking is [PAID], its balance is 0 and what is recorded as
    paid is exactly the total. *)
Theorem advance_then_balance_pays_total (khaltiSecretKey : string)
    (st st1 st2 : Store) (advance : Payment.t) (b : Booking.t)
    (d1 d2 : EsewaCallback) (result1 : VerifyResult)
    (dto : InitiatePaymentDto.t) (userId : ObjectId) (now : Z) (rnd : string)
    (initiation : option KhaltiInitiation) (paymentId : ObjectId)
    (referenceId : string) (total_amount : Z) :
  List.find (λ q, bool_decide (Payment.referenceId q = transaction_uuid d1))
    (paymentModel st) = Some advance →
  Payment.paymentType advance = ADVANCE →
  bookingModel st !! Payment.bookingId advance = Some b →
  esewa_status d1 = "COMPLETE" →
  verifyEsewaPayment (Some d1) st = (inr result1, st1) →
  InitiatePaymentDto.bookingId dto = Payment.bookingId advance →
  InitiatePaymentDto.paymentType dto = Some BALANCE →
  initiatePayment khaltiSecretKey dto userId now rnd initiation st1
    = (inr (EsewaForm paymentId referenceId total_amount), st2) →
  transaction_uuid d2 = referenceId →
  esewa_status d2 = "COMPLETE" →
  ∃ result2 st3 b3,
    verifyEsewaPayment (Some d2) st2 = (inr result2, st3)
    ∧ success result2 = true
    ∧ bookingModel st3 !! Payment.bookingId advance = Some b3
    ∧ Booking.advancePaid b3 = Booking.totalAmount b
    ∧ Booking.totalAmount b3 = Booking.totalAmount b
    ∧ Booking.balanceAmount b3 = 0
    ∧ Booking.paymentStatus b3 = PAID
    ∧ InitiatePaymentDto.amount dto
        = Booking.totalAmount b - Payment.amount advance.
Proof.
  intros Hfind1 Htype1 Hb Hs1 Hrun1 Hbid Htype2 Hinit Hd2 Hs2.
  rewrite (verifyEsewaPayment_success st d1 advance b Hfind1 Hs1 Hb) in Hrun1.
  injection Hrun1 as _ <-.
  set (b1 := applyPayment advance b) in *.
  assert (Hb1 : bookingModel
                  (withBooking (Payment.bookingId advance) b1
                     (withPayment
                        (complete (Some (transaction_code d1)) (EsewaDecoded d1)
                           advance) st))
                !! InitiatePaymentDto.bookingId dto = Some b1).
  { rewrite Hbid. cbn. apply lookup_insert_eq. }
  destruct (applyPayment_fields advance b) as (Hadv & _ & _ & Htot & _).
  destruct (Hadv Htype1) as (Hpaid1 & _ & _). fold b1 in Hpaid1, Htot.
  pose proof (initiatePayment_balance_amount _ _ _ _ _ _ _ _ _ b1 Hb1 Htype2 Hinit)
    as Hamount.
  apply initiatePayment_returns in Hinit
    as (b0 & p2 & Hb0 & _ & _ & Hbook & Hpay & Hbid2 & Hamt2 & Htype & Href
        & Hne & Hdata).
  rewrite Hb1 in Hb0. injection Hb0 as <-.
  rewrite Htype2 in Htype. cbn in Htype. destruct Hdata as (_ & ->).
  assert (Hlookup : bookingModel st2 !! Payment.bookingId p2 = Some b1).
  { rewrite Hbook, Hbid2. exact Hb1. }
  eexists _, _, (applyPayment p2 b1). split.
  - apply verifyEsewaPayment_success with (p := p2) (b := b1);
      [| exact Hs2 | exact Hlookup].
    rewrite Hpay. apply find_snoc.
    + intros q Hq. apply bool_decide_eq_false_2. rewrite Hd2. by apply Hne.
    + apply bool_decide_eq_true_2. by rewrite Hd2.
  - split; [reflexivity |].
    split; [cbn; rewrite <- Hbid, <- Hbid2; apply lookup_insert_eq |].
    destruct (applyPayment_fields p2 b1) as (_ & _ & Hbal & Htot2 & _).
    destruct (Hbal Htype) as (Hpaid2 & Hzero & Hstatus).
    rewrite Hpaid2, Htot2, Hzero, Hstatus, Hamt2, Hamount, Hpaid1, Htot.
    repeat split; lia.
Qed.

(** ** Blocked dates of a venue *)

Lemma blockDates_owner (st : Store) (id : ObjectId) (dates : list Date)
    (userId : ObjectId) (venue : Venue.t) :
  venueModel st !! id = Some venue →
  Venue.ownerId venue = userId →
  VenueService.blockDates id dates userId st
    = (inr (VenueService.set_blockedDates
              (Venue.blockedDates venue ++ dates)%list venue),
       withVenue id
         (VenueService.set_blockedDates
            (Venue.blockedDates venue ++ dates)%list venue) st).
Proof.
  intros Hv Howner. unfold VenueService.blockDates, Db.saveVenue. run.
  rewrite Hv, (bool_decide_eq_true_2 _ Howner). reflexivity.
Qed.

Lemma unblockDates_owner (st : Store) (id : ObjectId) (dates : list Date)
    (userId : ObjectId) (venue : Venue.t) :
  venueModel st !! id = Some venue →
  Venue.ownerId venue = userId →
  VenueService.unblockDates id dates userId st
    = (inr (VenueService.set_blockedDates
              (datesWithout dates (Venue.blockedDates venue)) venue),
       withVenue id
         (VenueService.set_blockedDates
            (datesWithout dates (Venue.blockedDates venue)) venue) st).
Proof.
  intros Hv Howner. unfold VenueService.unblockDates, Db.saveVenue. run.
  rewrite Hv, (bool_decide_eq_true_2 _ Howner). reflexivity.
Qed.

Lemma elem_of_datesWithout (dates l : list Date) (d : Date) :
  d ∈ datesWithout dates l ↔ d ∈ l ∧ d ∉ dates.
Proof.
  unfold datesWithout. rewrite !list_elem_of_In, filter_In, negb_true_iff.
  split; intros [Hl Hd]; (split; [exact Hl |]).
  - intros Hin. assert (existsb (Z.eqb d) dates = true); [| congruence].
    apply existsb_exists. exists d. split; [exact Hin | lia].
  - apply not_true_is_false. intros Hex.
    apply existsb_exists in Hex as (x & Hx & Heq).
    apply Z.eqb_eq in Heq. subst x. by apply Hd.
Qed.

Lemma checkAvailability_blocked (tz : Z) (st : Store) (venueId : ObjectId)
    (date : Date) (startTime endTime : string) (venue : Venue.t) (d : Date) :
  venueModel st !! venueId = Some venue →
  d ∈ Venue.blockedDates venue →
  isoDay d = isoDay date →
  checkAvailability tz venueId date startTime endTime st = (inr false, st).
Proof.
  intros Hv Hd Hday.
  rewrite (checkAvailability_found tz st venueId date _ _ venue Hv).
  assert (Hex : existsb (λ d, isoDay d =? isoDay date) (Venue.blockedDates venue)
                = true) by (apply isBlocked_iff; eauto).
  rewrite Hex. reflexivity.
Qed.

Lemma checkAvailability_same_day (tz : Z) (st : Store) (venueId : ObjectId)
    (date : Date) (startTime endTime : string) (venue : Venue.t) (d : Date) :
  venueModel st !! venueId = Some venue →
  d ∈ Venue.blockedDates venue →
  sameUtcDay d date →
  checkAvailability tz venueId date startTime endTime st = (inr false, st).
Proof.
  intros Hv Hd Hday. apply isoDay_sameUtcDay in Hday.
  by apply (checkAvailability_blocked tz st venueId date _ _ venue d).
Qed.

Lemma notBlocked_sameUtcDay (venue : Venue.t) (date : Date) :
  notBlocked venue date
  ↔ ∀ d, d ∈ Venue.blockedDates venue → ¬ sameUtcDay d date.
Proof.
  unfold notBlocked.
  split; intros H d Hd Hday; apply (H d Hd); by apply isoDay_sameUtcDay.
Qed.

Lemma datesWithout_filter (dates l : list Date) :
  datesWithout dates l = filter (λ d, d ∉ dates) l.
Proof.
  induction l as [| d l IH]; [reflexivity |].
  rewrite filter_cons. unfold datesWithout in *. cbn [List.filter].
  rewrite IH.
  destruct (existsb (Z.eqb d) dates) eqn:Hex; cbn [negb].
  - rewrite decide_False; [reflexivity |].
    intros Hout. apply Hout. apply existsb_exists in Hex as (x & Hx & Heq).
    apply Z.eqb_eq in Heq. subst x. by apply list_elem_of_In.
  - rewrite decide_True; [reflexivity |].
    intros Hin. assert (existsb (Z.eqb d) dates = true); [| congruence].
    apply existsb_exists. exists d. split; [by apply list_elem_of_In | lia].
Qed.

Lemma sameButBlockedDates_set (l : list Date) (venue : Venue.t) :
  sameButBlockedDates venue (VenueService.set_blockedDates l venue).
Proof. unfold sameButBlockedDates. cbn. done. Qed.

(** X23. [blockDates]: for the owner of the venue, the dates are appended to
    the blocked dates of the venue; the other fields of the venue and the
    rest of the database stay as they were. From then on [checkAvailability]
    answers [false] for every slot of a date that falls on the calendar day
    (in UTC) of a blocked date, old or new, and [create] refuses such a date
    for this venue, active and with the guest count in range, as not
    available; for a date on the day of none of the new dates the answer of
    [checkAvailability] is what it was. Another user is refused (Forbidden)
    and an unknown venue is NotFound, with nothing written. *)
Theorem blockDates_closes_days (tz : Z) (st : Store) (id : ObjectId)
    (dates : list Date) (userId : ObjectId) :
  (venueModel st !! id = None →
   VenueService.blockDates id dates userId st
     = (inl (NotFoundException "Venue not found"), st))
  ∧ (∀ venue,
       venueModel st !! id = Some venue →
       (Venue.ownerId venue ≠ userId →
        VenueService.blockDates id dates userId st
          = (inl (ForbiddenException
                    "You can only block dates for your own venues"), st))
       ∧ (Venue.ownerId venue = userId →
          ∃ venue',
            VenueService.blockDates id dates userId st
              = (inr venue', withVenue id venue' st)
            ∧ Venue.blockedDates venue'
                = (Venue.blockedDates venue ++ dates)%list
            ∧ sameButBlockedDates venue venue'
            ∧ (∀ d date startTime endTime,
                 d ∈ Venue.blockedDates venue ∨ d ∈ dates →
                 sameUtcDay d date →
                 checkAvailability tz id date startTime endTime
                   (withVenue id venue' st)
                 = (inr false, withVenue id venue' st))
            ∧ (∀ date startTime endTime,
                 (∀ d, d ∈ dates → ¬ sameUtcDay d date) →
                 (checkAvailability tz id date startTime endTime
                    (withVenue id venue' st)).1
                 = (checkAvailability tz id date startTime endTime st).1)
            ∧ (∀ d dto bookingUser,
                 d ∈ Venue.blockedDates venue ∨ d ∈ dates →
                 CreateBookingDto.venueId dto = id →
                 sameUtcDay d (CreateBookingDto.eventDate dto) →
                 Venue.isActive venue = true →
                 Venue.minCapacity venue <= CreateBookingDto.guestCount dto
                   <= Venue.maxCapacity venue →
                 create tz dto bookingUser (withVenue id venue' st)
                 = (inl (BadRequestException
                           "Venue is not available for the selected date and time"),
                    withVenue id venue' st)))).
Proof.
  split.
  - intros Hv. unfold VenueService.blockDates. run. rewrite Hv. reflexivity.
  - intros venue Hv. split.
    + intros Howner. unfold VenueService.blockDates. run. rewrite Hv.
      rewrite (bool_decide_eq_false_2 _ Howner). reflexivity.
    + intros Howner. eexists. split; [by apply blockDates_owner |].
      set (venue' := VenueService.set_blockedDates _ venue).
      assert (Hv' : venueModel (withVenue id venue' st) !! id = Some venue')
        by apply lookup_insert_eq.
      assert (Hblocked : ∀ d, d ∈ Venue.blockedDates venue ∨ d ∈ dates →
                              d ∈ Venue.blockedDates venue')
        by (intros d Hd; cbn; by apply elem_of_app).
      split; [reflexivity |].
      split; [apply sameButBlockedDates_set |]. split; [| split].
      * intros d date startTime endTime Hd Hday.
        apply (checkAvailability_same_day tz _ id date _ _ venue' d Hv');
          [by apply Hblocked | done].
      * intros date startTime endTime Hother.
        rewrite (checkAvailability_found tz _ id date _ _ venue' Hv').
        rewrite (checkAvailability_found tz st id date _ _ venue Hv).
        cbn [fst bookingModel withVenue Venue.blockedDates venue'
               VenueService.set_blockedDates].
        rewrite existsb_app.
        assert (Hnew : existsb (λ d, isoDay d =? isoDay date) dates = false).
        { apply not_true_is_false. intros Hex.
          apply existsb_exists in Hex as (d & Hd & Hday).
          apply (Hother d); [by apply list_elem_of_In |].
          apply isoDay_sameUtcDay. lia. }
        rewrite Hnew, orb_false_r. reflexivity.
      * intros d dto bookingUser Hd <- Hday Hactive Hcap.
        pose proof (checkAvailability_same_day tz _ _
                      (CreateBookingDto.eventDate dto)
                      (CreateBookingDto.startTime dto)
                      (CreateBookingDto.endTime dto) venue' d Hv'
                      (Hblocked d Hd) Hday) as Havail.
        unfold create. run. rewrite Hv'.
        change (Venue.isActive venue') with (Venue.isActive venue).
        change (Venue.minCapacity venue') with (Venue.minCapacity venue).
        change (Venue.maxCapacity venue') with (Venue.maxCapacity venue).
        rewrite Hactive. cbn [negb].
        replace (CreateBookingDto.guestCount dto <? Venue.minCapacity venue)
          with false by lia.
        replace (CreateBookingDto.guestCount dto >? Venue.maxCapacity venue)
          with false by lia.
        cbn [orb]. rewrite Havail. reflexivity.
Qed.

(** X24. [unblockDates] removes instants, not days. For the owner, the
    blocked dates of the venue become those of before that are not equal, as
    an instant, to one of the given dates, in their order; the other fields
    of the venue and the rest of the database stay as they were. So a date
    whose calendar day (in UTC) holds a blocked date that differs from each
    of the given ones (by the time of day, say) stays closed:
    [checkAvailability] answers [false]; and when every blocked date on the
    day of a date was among the given ones, the day is open again: a slot
    that no booking holds an overlap with is available. *)
Theorem unblockDates_removes_instants (tz : Z) (st : Store) (id : ObjectId)
    (dates : list Date) (userId : ObjectId) (venue : Venue.t) :
  venueModel st !! id = Some venue →
  Venue.ownerId venue = userId →
  ∃ venue',
    VenueService.unblockDates id dates userId st
      = (inr venue', withVenue id venue' st)
    ∧ Venue.blockedDates venue'
        = filter (λ d, d ∉ dates) (Venue.blockedDates venue)
    ∧ sameButBlockedDates venue venue'
    ∧ (∀ d, d ∈ Venue.blockedDates venue'
            ↔ d ∈ Venue.blockedDates venue ∧ d ∉ dates)
    ∧ (∀ d date startTime endTime,
         d ∈ Venue.blockedDates venue → d ∉ dates →
         sameUtcDay d date →
         checkAvailability tz id date startTime endTime (withVenue id venue' st)
         = (inr false, withVenue id venue' st))
    ∧ (∀ date startTime endTime,
         (∀ d, d ∈ Venue.blockedDates venue → sameUtcDay d date → d ∈ dates) →
         slotFree tz st None id date startTime endTime →
         checkAvailability tz id date startTime endTime (withVenue id venue' st)
         = (inr true, withVenue id venue' st)).
Proof.
  intros Hv Howner. eexists. split; [by apply unblockDates_owner |].
  set (venue' := VenueService.set_blockedDates _ venue).
  assert (Hv' : venueModel (withVenue id venue' st) !! id = Some venue')
    by apply lookup_insert_eq.
  assert (Hmem : ∀ d, d ∈ Venue.blockedDates venue'
                      ↔ d ∈ Venue.blockedDates venue ∧ d ∉ dates)
    by (intros d; apply elem_of_datesWithout).
  split; [apply datesWithout_filter |].
  split; [apply sameButBlockedDates_set |].
  split; [exact Hmem |]. split.
  - intros d date startTime endTime Hd Hout Hday.
    apply (checkAvailability_same_day tz _ id date _ _ venue' d);
      [exact Hv' | by apply Hmem | done].
  - intros date startTime endTime Hall Hfree.
    apply (checkAvailability_free tz _ id date _ _ venue' Hv').
    + apply notBlocked_sameUtcDay. intros d Hd Hday.
      apply Hmem in Hd as [Hd Hout]. apply Hout, Hall; done.
    + exact Hfree.
Qed.

(** X25. Blocking dates and unblocking the same dates: the owner is left
    with the blocked dates of before without the given ones, so a date that
    was blocked before and is blocked again is open afterwards; when none of
    the dates was blocked before, the database is back to what it was. *)
Theorem block_then_unblock (st : Store) (id : ObjectId) (dates : list Date)
    (userId : ObjectId) (venue : Venue.t) :
  venueModel st !! id = Some venue →
  Venue.ownerId venue = userId →
  ∃ v1 st1 v2 st2,
    VenueService.blockDates id dates userId st = (inr v1, st1)
    ∧ VenueService.unblockDates id dates userId st1 = (inr v2, st2)
    ∧ Venue.blockedDates v2 = datesWithout dates (Venue.blockedDates venue)
    ∧ ((∀ d, d ∈ dates → d ∉ Venue.blockedDates venue) → v2 = venue ∧ st2 = st).
Proof.
  intros Hv Howner. eexists _, _, _, _.
  split; [by apply blockDates_owner |].
  split; [apply unblockDates_owner; [apply lookup_insert_eq | exact Howner] |].
  assert (Hdates : datesWithout dates
                     (Venue.blockedDates venue ++ dates)%list
                   = datesWithout dates (Venue.blockedDates venue)).
  { assert (Hnone : datesWithout dates dates = []).
    { destruct (datesWithout dates dates) as [| d l] eqn:E; [reflexivity |].
      assert (Hd : d ∈ datesWithout dates dates) by (rewrite E; left).
      apply elem_of_datesWithout in Hd as [Hd Hout]. destruct (Hout Hd). }
    unfold datesWithout in *. rewrite List.filter_app.
    etransitivity; [apply (f_equal (app _) Hnone) | apply app_nil_r]. }
  cbn -[datesWithout]. rewrite Hdates. split; [reflexivity |].
  intros Hnew.
  assert (Hsame : datesWithout dates (Venue.blockedDates venue)
                  = Venue.blockedDates venue).
  { unfold datesWithout. apply List.forallb_filter_id, forallb_forall.
    intros d Hd. apply negb_true_iff, not_true_is_false. intros Hex.
    apply existsb_exists in Hex as (x & Hx & Heq). apply Z.eqb_eq in Heq.
    subst x. apply (Hnew d); by apply list_elem_of_In. }
  rewrite Hsame.
  assert (Hvenue : ∀ l,
            VenueService.set_blockedDates (Venue.blockedDates venue)
              (VenueService.set_blockedDates l venue) = venue)
    by (intros l; by destruct venue).
  rewrite Hvenue. split; [reflexivity |].
  unfold withVenue. cbn. rewrite insert_insert_eq, (insert_id _ _ _ Hv).
  by destruct st.
Qed.

(** ** Times that pass the pattern of the request bodies *)

Lemma inRange_elem (lo hi : nat) (c : ascii) :
  TimePattern.inRange lo hi c = true → c ∈ charsBetween lo hi.
Proof.
  unfold TimePattern.inRange, charsBetween. intros H.
  apply andb_true_iff in H as [Hlo Hhi].
  apply Nat.leb_le in Hlo, Hhi.
  rewrite <- (ascii_nat_embedding c). apply list_elem_of_fmap_2.
  apply elem_of_seq. lia.
Qed.

Lemma readsClock_one_digit_hour :
  forallb (λ h,
    forallb (λ m1,
      forallb (λ m2,
        readsClock (String h (String ":" (String m1 (String m2 EmptyString)))))
        (charsBetween 48 57))
      (charsBetween 48 53))
    (charsBetween 48 57) = true.
Proof. vm_compute. reflexivity. Qed.

Lemma readsClock_two_digit_hour :
  forallb (λ hh,
    forallb (λ m1,
      forallb (λ m2,
        readsClock (String hh.1 (String hh.2
                      (String ":" (String m1 (String m2 EmptyString))))))
        (charsBetween 48 57))
      (charsBetween 48 53))
    (((λ h2, ("0"%char, h2)) <$> charsBetween 48 57)
     ++ ((λ h2, ("1"%char, h2)) <$> charsBetween 48 57)
     ++ ((λ h2, ("2"%char, h2)) <$> charsBetween 48 51))%list = true.
Proof. vm_compute. reflexivity. Qed.

Lemma forallb_elem {A : Type} (f : A → bool) (l : list A) (x : A) :
  forallb f l = true → x ∈ l → f x = true.
Proof.
  intros H Hx. apply list_elem_of_In in Hx.
  by apply (proj1 (forallb_forall f l) H).
Qed.

Lemma matches_readsClock (s : string) :
  TimePattern.matches s = true → readsClock s = true.
Proof.
  intros H.
  destruct s as [| h [| c2 [| c3 [| c4 [| c5 [| c6 s]]]]]]; try discriminate.
  - unfold TimePattern.matches in H.
    apply andb_true_iff in H as [H Hm2]. apply andb_true_iff in H as [H Hm1].
    apply andb_true_iff in H as [Hh Hc].
    apply Ascii.eqb_eq in Hc. subst c2.
    apply inRange_elem in Hh, Hm1, Hm2.
    pose proof readsClock_one_digit_hour as Hall.
    apply (forallb_elem _ _ h) in Hall; [| exact Hh].
    apply (forallb_elem _ _ c3) in Hall; [| exact Hm1].
    apply (forallb_elem _ _ c4) in Hall; [| exact Hm2]. exact Hall.
  - unfold TimePattern.matches in H.
    apply andb_true_iff in H as [H Hm2]. apply andb_true_iff in H as [H Hm1].
    apply andb_true_iff in H as [H Hc].
    apply Ascii.eqb_eq in Hc. subst c3.
    apply inRange_elem in Hm1, Hm2.
    pose proof readsClock_two_digit_hour as Hall.
    apply (forallb_elem _ _ (h, c2)) in Hall.
    + apply (forallb_elem _ _ c4) in Hall; [| exact Hm1].
      apply (forallb_elem _ _ c5) in Hall; [| exact Hm2]. exact Hall.
    + apply orb_true_iff in H as [H | H]; apply andb_true_iff in H as [Hh Hc].
      * apply inRange_elem in Hh, Hc.
        assert (Hcases : h = "0"%char ∨ h = "1"%char).
        { unfold charsBetween in Hh. cbn in Hh.
          apply elem_of_cons in Hh as [-> | Hh]; [by left |].
          apply list_elem_of_singleton in Hh as ->. by right. }
        destruct Hcases as [-> | ->].
        -- apply elem_of_app. left. by apply (list_elem_of_fmap_2 _ _ c2).
        -- apply elem_of_app. right. apply elem_of_app. left.
           by apply (list_elem_of_fmap_2 _ _ c2).
      * apply Ascii.eqb_eq in Hh. subst h. apply inRange_elem in Hc.
        apply elem_of_app. right. apply elem_of_app. right.
        by apply (list_elem_of_fmap_2 _ _ c2).
Qed.

Lemma readsClock_parts (s : string) :
  readsClock s = true →
  ∃ h m, JS.parsePart s 0 = Some h ∧ JS.parsePart s 1 = Some m
         ∧ minutes s = Some (60 * h + m)
         ∧ 0 <= h <= 23 ∧ 0 <= m <= 59.
Proof.
  unfold readsClock. intros H.
  destruct (JS.parsePart s 0) as [h |]; [| discriminate].
  destruct (JS.parsePart s 1) as [m |]; [| discriminate].
  destruct (minutes s) as [t |]; [| discriminate].
  exists h, m. repeat (apply andb_true_iff in H as [H ?]).
  repeat split; try reflexivity; try lia. f_equal. lia.
Qed.

Lemma readsClock_parts_of_matches (s : string) :
  TimePattern.matches s = true →
  ∃ h m, JS.parsePart s 0 = Some h ∧ JS.parsePart s 1 = Some m
         ∧ minutes s = Some (60 * h + m)
         ∧ 0 <= h <= 23 ∧ 0 <= m <= 59.
Proof. intros H. by apply readsClock_parts, matches_readsClock. Qed.

(** X26. A time that passes the pattern of the request bodies,
    [/^([0-1]?[0-9]|2[0-3]):[0-5][0-9]$/], is read by the services as an
    hour from 0 to 23 and a minute from 0 to 59: neither part is [NaN], and
    the minutes since midnight are 60 times the hour plus the minute, below
    1440. *)
Theorem validated_time_parses (s : string) :
  TimePattern.matches s = true →
  ∃ h m, JS.parsePart s 0 = Some h ∧ JS.parsePart s 1 = Some m
         ∧ minutes s = Some (60 * h + m)
         ∧ 0 <= h <= 23 ∧ 0 <= m <= 59 ∧ 0 <= 60 * h + m < 1440.
Proof.
  intros H. apply readsClock_parts_of_matches in H
    as (h & m & Hh & Hm & Ht & Hhr & Hmr).
  exists h, m. repeat split; first [assumption | lia].
Qed.

(** X27. With both times of the request passing the pattern, [create] never
    fails on the total (no [ValidationError]), and a booking it stores is
    charged by whole hours of the clock: the total is the hour of the end
    minus the hour of the start, times the price per hour, whatever the
    minutes; so a slot inside one hour of the clock costs nothing, and an end
    at or before the start is stored with a total that is not positive. *)
Theorem validated_create_charges_clock_hours (tz : Z) (st : Store)
    (dto : CreateBookingDto.t) (userId : ObjectId) :
  TimePattern.matches (CreateBookingDto.startTime dto) = true →
  TimePattern.matches (CreateBookingDto.endTime dto) = true →
  (∀ message st',
     create tz dto userId st ≠ (inl (ValidationError message), st'))
  ∧ (∀ id b st',
       create tz dto userId st = (inr (id, b), st') →
       ∃ venue startHour startMinute endHour endMinute,
         venueModel st !! CreateBookingDto.venueId dto = Some venue
         ∧ minutes (Booking.startTime b) = Some (60 * startHour + startMinute)
         ∧ minutes (Booking.endTime b) = Some (60 * endHour + endMinute)
         ∧ 0 <= startMinute <= 59 ∧ 0 <= endMinute <= 59
         ∧ Booking.totalAmount b
             = (endHour - startHour) * Venue.pricePerHour venue
         ∧ (0 <= Venue.pricePerHour venue →
            60 * endHour + endMinute <= 60 * startHour + startMinute →
            Booking.totalAmount b <= 0)).
Proof.
  intros Hstart Hend.
  apply readsClock_parts_of_matches in Hstart
    as (hs & ms & Hhs & Hms & Hts & Hhsr & Hmsr).
  apply readsClock_parts_of_matches in Hend
    as (he & me & Hhe & Hme & Hte & Hher & Hmer).
  assert (Hprice : ∀ venue,
            price (CreateBookingDto.startTime dto) (CreateBookingDto.endTime dto)
              venue = Some ((he - hs) * Venue.pricePerHour venue)).
  { intros venue. unfold price. rewrite Hhs, Hhe. reflexivity. }
  split.
  - intros message st' Hrun. unfold create in Hrun. run.
    destruct (venueModel st !! CreateBookingDto.venueId dto) as [venue |] eqn:Hv;
      [| discriminate].
    destruct (checkAvailability_bool tz st (CreateBookingDto.venueId dto)
                (CreateBookingDto.eventDate dto) (CreateBookingDto.startTime dto)
                (CreateBookingDto.endTime dto) venue Hv) as (r & Havail).
    destruct (negb (Venue.isActive venue)); [discriminate |].
    destruct (_ || _); [discriminate |].
    rewrite Havail in Hrun. destruct r; cbn [negb] in Hrun; [| discriminate].
    rewrite Hprice in Hrun. discriminate.
  - intros id b st' Hrun.
    apply create_returns in Hrun
      as (venue & Hv & _ & _ & _ & Htotal & _ & _ & _ & _ & _ & Hs & He & _).
    rewrite Hprice in Htotal. injection Htotal as Htotal.
    exists venue, hs, ms, he, me. rewrite Hs, He.
    repeat (split; [first [assumption | lia | congruence] |]).
    intros Hp Hle. rewrite <- Htotal.
    apply Z.mul_nonpos_nonneg; lia.
Qed.

(** ** The pattern of the request bodies and the times of day *)

Lemma isTimeb_one_digit_hour :
  forallb (λ h,
    forallb (λ m1,
      forallb (λ m2,
        isTimeb (String h (String ":" (String m1 (String m2 EmptyString)))))
        (charsBetween 48 57))
      (charsBetween 48 53))
    (charsBetween 48 57) = true.
Proof. vm_compute. reflexivity. Qed.

Lemma isTimeb_two_digit_hour :
  forallb (λ hh,
    forallb (λ m1,
      forallb (λ m2,
        isTimeb (String hh.1 (String hh.2
                   (String ":" (String m1 (String m2 EmptyString))))))
        (charsBetween 48 57))
      (charsBetween 48 53))
    (((λ h2, ("0"%char, h2)) <$> charsBetween 48 57)
     ++ ((λ h2, ("1"%char, h2)) <$> charsBetween 48 57)
     ++ ((λ h2, ("2"%char, h2)) <$> charsBetween 48 51))%list = true.
Proof. vm_compute. reflexivity. Qed.

Lemma matches_isTimeb (s : string) :
  TimePattern.matches s = true → isTimeb s = true.
Proof.
  intros H.
  destruct s as [| h [| c2 [| c3 [| c4 [| c5 [| c6 s]]]]]]; try discriminate.
  - unfold TimePattern.matches in H.
    apply andb_true_iff in H as [H Hm2]. apply andb_true_iff in H as [H Hm1].
    apply andb_true_iff in H as [Hh Hc].
    apply Ascii.eqb_eq in Hc. subst c2.
    apply inRange_elem in Hh, Hm1, Hm2.
    pose proof isTimeb_one_digit_hour as Hall.
    apply (forallb_elem _ _ h) in Hall; [| exact Hh].
    apply (forallb_elem _ _ c3) in Hall; [| exact Hm1].
    apply (forallb_elem _ _ c4) in Hall; [| exact Hm2]. exact Hall.
  - unfold TimePattern.matches in H.
    apply andb_true_iff in H as [H Hm2]. apply andb_true_iff in H as [H Hm1].
    apply andb_true_iff in H as [H Hc].
    apply Ascii.eqb_eq in Hc. subst c3.
    apply inRange_elem in Hm1, Hm2.
    pose proof isTimeb_two_digit_hour as Hall.
    apply (forallb_elem _ _ (h, c2)) in Hall.
    + apply (forallb_elem _ _ c4) in Hall; [| exact Hm1].
      apply (forallb_elem _ _ c5) in Hall; [| exact Hm2]. exact Hall.
    + apply orb_true_iff in H as [H | H]; apply andb_true_iff in H as [Hh Hc].
      * apply inRange_elem in Hh, Hc.
        assert (Hcases : h = "0"%char ∨ h = "1"%char).
        { unfold charsBetween in Hh. cbn in Hh.
          apply elem_of_cons in Hh as [-> | Hh]; [by left |].
          apply list_elem_of_singleton in Hh as ->. by right. }
        destruct Hcases as [-> | ->].
        -- apply elem_of_app. left. by apply (list_elem_of_fmap_2 _ _ c2).
        -- apply elem_of_app. right. apply elem_of_app. left.
           by apply (list_elem_of_fmap_2 _ _ c2).
      * apply Ascii.eqb_eq in Hh. subst h. apply inRange_elem in Hc.
        apply elem_of_app. right. apply elem_of_app. right.
        by apply (list_elem_of_fmap_2 _ _ c2).
Qed.

Lemma isTimeb_isTime (s : string) :
  isTimeb s = true → ∃ h m, isTime s h m.
Proof.
  unfold isTimeb, isTime. intros H.
  destruct (JS.parsePart s 0) as [h |]; [| discriminate].
  destruct (JS.parsePart s 1) as [m |]; [| discriminate].
  exists h, m.
  apply andb_true_iff in H as [H Hs]. apply andb_true_iff in H as [H Hm2].
  apply andb_true_iff in H as [H Hm1]. apply andb_true_iff in H as [Hh1 Hh2].
  split; [lia |]. split; [lia |].
  apply orb_true_iff in Hs as [Hs | Hs].
  - left. by apply String.eqb_eq.
  - right. apply andb_true_iff in Hs as [Hnine Hs].
    split; [lia | by apply String.eqb_eq].
Qed.

Lemma clock_matches_table :
  forallb (λ h,
    forallb (λ m,
      TimePattern.matches (clock h m)
      && ((9 <? h) || TimePattern.matches (shortClock h m)))
      (seqZ 0 60))
    (seqZ 0 24) = true.
Proof. vm_compute. reflexivity. Qed.

(** X28. The pattern of the time fields in the request bodies accepts exactly
    the times of day: a text passes [/^([0-1]?[0-9]|2[0-3]):[0-5][0-9]$/]
    exactly when it is an hour from 0 to 23, in two digits or, below ten, in
    one, a colon, and a minute from 0 to 59 in two digits; and the services
    read such a text as that hour and that minute. *)
Theorem pattern_accepts_times_of_day (s : string) :
  (TimePattern.matches s = true ↔ ∃ h m, isTime s h m)
  ∧ (∀ h m, isTime s h m →
            JS.parsePart s 0 = Some h ∧ JS.parsePart s 1 = Some m
            ∧ minutes s = Some (60 * h + m)).
Proof.
  split; [split |].
  - intros H. by apply isTimeb_isTime, matches_isTimeb.
  - intros (h & m & Hh & Hm & Hs).
    pose proof clock_matches_table as Hall.
    rewrite forallb_forall in Hall.
    specialize (Hall h). rewrite <- list_elem_of_In, elem_of_seqZ in Hall.
    specialize (Hall ltac:(lia)). rewrite forallb_forall in Hall.
    specialize (Hall m). rewrite <- list_elem_of_In, elem_of_seqZ in Hall.
    specialize (Hall ltac:(lia)). apply andb_true_iff in Hall as [Hlong Hshort].
    destruct Hs as [-> | [Hnine ->]]; [exact Hlong |].
    apply orb_true_iff in Hshort as [Hlt | Hshort]; [lia | exact Hshort].
  - intros h m Htime. apply isTime_readAs in Htime. unfold readAs in Htime.
    destruct (JS.parsePart s 0) as [h' |]; [| discriminate].
    destruct (JS.parsePart s 1) as [m' |]; [| discriminate].
    destruct (minutes s) as [t |]; [| discriminate].
    apply andb_true_iff in Htime as [Htime Ht].
    apply andb_true_iff in Htime as [Hh Hm].
    repeat split; f_equal; lia.
Qed.

(** * Instances and counterexamples on the sample data *)

(** C1: the success callback of a [BALANCE] payment of 32000, repeated once
    the payment is [COMPLETED], credits the 32000 a second time. *)
Lemma verify_repeat_double_credit :
  Payment.status <$> paymentModel Sample.verifiedOnce = [TX_COMPLETED]
  ∧ Booking.advancePaid <$> bookingModel Sample.verifiedOnce !! 100%nat
      = Some 40000
  ∧ (∃ result,
       (verifyEsewaPayment (Some Sample.esewaSuccess) Sample.verifiedOnce).1
         = inr result
       ∧ success result = true)
  ∧ Booking.advancePaid <$> bookingModel Sample.verifiedTwice !! 100%nat
      = Some 72000.
Proof.
  split; [vm_compute; reflexivity |].
  split; [vm_compute; reflexivity |].
  split; [| vm_compute; reflexivity].
  eexists. split; vm_compute; reflexivity.
Qed.

(** C1: an [ADVANCE] payment of 8000 that is [COMPLETED], on a booking that
    still holds what its verification wrote; the callback comes again. *)
Lemma verify_repeat_reapplies_witness :
  ∃ result st',
    verifyEsewaPayment (Some Sample.esewaSuccess)
      (Sample.store (Sample.booking 10%nat 40000 8000 CONFIRMED PARTIAL)
         [Sample.payment ADVANCE 8000 TX_COMPLETED (Some "000AWEO")])
      = (inr result, st')
    ∧ success result = true
    ∧ reapplied (Sample.payment ADVANCE 8000 TX_COMPLETED (Some "000AWEO"))
        (Sample.booking 10%nat 40000 8000 CONFIRMED PARTIAL) st'.
Proof.
  refine (proj1 (verify_repeat_reapplies ""
                   (Sample.store (Sample.booking 10%nat 40000 8000 CONFIRMED PARTIAL)
                      [Sample.payment ADVANCE 8000 TX_COMPLETED (Some "000AWEO")])
                   (Sample.payment ADVANCE 8000 TX_COMPLETED (Some "000AWEO"))
                   (Sample.booking 10%nat 40000 8000 CONFIRMED PARTIAL)
                   Sample.esewaSuccess "" None _ _ _) _ _).
  - reflexivity.
  - vm_compute. reflexivity.
  - vm_compute. repeat split.
  - vm_compute. reflexivity.
  - reflexivity.
Defined.




(** C4: the user moves the only booking of the day, 10:00-12:00, one hour
    later; the new slot overlaps nothing but the booking's own slot, and the
    request is refused. *)
Lemma reschedule_own_slot_refused :
  bookingModel Sample.pending
    = {[ 100%nat := Sample.booking 10%nat 10000 0 PENDING UNPAID ]}
  ∧ (reschedule Sample.kathmandu 100%nat Sample.oneHourLater 1%nat
       Sample.pending).1
      = inl (BadRequestException "The new date/time is not available").
Proof. split; [reflexivity | vm_compute; reflexivity]. Qed.

(** C4: one hour later is refused, 13:00-15:00 on the same day is accepted. *)
Lemma reschedule_checks_own_slot_witness :
  reschedule Sample.kathmandu 100%nat Sample.oneHourLater 1%nat Sample.pending
    = (inl (BadRequestException "The new date/time is not available"),
       Sample.pending)
  ∧ ∃ b', reschedule Sample.kathmandu 100%nat Sample.afternoon 1%nat
            Sample.pending = (inr b', withBooking 100%nat b' Sample.pending)
          ∧ Booking.startTime b' = "13:00"
          ∧ Booking.totalAmount b' = 10000.
Proof.
  split.
  - apply (proj1 (reschedule_checks_own_slot Sample.kathmandu Sample.pending
                    100%nat 1%nat Sample.oneHourLater
                    (Sample.booking 10%nat 10000 0 PENDING UNPAID) Sample.hall
                    eq_refl eq_refl eq_refl (or_introl eq_refl))).
    + reflexivity.
    + exists 660, 780, 600, 720. vm_compute. repeat split.
  - destruct (proj2 (reschedule_checks_own_slot Sample.kathmandu Sample.pending
                       100%nat 1%nat Sample.afternoon
                       (Sample.booking 10%nat 10000 0 PENDING UNPAID) Sample.hall
                       eq_refl eq_refl eq_refl (or_introl eq_refl)) 10000)
      as (b' & Hrun & _ & Hstart & _ & Htotal & _).
    + intros d Hd. apply list_elem_of_singleton in Hd as ->.
      vm_compute. discriminate.
    + intros id' b' Hlookup _ _ _ (ns & ne & es & ee & Hns & Hne & Hes & Hee & H1 & H2).
      change (bookingModel Sample.pending)
        with ({[ 100%nat := Sample.booking 10%nat 10000 0 PENDING UNPAID ]}
              : gmap ObjectId Booking.t) in Hlookup.
      apply lookup_singleton_Some in Hlookup as [_ <-].
      vm_compute in Hns, Hne, Hes, Hee. simplify_eq. lia.
    + reflexivity.
    + exists b'. done.
Defined.

(** C5: the seeded policy, 30 hours to go, 10000 paid. *)
Lemma calculateRefund_tiers_witness :
  refundPercentage
    (calculateRefund (Sample.booking 10%nat 40000 10000 CONFIRMED PARTIAL)
       Sample.hall (Sample.march15 - 30 * msPerHour)) = 50
  ∧ refundAmount
      (calculateRefund (Sample.booking 10%nat 40000 10000 CONFIRMED PARTIAL)
         Sample.hall (Sample.march15 - 30 * msPerHour)) = 5000.
Proof.
  refine (proj2 (proj2 (proj2 (proj2 (proj2
            (calculateRefund_tiers
               (Sample.booking 10%nat 40000 10000 CONFIRMED PARTIAL)
               Sample.hall (Sample.march15 - 30 * msPerHour) _ _ _)))))
            _ _ _ _ _);
    vm_compute; first [reflexivity | discriminate].
Defined.

(** C6: a full payment of 40000 through eSewa, initiated and then verified
    by the success callback. *)
Lemma payment_applied_to_booking_witness :
  ∃ result st2,
    verifyEsewaPayment (Some Sample.esewaSuccess)
      (initiatePayment "" (Sample.payDto FULL 40000) 1%nat 1773000000000
         "0A1B2C3D" None Sample.unpaid).2
      = (inr result, st2)
    ∧ success result = true
    ∧ paidInFull 100%nat st2.
Proof.
  exact (proj2 (payment_applied_to_booking ""
                  Sample.unpaid
                  (initiatePayment "" (Sample.payDto FULL 40000) 1%nat
                     1773000000000 "0A1B2C3D" None Sample.unpaid).2
                  (Sample.payment FULL 40000 TX_INITIATED None)
                  (Sample.booking 10%nat 40000 0 PENDING UNPAID)
                  (Sample.payDto FULL 40000) 1%nat 1773000000000 "0A1B2C3D" None
                  (EsewaForm 0%nat "PAY-1773000000000-0A1B2C3D" 40000)
                  eq_refl)
               eq_refl eq_refl Sample.esewaSuccess eq_refl eq_refl).
Defined.

(** C7: 10:00 to 18:00 in the hall at 5000 per hour. *)
Lemma create_total_and_defaults_witness :
  ∃ id b,
    create Sample.kathmandu Sample.createDto 1%nat Sample.emptyStore
      = (inr (id, b), withBooking id b Sample.emptyStore)
    ∧ Booking.totalAmount b = 40000
    ∧ Booking.status b = PENDING
    ∧ Booking.paymentStatus b = UNPAID
    ∧ Booking.balanceAmount b = 40000.
Proof.
  destruct (proj1 (create_total_and_defaults Sample.kathmandu Sample.emptyStore
                     Sample.createDto 1%nat Sample.hall 10 18
                     eq_refl eq_refl (conj (proj1 (Z.leb_le 50 200) eq_refl)
                                           (proj1 (Z.leb_le 200 500) eq_refl))
                     eq_refl eq_refl eq_refl))
    as (id & b & Hrun & _ & _ & Hstatus & Hpay & _ & Hbal & Hscenario).
  exists id, b. rewrite Hbal, (Hscenario eq_refl eq_refl eq_refl). done.
Defined.

(** C8: an advance of 5000 on a total of 40000. *)
Lemma initiatePayment_amount_rules_witness :
  initiatePayment "" (Sample.payDto ADVANCE 5000) 1%nat 1773000000000
    "0A1B2C3D" None Sample.unpaid
    = (inl (BadRequestException
              "Advance payment must be at least 20% of total amount"),
       Sample.unpaid).
Proof.
  exact (proj2 (proj2 (proj2
           (initiatePayment_amount_rules "" (Sample.payDto ADVANCE 5000) 1%nat
              1773000000000 "0A1B2C3D" None Sample.unpaid
              (Sample.booking 10%nat 40000 0 PENDING UNPAID) eq_refl eq_refl)))
           eq_refl eq_refl eq_refl).
Defined.

(** C9: the estimate for the sample booking, asked twice. *)
Lemma getRefundEstimate_pure_witness :
  (getRefundEstimate 100%nat 1%nat Sample.march15 Sample.pending).2
    = Sample.pending
  ∧ getRefundEstimate 100%nat 1%nat Sample.march15
      (getRefundEstimate 100%nat 1%nat Sample.march15 Sample.pending).2
    = getRefundEstimate 100%nat 1%nat Sample.march15 Sample.pending.
Proof.
  destruct (getRefundEstimate_pure Sample.pending Sample.pending 100%nat 1%nat
              1%nat Sample.march15
              (Sample.booking 10%nat 10000 0 PENDING UNPAID)
              (Sample.booking 10%nat 10000 0 PENDING UNPAID)
              Sample.hall Sample.hall
              eq_refl eq_refl eq_refl eq_refl eq_refl eq_refl eq_refl eq_refl
              eq_refl)
    as (Hframe & _ & _ & _ & Hagain).
  exact (conj Hframe Hagain).
Defined.


(** ** Instances of the further properties *)

Lemma noDoubleBooking_empty (tz : Z) : noDoubleBooking tz Sample.emptyStore.
Proof.
  intros i j b1 b2 _ Hi. unfold Sample.emptyStore in Hi.
  cbn [bookingModel] in Hi. by rewrite lookup_empty in Hi.
Qed.

Lemma lookup_sample_store (b b0 : Booking.t) (payments : list Payment.t)
    (id : ObjectId) :
  bookingModel (Sample.store b payments) !! id = Some b0 → id = 100%nat.
Proof.
  unfold Sample.store. cbn [bookingModel]. intros H.
  apply lookup_insert_Some in H as [[<- _] | [_ H]]; [reflexivity |].
  by rewrite lookup_empty in H.
Qed.

Lemma noDoubleBooking_single (tz : Z) (b : Booking.t) (payments : list Payment.t) :
  noDoubleBooking tz (Sample.store b payments).
Proof.
  intros i j b1 b2 Hij Hi Hj.
  apply lookup_sample_store in Hi, Hj. congruence.
Qed.

Lemma slotFree_single (tz : Z) (b : Booking.t) (payments : list Payment.t)
    (venueId : ObjectId) (date : Date) (startTime endTime : string) :
  slotFree tz (Sample.store b payments) (Some 100%nat) venueId date
    startTime endTime.
Proof.
  intros id b0 Hb Hne. apply lookup_sample_store in Hb. by subst id.
Qed.

Lemma hall_open_march15 : notBlocked Sample.hall Sample.march15.
Proof.
  intros d Hd. apply list_elem_of_singleton in Hd as ->. vm_compute. discriminate.
Qed.

(** X1: the seeded policy, 30 hours to go, 10000 paid. *)
Lemma refund_within_paid_witness :
  0 <= refundAmount
         (calculateRefund (Sample.booking 10%nat 40000 10000 CONFIRMED PARTIAL)
            Sample.hall (Sample.march15 - 30 * msPerHour))
    <= 10000.
Proof.
  refine (proj1 (proj2
            (refund_within_paid
               (Sample.booking 10%nat 40000 10000 CONFIRMED PARTIAL)
               Sample.hall (Sample.march15 - 30 * msPerHour) _ _)));
    vm_compute; first [discriminate | split; discriminate].
Defined.

(** X2: cancelling 30 hours before the event against 80 hours before. *)
Lemma refund_never_grows_with_delay_witness :
  refundAmount
    (calculateRefund (Sample.booking 10%nat 40000 10000 CONFIRMED PARTIAL)
       Sample.hall (Sample.march15 - 30 * msPerHour))
  <= refundAmount
       (calculateRefund (Sample.booking 10%nat 40000 10000 CONFIRMED PARTIAL)
          Sample.hall (Sample.march15 - 80 * msPerHour)).
Proof.
  refine (proj2
            (refund_never_grows_with_delay
               (Sample.booking 10%nat 40000 10000 CONFIRMED PARTIAL)
               Sample.hall (Sample.march15 - 80 * msPerHour)
               (Sample.march15 - 30 * msPerHour) _ _ _ _));
    vm_compute; first [discriminate | split; discriminate].
Defined.

(** X3: 10:00 to 18:00 in the hall while it is booked from 10:00 to 12:00. *)
Lemma create_refusals_witness :
  create Sample.kathmandu Sample.createDto 1%nat Sample.pending
    = (inl (BadRequestException
              "Venue is not available for the selected date and time"),
       Sample.pending).
Proof.
  refine (proj2 (proj2
            (proj1 (proj2 (create_refusals Sample.kathmandu Sample.pending
                             Sample.createDto 1%nat))
               Sample.hall eq_refl)) eq_refl _ _).
  - vm_compute. split; discriminate.
  - vm_compute. reflexivity.
Defined.

(** X4: the hall is booked from 10:00 to 12:00 and a second customer books
    13:00 to 15:00; and the request for 10:00 to 18:00 arrives twice, from
    two customers, the second check running before the first save. *)
Lemma create_keeps_bookings_apart_witness :
  (∃ id b,
     create Sample.kathmandu Sample.afternoonDto 3%nat Sample.pending
       = (inr (id, b), withBooking id b Sample.pending)
     ∧ id ≠ 100%nat
     ∧ noDoubleBooking Sample.kathmandu (withBooking id b Sample.pending))
  ∧ (∃ id1 id2 b1 b2,
       create_document Sample.kathmandu Sample.createDto 1%nat Sample.emptyStore
         = (inr b1, Sample.emptyStore)
       ∧ create_document Sample.kathmandu Sample.createDto 3%nat
           Sample.emptyStore = (inr b2, Sample.emptyStore)
       ∧ id1 ≠ id2
       ∧ ¬ noDoubleBooking Sample.kathmandu
             (withBooking id2 b2 (withBooking id1 b1 Sample.emptyStore))).
Proof.
  split.
  - destruct (create Sample.kathmandu Sample.afternoonDto 3%nat Sample.pending)
      as [[e | [id b]] st'] eqn:Hrun; [vm_compute in Hrun; discriminate |].
    pose proof (create_returns _ _ _ _ _ _ _ Hrun)
      as (_ & _ & _ & _ & _ & _ & Hnew & -> & _).
    exists id, b. split; [reflexivity |]. split.
    + intros ->. vm_compute in Hnew. discriminate.
    + exact (proj1 (create_keeps_bookings_apart Sample.kathmandu Sample.pending)
               Sample.afternoonDto 3%nat id b _
               (noDoubleBooking_single Sample.kathmandu _ _) Hrun).
  - destruct (create_document Sample.kathmandu Sample.createDto 1%nat
                Sample.emptyStore) as [[e | b1] st1] eqn:H1;
      [vm_compute in H1; discriminate |].
    destruct (create_document_returns _ _ _ _ _ _ H1)
      as (-> & _ & Hv1 & Hd1 & Hs1 & He1).
    destruct (create_document Sample.kathmandu Sample.createDto 3%nat
                Sample.emptyStore) as [[e | b2] st2] eqn:H2;
      [vm_compute in H2; discriminate |].
    destruct (create_document_returns _ _ _ _ _ _ H2)
      as (-> & _ & Hv2 & Hd2 & Hs2 & He2).
    destruct (proj2 (proj2 (create_keeps_bookings_apart Sample.kathmandu
                              Sample.emptyStore))
                Sample.createDto 1%nat Sample.createDto 3%nat b1 b2 H1 H2)
      as (id1 & id2 & Hne & _ & _ & Hdouble).
    exists id1, id2, b1, b2. split; [reflexivity |]. split; [reflexivity |].
    split; [exact Hne |]. apply Hdouble; [congruence | congruence |].
    exists 600, 1080, 600, 1080. rewrite Hs1, He1, Hs2, He2.
    vm_compute. repeat split.
Defined.

(** X5: the same request sent again by another user. *)
Lemma created_slot_is_taken_witness :
  ∃ id b,
    create Sample.kathmandu Sample.createDto 1%nat Sample.emptyStore
      = (inr (id, b), withBooking id b Sample.emptyStore)
    ∧ create Sample.kathmandu Sample.createDto 3%nat
        (withBooking id b Sample.emptyStore)
      = (inl (BadRequestException
                "Venue is not available for the selected date and time"),
         withBooking id b Sample.emptyStore).
Proof.
  destruct (create_succeeds Sample.kathmandu Sample.emptyStore Sample.createDto
              1%nat Sample.hall 40000 eq_refl eq_refl
              (conj (proj1 (Z.leb_le 50 200) eq_refl)
                    (proj1 (Z.leb_le 200 500) eq_refl))
              eq_refl eq_refl) as (id & b & Hrun & _).
  exists id, b. split; [exact Hrun |].
  exact (proj2 (created_slot_is_taken Sample.kathmandu Sample.emptyStore _
                  Sample.createDto 1%nat id b 600 1080 Hrun eq_refl eq_refl
                  eq_refl) 3%nat).
Defined.

(** X6: from 18:00 to 10:00 in the hall. *)
Lemma create_end_before_start_witness :
  ∃ id b,
    create Sample.kathmandu Sample.backwards 1%nat Sample.emptyStore
      = (inr (id, b), withBooking id b Sample.emptyStore)
    ∧ Booking.totalAmount b < 0
    ∧ Booking.balanceAmount b < 0.
Proof.
  destruct (create_end_before_start Sample.kathmandu Sample.emptyStore
              Sample.backwards 1%nat Sample.hall 18 10 eq_refl eq_refl
              (conj (proj1 (Z.leb_le 50 200) eq_refl)
                    (proj1 (Z.leb_le 200 500) eq_refl))
              eq_refl eq_refl eq_refl eq_refl)
    as (id & b & Hrun & Hbefore & _).
  exists id, b. split; [exact Hrun | exact (Hbefore eq_refl)].
Defined.

Lemma twoBookings_apart : noDoubleBooking Sample.kathmandu Sample.twoBookings.
Proof.
  unfold Sample.twoBookings.
  destruct (create Sample.kathmandu Sample.afternoonDto 3%nat Sample.pending)
    as [[e | [id b]] st'] eqn:Hrun; [vm_compute in Hrun; discriminate |].
  exact (create_alone_apart Sample.kathmandu Sample.pending st'
           Sample.afternoonDto 3%nat id b
           (noDoubleBooking_single Sample.kathmandu _ _) Hrun).
Qed.

(** X7: with the hall booked from 10:00 to 12:00 and from 13:00 to 15:00,
    the first booking is moved to 16:00; and the first booking, alone, is
    moved to 13:00 while another customer asks for 13:00 to 15:00, both
    checks running before either save. *)
Lemma reschedule_keeps_bookings_apart_witness :
  (∃ b', reschedule Sample.kathmandu 100%nat Sample.evening 1%nat
           Sample.twoBookings
         = (inr b', withBooking 100%nat b' Sample.twoBookings)
         ∧ noDoubleBooking Sample.kathmandu
             (withBooking 100%nat b' Sample.twoBookings))
  ∧ (∃ id2 b' b2,
       reschedule_document Sample.kathmandu 100%nat Sample.afternoon 1%nat
         Sample.pending = (inr b', Sample.pending)
       ∧ create_document Sample.kathmandu Sample.afternoonDto 3%nat
           Sample.pending = (inr b2, Sample.pending)
       ∧ id2 ≠ 100%nat
       ∧ ¬ noDoubleBooking Sample.kathmandu
             (withBooking 100%nat b' (withBooking id2 b2 Sample.pending))).
Proof.
  split.
  - destruct (reschedule Sample.kathmandu 100%nat Sample.evening 1%nat
                Sample.twoBookings) as [[e | b'] st'] eqn:Hrun;
      [vm_compute in Hrun; discriminate |].
    pose proof (reschedule_returns _ _ _ _ _ _ _ Hrun)
      as (_ & _ & _ & _ & _ & _ & _ & _ & -> & _).
    exists b'. split; [reflexivity |].
    exact (proj1 (reschedule_keeps_bookings_apart Sample.kathmandu
                    Sample.twoBookings)
             100%nat 1%nat Sample.evening b' _ twoBookings_apart Hrun).
  - destruct (reschedule_document Sample.kathmandu 100%nat Sample.afternoon
                1%nat Sample.pending) as [[e | b'] st1] eqn:H1;
      [vm_compute in H1; discriminate |].
    destruct (reschedule_document_returns _ _ _ _ _ _ _ H1) as (-> & _ & _).
    destruct (create_document Sample.kathmandu Sample.afternoonDto 3%nat
                Sample.pending) as [[e | b2] st2] eqn:H2;
      [vm_compute in H2; discriminate |].
    destruct (create_document_returns _ _ _ _ _ _ H2)
      as (-> & _ & Hv2 & Hd2 & Hs2 & He2).
    destruct (proj2 (proj2 (reschedule_keeps_bookings_apart Sample.kathmandu
                              Sample.pending))
                100%nat 1%nat Sample.afternoon b' Sample.afternoonDto 3%nat b2
                H1 H2)
      as (id2 & Hne & _ & _ & Hdouble).
    exists id2, b', b2. split; [reflexivity |]. split; [reflexivity |].
    split; [exact Hne |].
    vm_compute in H1. injection H1 as <-.
    apply Hdouble; [by rewrite Hv2 | by rewrite Hd2 |].
    exists 780, 900, 780, 900. rewrite Hs2, He2.
    vm_compute. repeat split.
Defined.

(** X8: another user tries to move the booking. *)
Lemma reschedule_refusals_witness :
  reschedule Sample.kathmandu 100%nat Sample.afternoon 3%nat Sample.pending
    = (inl (ForbiddenException "You can only reschedule your own bookings"),
       Sample.pending).
Proof.
  refine (proj1 (proj1 (proj2 (reschedule_refusals Sample.kathmandu
                                 Sample.pending 100%nat 3%nat Sample.afternoon))
                   (Sample.booking 10%nat 10000 0 PENDING UNPAID) eq_refl) _).
  discriminate.
Defined.

(** X9: with 20000 paid, the booking is moved to two hours in the
    afternoon. *)
Lemma reschedule_keeps_payment_state_witness :
  ∃ b', (reschedule Sample.kathmandu 100%nat Sample.afternoon 1%nat
           Sample.halfPaid).1 = inr b'
        ∧ Booking.paymentStatus b' = PARTIAL
        ∧ Booking.advancePaid b' = 20000
        ∧ Booking.balanceAmount b' = Booking.totalAmount b' - 20000.
Proof.
  destruct (reschedule Sample.kathmandu 100%nat Sample.afternoon 1%nat
              Sample.halfPaid) as [[e | b'] st'] eqn:Hrun;
    [vm_compute in Hrun; discriminate |].
  destruct (reschedule_keeps_payment_state Sample.kathmandu Sample.halfPaid st'
              100%nat 1%nat Sample.afternoon
              (Sample.booking 10%nat 40000 20000 CONFIRMED PARTIAL) b'
              eq_refl Hrun)
    as (_ & _ & _ & _ & Hps & Hadv & Hbal & _).
  exists b'. split; [reflexivity |]. split; [exact Hps |].
  split; [exact Hadv | exact Hbal].
Defined.

(** X10: the owner of the hall, user 2, confirms the booking of the hall and
    is refused; once that account is deleted, the administrator's request
    fails. *)
Lemma updateStatus_permissions_witness :
  updateStatus 100%nat Sample.confirmDto 2%nat "OWNER" Sample.march15
    Sample.pending
    = (inl (ForbiddenException
              "You do not have permission to update this booking"),
       Sample.pending)
  ∧ updateStatus 100%nat Sample.confirmDto 99%nat "ADMIN" Sample.march15
      Sample.ownerGone
    = (inl (TypeError "Cannot read properties of null (reading 'toString')"),
       Sample.ownerGone).
Proof.
  split.
  - refine (proj1 (proj2 (proj2
              (proj1 (updateStatus_permissions Sample.pending 100%nat 2%nat
                        Sample.confirmDto "OWNER" Sample.march15
                        (Sample.booking 10%nat 10000 0 PENDING UNPAID)
                        Sample.hall eq_refl eq_refl)
                 (ex_intro _ Sample.owner eq_refl)))) eq_refl _ _);
      discriminate.
  - exact (proj2 (updateStatus_permissions Sample.ownerGone 100%nat 99%nat
                    Sample.confirmDto "ADMIN" Sample.march15
                    (Sample.booking 10%nat 10000 0 PENDING UNPAID) Sample.hall
                    eq_refl eq_refl) eq_refl).
Defined.

(** X11: the user of an unpaid booking marks it [PAID]. *)
Lemma updateStatus_sets_paymentStatus_witness :
  ∃ b' st',
    updateStatus 100%nat Sample.markPaid 1%nat "USER" Sample.march15
      Sample.unpaid = (inr b', st')
    ∧ Booking.paymentStatus b' = PAID
    ∧ Booking.advancePaid b' = 0
    ∧ Booking.balanceAmount b' = 40000.
Proof.
  destruct (updateStatus_sets_paymentStatus Sample.unpaid 100%nat 1%nat
              Sample.markPaid "USER" Sample.march15
              (Sample.booking 10%nat 40000 0 PENDING UNPAID) Sample.hall PAID
              eq_refl eq_refl (ex_intro _ Sample.owner eq_refl) eq_refl
              (or_introl eq_refl) eq_refl)
    as (b' & st' & Hrun & _ & Hps & Hadv & Hbal & _).
  exists b', st'. split; [exact Hrun |]. split; [exact Hps |].
  split; [exact Hadv | exact Hbal].
Defined.


(** X13: the owner of the hall, user 2, deletes the pending booking of the
    hall and is refused; the user of the booking deletes it. *)
Lemma deleteBooking_only_pending_witness :
  deleteBooking 100%nat 2%nat "OWNER" Sample.pending
    = (inl (ForbiddenException
              "You do not have permission to delete this booking"),
       Sample.pending)
  ∧ ∃ st', deleteBooking 100%nat 1%nat "USER" Sample.pending
             = (inr "Booking deleted successfully", st')
           ∧ bookingModel st' !! 100%nat = None.
Proof.
  pose proof (proj1 (proj1 (proj2 (deleteBooking_only_pending Sample.pending
                                     100%nat 2%nat "OWNER"))
                       (Sample.booking 10%nat 10000 0 PENDING UNPAID)
                       Sample.hall eq_refl eq_refl)
                (ex_intro _ Sample.owner eq_refl))
    as (_ & _ & _ & Howner).
  pose proof (proj1 (proj1 (proj2 (deleteBooking_only_pending Sample.pending
                                     100%nat 1%nat "USER"))
                       (Sample.booking 10%nat 10000 0 PENDING UNPAID)
                       Sample.hall eq_refl eq_refl)
                (ex_intro _ Sample.owner eq_refl))
    as (Huser & _).
  split.
  - apply Howner; [reflexivity | discriminate | discriminate].
  - destruct (Huser (or_intror eq_refl) eq_refl) as (st' & Hrun & Hgone & _).
    exists st'. split; [exact Hrun | exact Hgone].
Defined.

(** X14: the slot of the deleted booking. *)
Lemma deleted_slot_is_free_witness :
  (checkAvailability Sample.kathmandu 10%nat Sample.march15 "10:00" "12:00"
     (deleteBooking 100%nat 1%nat "USER" Sample.pending).2).1 = inr true.
Proof.
  destruct (deleteBooking 100%nat 1%nat "USER" Sample.pending)
    as [[e | message] st'] eqn:Hrun; [vm_compute in Hrun; discriminate |].
  cbn [snd].
  rewrite (deleted_slot_is_free Sample.kathmandu Sample.pending st' 100%nat
             1%nat "USER" message 10%nat Sample.hall Sample.march15
             "10:00" "12:00" Hrun eq_refl hall_open_march15
             (slotFree_single _ _ _ _ _ _ _)).
  reflexivity.
Defined.

(** X15: the slot of the booking that its user cancelled. *)
Lemma closed_booking_frees_slot_witness :
  (checkAvailability Sample.kathmandu 10%nat Sample.march15 "10:00" "12:00"
     (updateStatus 100%nat Sample.cancelDto 1%nat "USER" Sample.march15
        Sample.pending).2).1 = inr true.
Proof.
  destruct (updateStatus 100%nat Sample.cancelDto 1%nat "USER" Sample.march15
              Sample.pending) as [[e | b'] st'] eqn:Hrun;
    [vm_compute in Hrun; discriminate |].
  cbn [snd].
  rewrite (closed_booking_frees_slot Sample.kathmandu Sample.pending st'
             100%nat 1%nat Sample.cancelDto "USER" Sample.march15 b' 10%nat
             Sample.hall Sample.march15 "10:00" "12:00" Hrun
             (or_introl eq_refl) eq_refl hall_open_march15
             (slotFree_single _ _ _ _ _ _ _)).
  reflexivity.
Defined.

(** X16: the hall on 1 April, which its owner blocked. *)
Lemma getAvailableSlots_agrees_witness :
  getAvailableSlots Sample.kathmandu 10%nat Sample.april1 Sample.pending
    = (inr (NotAvailable "Date is blocked by venue owner" []), Sample.pending).
Proof.
  refine (proj1 (proj1 (getAvailableSlots_agrees Sample.kathmandu Sample.pending
                          10%nat Sample.april1 Sample.hall eq_refl) _)).
  exists Sample.april1. split; [by left | reflexivity].
Defined.

(** X17: the callback of a payment given up arrives after the payment was
    completed. *)
Lemma failed_callback_leaves_bookings_witness :
  ∃ result st',
    verifyEsewaPayment (Some Sample.esewaCanceled) Sample.verifiedOnce
      = (inr result, st')
    ∧ success result = false
    ∧ bookingModel st' = bookingModel Sample.verifiedOnce
    ∧ ∃ p', List.find
              (λ q, bool_decide
                      (Payment.referenceId q = "PAY-1773000000000-0A1B2C3D"))
              (paymentModel st') = Some p'
            ∧ Payment.status p' = TX_FAILED.
Proof.
  destruct (proj1 (failed_callback_leaves_bookings "" Sample.verifiedOnce
                     (complete (Some "000AWEO")
                        (EsewaDecoded Sample.esewaSuccess)
                        (Sample.payment BALANCE 32000 TX_INITIATED None))
                     Sample.esewaCanceled "" 
                     {| lookup_status := ""; transaction_id := "" |})
              eq_refl ltac:(discriminate))
    as (result & st' & Hrun & Hfail & Hbook & p' & Hfind & Hstatus & _).
  exists result, st'. split; [exact Hrun |]. split; [exact Hfail |].
  split; [exact Hbook |]. exists p'. split; [exact Hfind | exact Hstatus].
Defined.

(** X18: a callback for a booking without payments. *)
Lemma unusable_callback_writes_nothing_witness :
  verifyEsewaPayment (Some Sample.esewaSuccess) Sample.unpaid
    = (inl (BadRequestException "Payment verification failed"), Sample.unpaid).
Proof.
  exact (proj1 (proj2 (unusable_callback_writes_nothing "" Sample.unpaid
                         Sample.esewaSuccess "" None
                         (Sample.payment FULL 40000 TX_INITIATED None)))
           eq_refl).
Defined.

(** X19: another user tries to pay for the booking. *)
Lemma initiatePayment_refusals_witness :
  initiatePayment "" (Sample.payDto FULL 40000) 3%nat 1773000000000 "0A1B2C3D"
    None Sample.unpaid
    = (inl (BadRequestException "You can only pay for your own bookings"),
       Sample.unpaid).
Proof.
  refine (proj1 (proj2 (initiatePayment_refusals "" (Sample.payDto FULL 40000)
                          3%nat 1773000000000 "0A1B2C3D" None Sample.unpaid)
                   (Sample.booking 10%nat 40000 0 PENDING UNPAID) eq_refl) _).
  discriminate.
Defined.

Lemma balanceInitiated_distinct : uniquePayments Sample.balanceInitiated.
Proof.
  split.
  - apply (bool_decide_unpack
             (NoDup (Payment._id <$> paymentModel Sample.balanceInitiated))).
    vm_compute. exact I.
  - apply (bool_decide_unpack
             (NoDup (Payment.referenceId
                       <$> paymentModel Sample.balanceInitiated))).
    vm_compute. exact I.
Qed.

(** X20: with the completed advance and the initiated balance in the
    database, a refund of the advance is requested, which creates a third
    payment; and a payment is initiated under the reference id of the
    advance, which the unique index refuses. *)
Lemma payments_stay_distinct_witness :
  (length (paymentModel Sample.balanceInitiated) = 2%nat
   ∧ length (paymentModel
               (initiateRefund 7%nat "event called off" 2%nat 1773000120000
                  "8C9D0E1F" Sample.balanceInitiated).2) = 3%nat
   ∧ uniquePayments
       (initiateRefund 7%nat "event called off" 2%nat 1773000120000
          "8C9D0E1F" Sample.balanceInitiated).2)
  ∧ ((initiatePayment "" (Sample.payDto FULL 40000) 1%nat 1773000000000
        "0A1B2C3D" None Sample.balanceInitiated).1
     = inl (MongoServerError "E11000 duplicate key error")
     ∧ uniquePayments
         (initiatePayment "" (Sample.payDto FULL 40000) 1%nat 1773000000000
            "0A1B2C3D" None Sample.balanceInitiated).2).
Proof.
  pose proof (payments_stay_distinct "" Sample.balanceInitiated
                balanceInitiated_distinct) as (Hinit & _ & _ & Hrefund).
  split.
  - split; [vm_compute; reflexivity |]. split; [vm_compute; reflexivity |].
    apply Hrefund.
  - split; [vm_compute; reflexivity |]. apply Hinit.
Defined.

(** X21: the owner of the hall asks for the refund of the completed payment
    of 32000. *)
Lemma initiateRefund_records_request_witness :
  ∃ refund,
    initiateRefund 7%nat "event called off" 2%nat 1773000060000 "4E5F6A7B"
      Sample.verifiedOnce
      = (inr refund, withNewPayment refund Sample.verifiedOnce)
    ∧ Payment.amount refund = -32000
    ∧ Payment.status refund = TX_PENDING
    ∧ Payment.userId refund = 2%nat.
Proof.
  destruct (proj2 (proj2 (initiateRefund_records_request Sample.verifiedOnce
                            7%nat "event called off" 2%nat 1773000060000
                            "4E5F6A7B")
                     (complete (Some "000AWEO")
                        (EsewaDecoded Sample.esewaSuccess)
                        (Sample.payment BALANCE 32000 TX_INITIATED None))
                     eq_refl) eq_refl)
    as (refund & Hrun & Hamount & _ & Hstatus & _ & _ & Huser & _).
  - intros q Hq. vm_compute in Hq. apply list_elem_of_singleton in Hq as ->.
    vm_compute. discriminate.
  - exists refund. split; [exact Hrun |]. split; [exact Hamount |].
    split; [exact Hstatus | exact Huser].
Defined.

(** X22: an advance of 8000 on 40000, then the balance of 32000, both
    through eSewa. *)
Lemma advance_then_balance_pays_total_witness :
  ∃ result2 st3 b3,
    verifyEsewaPayment (Some Sample.esewaBalance) Sample.balanceInitiated
      = (inr result2, st3)
    ∧ bookingModel st3 !! 100%nat = Some b3
    ∧ Booking.advancePaid b3 = 40000
    ∧ Booking.balanceAmount b3 = 0
    ∧ Booking.paymentStatus b3 = PAID.
Proof.
  destruct (advance_then_balance_pays_total "" Sample.advanceDue
              Sample.advanceVerified Sample.balanceInitiated
              (Sample.payment ADVANCE 8000 TX_INITIATED None)
              (Sample.booking 10%nat 40000 0 PENDING UNPAID)
              Sample.esewaSuccess Sample.esewaBalance
              {| success := true;
                 message := "Payment verified successfully";
                 payment := complete (Some "000AWEO")
                              (EsewaDecoded Sample.esewaSuccess)
                              (Sample.payment ADVANCE 8000 TX_INITIATED None) |}
              (Sample.payDto BALANCE 32000) 1%nat 1773000060000 "4E5F6A7B" None
              8%nat "PAY-1773000060000-4E5F6A7B" 32000
              eq_refl eq_refl eq_refl eq_refl eq_refl eq_refl eq_refl eq_refl
              eq_refl eq_refl)
    as (result2 & st3 & b3 & Hrun & _ & Hb3 & Hpaid & _ & Hbal & Hstatus & _).
  exists result2, st3, b3. split; [exact Hrun |]. split; [exact Hb3 |].
  split; [exact Hpaid |]. split; [exact Hbal | exact Hstatus].
Defined.

(** X23: the owner blocks 15 March, given as midnight UTC; the request for
    ten in the morning of that day is refused. *)
Lemma blockDates_closes_days_witness :
  ∃ venue',
    VenueService.blockDates 10%nat [Sample.march15] 2%nat Sample.emptyStore
      = (inr venue', withVenue 10%nat venue' Sample.emptyStore)
    ∧ Venue.pricePerHour venue' = 5000
    ∧ create Sample.kathmandu Sample.morningDto 1%nat
        (withVenue 10%nat venue' Sample.emptyStore)
      = (inl (BadRequestException
                "Venue is not available for the selected date and time"),
         withVenue 10%nat venue' Sample.emptyStore).
Proof.
  destruct (proj2 (proj2 (blockDates_closes_days Sample.kathmandu
                            Sample.emptyStore 10%nat [Sample.march15] 2%nat)
                     Sample.hall eq_refl) eq_refl)
    as (venue' & Hrun & _ & Hkept & _ & _ & Hcreate).
  exists venue'. split; [exact Hrun |]. split.
  - destruct Hkept as (_ & _ & _ & _ & Hprice & _). exact Hprice.
  - apply (Hcreate Sample.march15 Sample.morningDto 1%nat).
    + right. by left.
    + reflexivity.
    + exists 20527. split; split; vm_compute; first [reflexivity | discriminate].
    + reflexivity.
    + split; vm_compute; discriminate.
Defined.

(** X24: the hall is blocked on 1 April at midnight UTC; the owner unblocks
    1 April at one o'clock, and the day stays closed: a slot at ten in the
    morning of 1 April is refused. *)
Lemma unblockDates_removes_instants_witness :
  ∃ venue',
    VenueService.unblockDates 10%nat [Sample.april1 + msPerHour] 2%nat
      Sample.emptyStore
      = (inr venue', withVenue 10%nat venue' Sample.emptyStore)
    ∧ Venue.blockedDates venue' = [Sample.april1]
    ∧ checkAvailability Sample.kathmandu 10%nat (Sample.april1 + 36000000)
        "10:00" "12:00" (withVenue 10%nat venue' Sample.emptyStore)
      = (inr false, withVenue 10%nat venue' Sample.emptyStore).
Proof.
  destruct (unblockDates_removes_instants Sample.kathmandu Sample.emptyStore
              10%nat [Sample.april1 + msPerHour] 2%nat Sample.hall
              eq_refl eq_refl)
    as (venue' & Hrun & Hdates & _ & _ & Hclosed & _).
  exists venue'. split; [exact Hrun |]. split; [exact Hdates |].
  apply (Hclosed Sample.april1); [by left | |].
  - intros Hin. apply list_elem_of_singleton in Hin. vm_compute in Hin.
    discriminate.
  - exists 20544. split; split; vm_compute; first [reflexivity | discriminate].
Defined.

(** X25: the owner blocks 15 March for the garden and unblocks it. *)
Lemma block_then_unblock_witness :
  ∃ v1 st1 v2,
    VenueService.blockDates 11%nat [Sample.march15] 2%nat Sample.emptyStore
      = (inr v1, st1)
    ∧ VenueService.unblockDates 11%nat [Sample.march15] 2%nat st1
      = (inr v2, Sample.emptyStore)
    ∧ v2 = Sample.garden.
Proof.
  destruct (block_then_unblock Sample.emptyStore 11%nat [Sample.march15] 2%nat
              Sample.garden eq_refl eq_refl)
    as (v1 & st1 & v2 & st2 & Hblock & Hunblock & _ & Hback).
  destruct Hback as [-> ->].
  - intros d _ Hd. by apply not_elem_of_nil in Hd.
  - exists v1, st1, Sample.garden. done.
Defined.

(** X26: half past nine. *)
Lemma validated_time_parses_witness :
  ∃ h m, JS.parsePart "09:30" 0 = Some h ∧ JS.parsePart "09:30" 1 = Some m
         ∧ minutes "09:30" = Some (60 * h + m)
         ∧ 0 <= h <= 23 ∧ 0 <= m <= 59 ∧ 0 <= 60 * h + m < 1440.
Proof. exact (validated_time_parses "09:30" eq_refl). Defined.

(** X27: 10:00 to 18:00 in the hall. *)
Lemma validated_create_charges_clock_hours_witness :
  ∃ id b venue startHour endHour,
    create Sample.kathmandu Sample.createDto 1%nat Sample.emptyStore
      = (inr (id, b), withBooking id b Sample.emptyStore)
    ∧ venueModel Sample.emptyStore !! 10%nat = Some venue
    ∧ Booking.totalAmount b = (endHour - startHour) * Venue.pricePerHour venue.
Proof.
  destruct (create_succeeds Sample.kathmandu Sample.emptyStore Sample.createDto
              1%nat Sample.hall 40000 eq_refl eq_refl
              (conj (proj1 (Z.leb_le 50 200) eq_refl)
                    (proj1 (Z.leb_le 200 500) eq_refl))
              eq_refl eq_refl) as (id & b & Hrun & _).
  destruct (proj2 (validated_create_charges_clock_hours Sample.kathmandu
                     Sample.emptyStore Sample.createDto 1%nat eq_refl eq_refl)
              id b _ Hrun)
    as (venue & startHour & _ & endHour & _ & Hv & _ & _ & _ & _ & Htotal & _).
  exists id, b, venue, startHour, endHour.
  split; [exact Hrun |]. split; [exact Hv | exact Htotal].
Defined.

(** X28: a quarter past nine, written with one digit for the hour. *)
Lemma pattern_accepts_times_of_day_witness :
  TimePattern.matches "9:15" = true ∧ minutes "9:15" = Some 555.
Proof.
  split.
  - apply (proj2 (proj1 (pattern_accepts_times_of_day "9:15"))).
    exists 9, 15. split; [lia |]. split; [lia |]. right.
    split; [lia | reflexivity].
  - apply (proj2 (pattern_accepts_times_of_day "9:15") 9 15).
    split; [lia |]. split; [lia |]. right. split; [lia | reflexivity].
Defined.
